(** * ML production systems notebooks: a verification development

    The repository is a set of Jupyter notebooks (chapters 2 to 5 of the
    book).  Its Python lives in the code cells of chapters 2 and 5 and in
    the fenced [python] blocks of the markdown cells of chapters 3 and 4.

    The development has two halves.

    - Shallow embeddings of the snippets that compute something of their
      own: the feature cross, the data-cleaning filter, the correlation
      filter, the two Snorkel labeling functions, and the snippets that
      sequence third-party calls (as programs over a signature of library
      calls, run against an arbitrary implementation of the libraries).
    - The snippets themselves as syntax trees, with the syntactic
      analyses the structural statements about the notebooks need. *)

From Stdlib Require Import ZArith List Bool String Ascii Lia DecimalString Sorted.
From Corelib Require Import PrimFloat.
From stdpp Require Import base option list gmap strings.

Set Warnings "-register-all,-inexact-float".

Local Open Scope Z_scope.

(* ===================================================================== *)
(** ** Chapter 3, "Feature Crosses"

    [df = pd.DataFrame({"day": [1, 2], "hour": [10, 12]})]
    [df["hour_of_week"] = df["day"] * 24 + df["hour"]]

    A column built from Python integers has dtype [int64]; arithmetic on
    such columns is NumPy's, which wraps around silently. *)

Module FeatureCross.

Definition int64_min : Z := - 2 ^ 63.
Definition int64_max : Z := 2 ^ 63 - 1.

Definition in_int64 (z : Z) : Prop := int64_min <= z <= int64_max.

(** Two's-complement reduction of an exact result to [int64]. *)
Definition wrap64 (z : Z) : Z := (z + 2 ^ 63) mod 2 ^ 64 - 2 ^ 63.

(** [a * k] for an [int64] element and a Python scalar, [a + b] for two
    [int64] elements. *)
Definition mul64 (a k : Z) : Z := wrap64 (a * k).
Definition add64 (a b : Z) : Z := wrap64 (a + b).

(** One element of [df["day"] * 24 + df["hour"]]. *)
Definition hour_of_week (day hour : Z) : Z := add64 (mul64 day 24) hour.

(** A frame with [int64] columns only: row labels and named columns. *)
Record DataFrame := {
  index : list Z;
  columns : gmap string (list Z)
}.

(** [s * k] and [s1 + s2] on columns of one frame (same index, so the
    alignment is positional). *)
Definition series_mul (s : list Z) (k : Z) : list Z := (λ a, mul64 a k) <$> s.
Definition series_add (s1 s2 : list Z) : list Z := zip_with add64 s1 s2.

(** [df["hour_of_week"] = df["day"] * 24 + df["hour"]]; a missing column
    is a [KeyError], here [None]. *)
Definition add_hour_of_week (df : DataFrame) : option DataFrame :=
  day ← columns df !! "day"%string;
  hour ← columns df !! "hour"%string;
  Some {| index := index df;
          columns := <["hour_of_week"%string := series_add (series_mul day 24) hour]>
                       (columns df) |}.

(** The frame of the snippet. *)
Definition df0 : DataFrame :=
  {| index := [0; 1];
     columns := <["day"%string := [1; 2]]> (<["hour"%string := [10; 12]]> ∅) |}.

(** The reading of the cross the text gives: recover the two features. *)
Definition recover (how : Z) : Z * Z := (how / 24, how mod 24).

End FeatureCross.

(* ===================================================================== *)
(** ** Chapter 3, "Data Cleaning Example"

    [df = pd.DataFrame({"timestamp": ["00:00", "12:00", "00:00"]})]
    [df_cleaned = df[df["timestamp"] != "00:00"]]

    Frames are objects on a heap and names are bound to their addresses,
    so that what the filter does to the frame [df] refers to can be
    stated. *)

Module DataCleaning.

(** What a cell of an object column may hold. *)
Inductive pyval :=
| VStr (s : string)
| VInt (z : Z)
| VMissing.

Record Series (A : Type) := {
  s_index : list Z;
  s_values : list A
}.
Arguments s_index {A} _.
Arguments s_values {A} _.

Record DataFrame := {
  index : list Z;
  columns : gmap string (list pyval)
}.

(** Every column is as long as the index. *)
Definition wf_frame (d : DataFrame) : Prop :=
  ∀ c vs, columns d !! c = Some vs → length vs = length (index d).

Inductive pyerror :=
| NameError (name : string)
| KeyError (key : string)
| ValueError (msg : string).

Inductive result (A : Type) :=
| Ok (a : A)
| Raise (e : pyerror).
Arguments Ok {A} a.
Arguments Raise {A} e.

#[export] Instance result_ret : MRet result := λ A a, Ok a.

#[export] Instance result_bind : MBind result := λ A B k r,
  match r with
  | Ok a => k a
  | Raise e => Raise e
  end.

(** [df[name]]: the column as a series on the frame's index. *)
Definition getitem_col (d : DataFrame) (name : string) : result (Series pyval) :=
  match columns d !! name with
  | Some vs => Ok {| s_index := index d; s_values := vs |}
  | None => Raise (KeyError name)
  end.

(** [v != s] for a cell and a string scalar: only an equal string is not
    different; a missing value differs from everything. *)
Definition ne_scalar (s : string) (v : pyval) : bool :=
  match v with
  | VStr t => negb (String.eqb t s)
  | VInt _ => true
  | VMissing => true
  end.

(** [series != s], element by element. *)
Definition series_ne (ser : Series pyval) (s : string) : Series bool :=
  {| s_index := s_index ser; s_values := ne_scalar s <$> s_values ser |}.

(** The entries of [l] at the positions where [mask] holds. *)
Fixpoint select {A} (mask : list bool) (l : list A) : list A :=
  match mask, l with
  | b :: mask', x :: l' => if b then x :: select mask' l' else select mask' l'
  | _, _ => []
  end.

(** [df[mask]] for a boolean series: the mask must be on the frame's
    index; the result is a new frame. *)
Definition getitem_mask (d : DataFrame) (mask : Series bool) : result DataFrame :=
  if decide (s_index mask = index d ∧ length (s_values mask) = length (index d)) then
    Ok {| index := select (s_values mask) (index d);
          columns := select (s_values mask) <$> columns d |}
  else Raise (ValueError "Item wrong length").

(** The expression [df[df["timestamp"] != "00:00"]] on a frame. *)
Definition cleaned (d : DataFrame) : result DataFrame :=
  ts ← getitem_col d "timestamp";
  getitem_mask d (series_ne ts "00:00").

(** The notebook's namespace and the frames it refers to. *)
Definition loc := positive.

Record state := {
  names : gmap string loc;
  heap : gmap loc DataFrame
}.

Definition lookup_name (σ : state) (x : string) : result DataFrame :=
  match names σ !! x with
  | Some l =>
      match heap σ !! l with
      | Some d => Ok d
      | None => Raise (NameError x)
      end
  | None => Raise (NameError x)
  end.

(** [x = <new frame d>]: the frame is put at an unused address. *)
Definition assign_new (σ : state) (x : string) (d : DataFrame) : state :=
  let l := fresh (dom (heap σ)) in
  {| names := <[x := l]> (names σ); heap := <[l := d]> (heap σ) |}.

(** [df = pd.DataFrame({"timestamp": ["00:00", "12:00", "00:00"]})] *)
Definition df0 : DataFrame :=
  {| index := [0; 1; 2];
     columns := {[ "timestamp"%string := [VStr "00:00"; VStr "12:00"; VStr "00:00"] ]} |}.

Definition make_df (σ : state) : state := assign_new σ "df" df0.

(** A notebook in which nothing has run yet. *)
Definition fresh_kernel : state := {| names := ∅; heap := ∅ |}.

(** [df_cleaned = df[df["timestamp"] != "00:00"]] *)
Definition clean (σ : state) : result state :=
  d ← lookup_name σ "df";
  d' ← cleaned d;
  Ok (assign_new σ "df_cleaned" d').

(** Rows, for stating what the filter keeps: the label and the cells of
    one position. *)
Record Row := {
  label : Z;
  cells : gmap string pyval
}.

Definition row (d : DataFrame) (i : nat) : option Row :=
  lbl ← index d !! i;
  Some {| label := lbl; cells := omap (λ vs : list pyval, vs !! i) (columns d) |}.

Definition rows (d : DataFrame) : list Row :=
  omap (row d) (seq 0 (length (index d))).

(** The row's timestamp differs from ["00:00"]. *)
Definition differs (r : Row) : bool :=
  match cells r !! "timestamp"%string with
  | Some v => ne_scalar "00:00" v
  | None => true
  end.

End DataCleaning.

(* ===================================================================== *)
(** ** Chapter 5, "Weak Supervision with Snorkel"

    [@labeling_function()]
    [def lf_contains_my(x): return 1 if "my" in x.text.lower() else -1]
    [@labeling_function()]
    [def lf_short_comment(x): return 0 if len(x.text.split()) < 5 else -1]

    A Python [str] is a sequence of Unicode code points.  [str.lower] is
    the interpreter's and is left as a parameter; the substring test, the
    whitespace split and the two functions are written out. *)

Module Labeling.

Definition codepoint := N.
Definition str := list codepoint.

(** A Rocq string literal as a [str] (one code point per character). *)
Definition codepoints (s : string) : str :=
  N_of_ascii <$> list_ascii_of_string s.

(** [str.isspace] on one code point, as [str.split()] uses it: the
    interpreter's whitespace table. *)
Definition isspace (c : codepoint) : bool :=
  ((9 <=? c) && (c <=? 13) || (28 <=? c) && (c <=? 32)
   || (c =? 133) || (c =? 160) || (c =? 5760)
   || (8192 <=? c) && (c <=? 8202)
   || (c =? 8232) || (c =? 8233) || (c =? 8239) || (c =? 8287)
   || (c =? 12288))%N.

(** [s.startswith(sub)] *)
Fixpoint startswith (sub s : str) : bool :=
  match sub, s with
  | [], _ => true
  | _ :: _, [] => false
  | a :: sub', b :: s' => (a =? b)%N && startswith sub' s'
  end.

(** [sub in s]: [sub] starts at some position of [s]. *)
Fixpoint contains (sub s : str) : bool :=
  startswith sub s ||
  match s with
  | [] => false
  | _ :: s' => contains sub s'
  end.

(** [s.split()]: the maximal runs of characters that are not whitespace.
    [tok] is the run being read, last character first. *)
Definition flush (tok : str) (rest : list str) : list str :=
  match tok with
  | [] => rest
  | _ :: _ => rev tok :: rest
  end.

Fixpoint split_acc (tok : str) (s : str) : list str :=
  match s with
  | [] => flush tok []
  | c :: s' =>
      if isspace c then flush tok (split_acc [] s')
      else split_acc (c :: tok) s'
  end.

Definition split (s : str) : list str := split_acc [] s.

(** [len(l)] as a Python integer. *)
Definition len {A} (l : list A) : Z := Z.of_nat (length l).

(** A data point: what the labeling functions read is its [text]. *)
Record DataPoint := { text : str }.

(** Snorkel's [LabelingFunction]: the decorator wraps the function under
    its name; calling the object applies the function to the point. *)
Record LabelingFunction := {
  lf_name : string;
  lf_f : DataPoint → Z
}.

Definition labeling_function (name : string) (f : DataPoint → Z) : LabelingFunction :=
  {| lf_name := name; lf_f := f |}.

Definition apply_lf (lf : LabelingFunction) (x : DataPoint) : Z := lf_f lf x.

Section Functions.

Variable lower : str → str.

Definition lf_contains_my : LabelingFunction :=
  labeling_function "lf_contains_my"
    (λ x, if contains (codepoints "my") (lower (text x)) then 1 else -1).

Definition lf_short_comment : LabelingFunction :=
  labeling_function "lf_short_comment"
    (λ x, if len (split (text x)) <? 5 then 0 else -1).

End Functions.

(** [str.lower] restricted to ASCII letters, for running the functions. *)
Definition ascii_lower (s : str) : str :=
  (λ c, if (65 <=? c) && (c <=? 90) then c + 32 else c)%N <$> s.

(** The reading of "[sub] occurs in [s]". *)
Definition occurs_in (sub s : str) : Prop :=
  ∃ pre post, s = pre ++ sub ++ post.

(** The reading of "whitespace-separated tokens": [s] is blank, or blanks,
    a non-empty token free of whitespace that ends at the end of [s] or
    before a whitespace character, and the tokens of what follows. *)
Definition at_boundary (s : str) : bool :=
  match s with
  | [] => true
  | c :: _ => isspace c
  end.

Inductive tokens_of : str → list str → Prop :=
| tokens_blank ws :
    Forall (λ c, isspace c = true) ws →
    tokens_of ws []
| tokens_word ws t rest ts :
    Forall (λ c, isspace c = true) ws →
    t ≠ [] →
    Forall (λ c, isspace c = false) t →
    at_boundary rest = true →
    tokens_of rest ts →
    tokens_of (ws ++ t ++ rest) (t :: ts).

End Labeling.

(* ===================================================================== *)
(** ** Snippets that sequence third-party calls

    [univariate_selection] (chapter 3), [augment] (chapter 5) and the
    TFDV statistics cells (chapter 2) do nothing but call scikit-learn,
    TensorFlow and TFDV.  They are written as programs over a signature of
    library operations; an implementation of the libraries answers each
    operation with a value or an exception and may change the world
    (random state, files, the display). *)

Module LibraryCalls.

(** Python values as the snippets handle them. *)
Inductive pyobj :=
| PInt (z : Z)
| PFloat (literal : string)
| PStr (s : string)
| PList (items : list pyobj)
| PTuple (items : list pyobj)
| PGlobal (qualname : string)
| PError (cls : string)
| PObj (handle : N).

(** A raised exception is the exception object. *)
Definition exn := pyobj.

(** What a snippet asks of a library. *)
Inductive libop :=
| CallFunc (qualname : string) (args : list pyobj) (kwargs : list (string * pyobj))
| CallMethod (self : pyobj) (meth : string) (args : list pyobj) (kwargs : list (string * pyobj))
| GetAttr (self : pyobj) (attr : string)
| GetItem (self : pyobj) (key : pyobj).

(** The operation's name, without its receiver and arguments. *)
Definition op_name (o : libop) : string :=
  match o with
  | CallFunc qualname _ _ => qualname
  | CallMethod _ meth _ _ => String.append "." meth
  | GetAttr _ attr => String.append "." attr
  | GetItem _ _ => "[]"
  end.

(** Programs: return, raise, or perform an operation and go on with its
    value.  There is no construct that catches. *)
Inductive prog (A : Type) :=
| Ret (a : A)
| Throw (e : exn)
| Op (o : libop) (k : pyobj → prog A).
Arguments Ret {A} a.
Arguments Throw {A} e.
Arguments Op {A} o k.

Fixpoint prog_bind {A B} (k : A → prog B) (p : prog A) : prog B :=
  match p with
  | Ret a => k a
  | Throw e => Throw e
  | Op o k' => Op o (λ v, prog_bind k (k' v))
  end.

#[export] Instance prog_mret : MRet prog := λ A a, Ret a.
#[export] Instance prog_mbind : MBind prog := λ A B k p, prog_bind k p.

(** One operation, returning its value. *)
Definition op (o : libop) : prog pyobj := Op o Ret.

Inductive outcome (A : Type) :=
| Returned (a : A)
| Raised (e : exn).
Arguments Returned {A} a.
Arguments Raised {A} e.

Section Run.

Variable world : Type.
Variable library : libop → world → outcome pyobj * world.

(** Running a program against the libraries. *)
Fixpoint run {A} (p : prog A) (w : world) : outcome A * world :=
  match p with
  | Ret a => (Returned a, w)
  | Throw e => (Raised e, w)
  | Op o k =>
      match library o w with
      | (Returned v, w') => run (k v) w'
      | (Raised e, w') => (Raised e, w')
      end
  end.

(** The operations a run performs, in order, each with its answer. *)
Fixpoint trace {A} (p : prog A) (w : world) : list (libop * outcome pyobj) :=
  match p with
  | Ret _ => []
  | Throw _ => []
  | Op o k =>
      match library o w with
      | (Returned v, w') => (o, Returned v) :: trace (k v) w'
      | (Raised e, _) => [(o, Raised e)]
      end
  end.

(** The library answered the operation with a value. *)
Definition answered (ev : libop * outcome pyobj) : Prop :=
  ∃ v, snd ev = Returned v.

(** The reading of "propagates the exception unchanged": whenever the
    library answers an operation of the run with an exception, that
    operation is the last one performed, every earlier one was answered
    with a value, and the run ends raising the same exception. *)
Definition propagates {A} (p : prog A) : Prop :=
  ∀ w o e,
    In (o, Raised e) (trace p w) →
    fst (run p w) = Raised e ∧
    ∃ before, trace p w = (before ++ [(o, Raised e)])%list ∧ Forall answered before.

(** The reading of "no fallback value": a run that returns a value was
    answered with a value at every operation. *)
Definition no_fallback {A} (p : prog A) : Prop :=
  ∀ w a, fst (run p w) = Returned a → Forall answered (trace p w).

End Run.

(** [a, _, c, _ = r] *)
Definition unpack4 (r : pyobj) : prog (pyobj * pyobj) :=
  match r with
  | PList [a; _; c; _] | PTuple [a; _; c; _] => Ret (a, c)
  | PList _ | PTuple _ => Throw (PError "ValueError")
  | _ => Throw (PError "TypeError")
  end.

(** Chapter 3:
    [def univariate_selection(X, y):]
    [    X_train, _, y_train, _ = train_test_split(X, y, stratify=y, test_size=0.2)]
    [    X_scaled = MinMaxScaler().fit_transform(X_train)]
    [    selector = SelectKBest(score_func=chi2, k=10)]
    [    selector.fit(X_scaled, y_train)]
    [    return X.columns[selector.get_support()]] *)
Definition univariate_selection (X y : pyobj) : prog pyobj :=
  r ← op (CallFunc "sklearn.model_selection.train_test_split" [X; y]
            [("stratify"%string, y); ("test_size"%string, PFloat "0.2")]);
  '(X_train, y_train) ← unpack4 r;
  scaler ← op (CallFunc "sklearn.preprocessing.MinMaxScaler" [] []);
  X_scaled ← op (CallMethod scaler "fit_transform" [X_train] []);
  selector ← op (CallFunc "sklearn.feature_selection.SelectKBest" []
                   [("score_func"%string, PGlobal "sklearn.feature_selection.chi2");
                    ("k"%string, PInt 10)]);
  _ ← op (CallMethod selector "fit" [X_scaled; y_train] []);
  cols ← op (GetAttr X "columns");
  support ← op (CallMethod selector "get_support" [] []);
  op (GetItem cols support).

(** Chapter 5:
    [def augment(x, height, width, num_channels):]
    [    x = tf.image.resize_with_crop_or_pad(x, height + 8, width + 8)]
    [    x = tf.image.random_crop(x, [height, width, num_channels])]
    [    x = tf.image.random_flip_left_right(x)]
    [    return x] *)
Definition augment (x : pyobj) (height width num_channels : Z) : prog pyobj :=
  x ← op (CallFunc "tf.image.resize_with_crop_or_pad"
            [x; PInt (height + 8); PInt (width + 8)] []);
  x ← op (CallFunc "tf.image.random_crop"
            [x; PList [PInt height; PInt width; PInt num_channels]] []);
  x ← op (CallFunc "tf.image.random_flip_left_right" [x] []);
  mret x.

(** Chapter 2, the three statistics cells; each returns the [stats] it
    leaves bound.
    [stats = tfdv.generate_statistics_from_csv(data_location='your_data.csv', delimiter=',')] *)
Definition stats_from_csv : prog pyobj :=
  op (CallFunc "tfdv.generate_statistics_from_csv" []
        [("data_location"%string, PStr "your_data.csv"); ("delimiter"%string, PStr ",")]).

(** [stats = tfdv.generate_statistics_from_tfrecord(data_location='your_data.tfrecord')]
    [tfdv.visualize_statistics(stats)] *)
Definition stats_from_tfrecord : prog pyobj :=
  stats ← op (CallFunc "tfdv.generate_statistics_from_tfrecord" []
                [("data_location"%string, PStr "your_data.tfrecord")]);
  _ ← op (CallFunc "tfdv.visualize_statistics" [stats] []);
  mret stats.

(** [print(stats.datasets[0].features[0].string_stats.rank_histogram)] *)
Definition print_rank_histogram (stats : pyobj) : prog pyobj :=
  datasets ← op (GetAttr stats "datasets");
  dataset ← op (GetItem datasets (PInt 0));
  features ← op (GetAttr dataset "features");
  feature ← op (GetItem features (PInt 0));
  string_stats ← op (GetAttr feature "string_stats");
  histogram ← op (GetAttr string_stats "rank_histogram");
  op (CallFunc "builtins.print" [histogram] []).

(** A toy implementation of the libraries for running the programs: the
    world counts the objects made so far; every operation makes a new
    object, except that fitting anything raises. *)
Definition toy_library (o : libop) (w : N) : outcome pyobj * N :=
  match o with
  | CallMethod _ "fit" _ _ => (Raised (PError "ValueError"), w)
  | CallFunc "sklearn.model_selection.train_test_split" _ _ =>
      (Returned (PList [PObj w; PObj (w + 1); PObj (w + 2); PObj (w + 3)]), (w + 4)%N)
  | _ => (Returned (PObj w), (w + 1)%N)
  end.

End LibraryCalls.

(* ===================================================================== *)
(** ** The snippets as syntax

    The Python of the notebooks, as the trees [ast.parse] gives (trimmed
    to the node kinds Python code of this size can be expected to use),
    and IPython's shell escape. *)

Module Py.

Local Open Scope string_scope.

Inductive constant :=
| CInt (z : Z)
| CFloat (literal : string)
| CStr (s : string)
| CBool (b : bool)
| CNone
| CEllipsis.

Inductive binop := OpAdd | OpSub | OpMult | OpDiv | OpFloorDiv | OpMod | OpPow.
Inductive cmpop := OpEq | OpNotEq | OpLt | OpLtE | OpGt | OpGtE | OpIn | OpNotIn.
Inductive boolop := OpAnd | OpOr.

Inductive expr :=
| EName (id : string)
| EConst (c : constant)
| EAttr (value : expr) (attr : string)
| ECall (func : expr) (args : list expr) (keywords : list (string * expr))
| ESubscript (value : expr) (slice : expr)
| ESlice (lower upper : option expr)
| ETuple (elts : list expr)
| EList (elts : list expr)
| EDict (keys values : list expr)
| EBinOp (left : expr) (op : binop) (right : expr)
| EBoolOp (op : boolop) (values : list expr)
| ENot (operand : expr)
| ECompare (left : expr) (op : cmpop) (right : expr)
| EIfExp (test body orelse : expr)
| ELambda (params : list string) (body : expr)
| EAwait (value : expr)
| EYield (value : option expr).

Inductive stmt :=
| SImport (module : string) (asname : option string)
| SImportFrom (module : string) (names : list string)
| SAssign (target : expr) (value : expr)
| SAnnAssign (target : expr) (annotation : expr) (value : option expr)
| SExpr (value : expr)
| SReturn (value : expr)
| SFunctionDef (is_async : bool) (name : string) (decorators : list expr)
               (params : list string) (body : list stmt)
| SIf (test : expr) (body orelse : list stmt)
| SFor (target iter : expr) (body : list stmt)
| SWhile (test : expr) (body : list stmt)
| STry (body : list stmt) (handlers : list (list stmt)) (finalbody : list stmt)
| SWith (items : list expr) (body : list stmt)
| SRaise (exc : expr)
| SShellEscape (command : string).

(** [base.a1.a2...]: a dotted name. *)
Definition dotted (base : string) (attrs : list string) : expr :=
  fold_left EAttr attrs (EName base).

Definition int (z : Z) : expr := EConst (CInt z).
Definition float (literal : string) : expr := EConst (CFloat literal).
Definition lit (s : string) : expr := EConst (CStr s).

(** [f(args)] without keywords. *)
Definition call (f : expr) (args : list expr) : expr := ECall f args [].

(** A plain [def]. *)
Definition def (name : string) (params : list string) (body : list stmt) : stmt :=
  SFunctionDef false name [] params body.

Definition opt_list {A} (o : option A) : list A :=
  match o with
  | Some a => [a]
  | None => []
  end.

(** The nodes of an expression, the expression itself first. *)
Fixpoint nodes (e : expr) : list expr :=
  e ::
  match e with
  | EName _ | EConst _ => []
  | EAttr v _ => nodes v
  | ECall f args kws =>
      (nodes f ++ flat_map nodes args ++ flat_map (λ kw, nodes (snd kw)) kws)%list
  | ESubscript v s => (nodes v ++ nodes s)%list
  | ESlice lo hi =>
      (match lo with Some l => nodes l | None => [] end ++
       match hi with Some h => nodes h | None => [] end)%list
  | ETuple es | EList es | EBoolOp _ es => flat_map nodes es
  | EDict ks vs => (flat_map nodes ks ++ flat_map nodes vs)%list
  | EBinOp l _ r | ECompare l _ r => (nodes l ++ nodes r)%list
  | ENot v | ELambda _ v | EAwait v => nodes v
  | EIfExp t b o => (nodes t ++ nodes b ++ nodes o)%list
  | EYield v => match v with Some w => nodes w | None => [] end
  end.

(** The statements of a statement, itself first. *)
Fixpoint substmts (s : stmt) : list stmt :=
  s ::
  match s with
  | SFunctionDef _ _ _ _ body | SFor _ _ body | SWhile _ body | SWith _ body =>
      flat_map substmts body
  | SIf _ body orelse => (flat_map substmts body ++ flat_map substmts orelse)%list
  | STry body handlers finalbody =>
      (flat_map substmts body ++ flat_map (flat_map substmts) handlers
       ++ flat_map substmts finalbody)%list
  | _ => []
  end.

(** The expressions a statement holds directly. *)
Definition own_exprs (s : stmt) : list expr :=
  match s with
  | SAssign t v => [t; v]
  | SAnnAssign t a v => t :: a :: opt_list v
  | SExpr v | SReturn v | SRaise v => [v]
  | SFunctionDef _ _ decorators _ _ => decorators
  | SIf t _ _ | SWhile t _ => [t]
  | SFor t i _ => [t; i]
  | SWith items _ => items
  | _ => []
  end.

(** Every statement and every expression node of a block. *)
Definition block_stmts (b : list stmt) : list stmt := flat_map substmts b.
Definition block_nodes (b : list stmt) : list expr :=
  flat_map nodes (flat_map own_exprs (block_stmts b)).

End Py.

(* ===================================================================== *)
(** ** The notebooks

    Every code cell of chapters 2 and 5 and every fenced [python] block
    of the markdown cells of chapters 3 and 4 that holds Python
    statements, in the order of the file: twenty-four snippets.
    (Chapter 4 has three more fenced blocks: a [python] block of
    comments only, a [python] block of schema text in protobuf notation
    that is not Python, and a [protobuf] block.  Its fourth block of
    schema text, the drift threshold, is a Python statement as it
    stands and is a snippet here.  Chapter 5 shows an example call of
    [augment] in running text.)  [sn_lines] are the first and last line
    of the code in the notebook file, [sn_section] the heading it stands
    under. *)

Module Notebooks.

Import Py.
Local Open Scope string_scope.

Inductive notebook := Chapter2 | Chapter3 | Chapter4 | Chapter5.

Inductive place := CodeCell | MarkdownFence.

Record snippet := {
  sn_notebook : notebook;
  sn_place : place;
  sn_lines : nat * nat;
  sn_section : string;
  sn_body : list stmt
}.

(** *** Chapter 2: collecting, labeling and validating data *)

Definition tfdv_section : string := "Using TensorFlow Data Validation (TFDV)".

Definition ch2_install : snippet :=
  {| sn_notebook := Chapter2; sn_place := CodeCell; sn_lines := (146, 147)%nat;
     sn_section := tfdv_section;
     sn_body := [ SShellEscape "pip install tensorflow-data-validation" ] |}.

Definition ch2_stats_csv : snippet :=
  {| sn_notebook := Chapter2; sn_place := CodeCell; sn_lines := (160, 166)%nat;
     sn_section := tfdv_section;
     sn_body :=
       [ SImport "tensorflow_data_validation" (Some "tfdv");
         SAssign (EName "stats")
           (ECall (dotted "tfdv" ["generate_statistics_from_csv"]) []
              [("data_location", lit "your_data.csv"); ("delimiter", lit ",")]) ] |}.

Definition ch2_stats_tfrecord : snippet :=
  {| sn_notebook := Chapter2; sn_place := CodeCell; sn_lines := (179, 185)%nat;
     sn_section := tfdv_section;
     sn_body :=
       [ SAssign (EName "stats")
           (ECall (dotted "tfdv" ["generate_statistics_from_tfrecord"]) []
              [("data_location", lit "your_data.tfrecord")]);
         SExpr (call (dotted "tfdv" ["visualize_statistics"]) [EName "stats"]) ] |}.

Definition ch2_print_histogram : snippet :=
  {| sn_notebook := Chapter2; sn_place := CodeCell; sn_lines := (199, 210)%nat;
     sn_section := tfdv_section;
     sn_body :=
       [ SExpr (call (EName "print")
           [ EAttr (EAttr
               (ESubscript (EAttr
                  (ESubscript (EAttr (EName "stats") "datasets") (int 0))
                  "features") (int 0))
               "string_stats") "rank_histogram" ]) ] |}.

Definition chapter2 : list snippet :=
  [ch2_install; ch2_stats_csv; ch2_stats_tfrecord; ch2_print_histogram].

(** *** Chapter 3: feature engineering and feature selection *)

Definition ch3_feature_std : snippet :=
  {| sn_notebook := Chapter3; sn_place := MarkdownFence; sn_lines := (44, 47)%nat;
     sn_section := "Matching Training and Serving";
     sn_body :=
       [ SImport "numpy" (Some "np");
         def "compute_feature_std" ["feature_column"]
           [ SReturn (call (dotted "np" ["std"]) [EName "feature_column"]) ] ] |}.

Definition ch3_scaling : snippet :=
  {| sn_notebook := Chapter3; sn_place := MarkdownFence; sn_lines := (73, 78)%nat;
     sn_section := "Common Preprocessing Operations";
     sn_body :=
       [ SImport "pandas" (Some "pd");
         SImportFrom "sklearn.preprocessing" ["MinMaxScaler"; "StandardScaler"];
         SAssign (EName "X") (EList [EList [int 1]; EList [int 2]; EList [int 3]]);
         SAssign (EName "X_norm")
           (call (EAttr (call (EName "MinMaxScaler") []) "fit_transform") [EName "X"]);
         SAssign (EName "X_std")
           (call (EAttr (call (EName "StandardScaler") []) "fit_transform") [EName "X"]) ] |}.

Definition ch3_cleaning : snippet :=
  {| sn_notebook := Chapter3; sn_place := MarkdownFence; sn_lines := (91, 92)%nat;
     sn_section := "Data Cleaning Example";
     sn_body :=
       [ SAssign (EName "df")
           (call (dotted "pd" ["DataFrame"])
              [ EDict [lit "timestamp"] [EList [lit "00:00"; lit "12:00"; lit "00:00"]] ]);
         SAssign (EName "df_cleaned")
           (ESubscript (EName "df")
              (ECompare (ESubscript (EName "df") (lit "timestamp")) OpNotEq (lit "00:00"))) ] |}.

Definition ch3_bucketizing : snippet :=
  {| sn_notebook := Chapter3; sn_place := MarkdownFence; sn_lines := (107, 110)%nat;
     sn_section := "Bucketizing Numerical Features";
     sn_body :=
       [ SImport "pandas" (Some "pd");
         SAssign (EName "values")
           (call (dotted "pd" ["Series"])
              [ EList [int 1; int 2; int 2; int 3; int 4; int 5; int 6; int 7; int 8] ]);
         SAssign (EName "buckets")
           (ECall (dotted "pd" ["qcut"]) [EName "values"]
              [("q", int 3); ("labels", EList [lit "low"; lit "medium"; lit "high"])]) ] |}.

Definition ch3_feature_cross : snippet :=
  {| sn_notebook := Chapter3; sn_place := MarkdownFence; sn_lines := (125, 128)%nat;
     sn_section := "Feature Crosses";
     sn_body :=
       [ SImport "pandas" (Some "pd");
         SAssign (EName "df")
           (call (dotted "pd" ["DataFrame"])
              [ EDict [lit "day"; lit "hour"]
                  [EList [int 1; int 2]; EList [int 10; int 12]] ]);
         SAssign (ESubscript (EName "df") (lit "hour_of_week"))
           (EBinOp
              (EBinOp (ESubscript (EName "df") (lit "day")) OpMult (int 24))
              OpAdd
              (ESubscript (EName "df") (lit "hour"))) ] |}.

Definition ch3_pca : snippet :=
  {| sn_notebook := Chapter3; sn_place := MarkdownFence; sn_lines := (143, 147)%nat;
     sn_section := "Dimensionality Reduction";
     sn_body :=
       [ SImportFrom "sklearn.decomposition" ["PCA"];
         SAssign (EName "X")
           (EList [EList [int 1; int 2]; EList [int 3; int 4]; EList [int 5; int 6]]);
         SAssign (EName "pca") (ECall (EName "PCA") [] [("n_components", int 1)]);
         SAssign (EName "X_reduced")
           (call (dotted "pca" ["fit_transform"]) [EName "X"]) ] |}.

Definition ch3_filter : snippet :=
  {| sn_notebook := Chapter3; sn_place := MarkdownFence; sn_lines := (169, 171)%nat;
     sn_section := "Filter Methods";
     sn_body :=
       [ SAssign (EName "cor") (call (dotted "df" ["corr"]) []);
         SAssign (EName "cor_target")
           (call (EName "abs") [ESubscript (EName "cor") (lit "target")]);
         SAssign (EName "selected_features")
           (EAttr
              (ESubscript (EName "cor_target")
                 (ECompare (EName "cor_target") OpGt (float "0.8")))
              "index") ] |}.

Definition ch3_univariate : snippet :=
  {| sn_notebook := Chapter3; sn_place := MarkdownFence; sn_lines := (184, 193)%nat;
     sn_section := "Univariate Selection";
     sn_body :=
       [ SImportFrom "sklearn.feature_selection" ["SelectKBest"; "chi2"];
         SImportFrom "sklearn.model_selection" ["train_test_split"];
         SImportFrom "sklearn.preprocessing" ["MinMaxScaler"];
         def "univariate_selection" ["X"; "y"]
           [ SAssign (ETuple [EName "X_train"; EName "_"; EName "y_train"; EName "_"])
               (ECall (EName "train_test_split") [EName "X"; EName "y"]
                  [("stratify", EName "y"); ("test_size", float "0.2")]);
             SAssign (EName "X_scaled")
               (call (EAttr (call (EName "MinMaxScaler") []) "fit_transform")
                  [EName "X_train"]);
             SAssign (EName "selector")
               (ECall (EName "SelectKBest") []
                  [("score_func", EName "chi2"); ("k", int 10)]);
             SExpr (call (dotted "selector" ["fit"]) [EName "X_scaled"; EName "y_train"]);
             SReturn (ESubscript (EAttr (EName "X") "columns")
                        (call (dotted "selector" ["get_support"]) [])) ] ] |}.

Definition ch3_rfe : snippet :=
  {| sn_notebook := Chapter3; sn_place := MarkdownFence; sn_lines := (206, 213)%nat;
     sn_section := "Recursive Feature Elimination (RFE)";
     sn_body :=
       [ SImportFrom "sklearn.feature_selection" ["RFE"];
         SImportFrom "sklearn.ensemble" ["RandomForestClassifier"];
         def "run_rfe" ["X"; "y"; "k"]
           [ SAssign (EName "model") (call (EName "RandomForestClassifier") []);
             SAssign (EName "rfe")
               (ECall (EName "RFE") [EName "model"] [("n_features_to_select", EName "k")]);
             SExpr (call (dotted "rfe" ["fit"]) [EName "X"; EName "y"]);
             SReturn (ESubscript (EAttr (EName "X") "columns")
                        (call (dotted "rfe" ["get_support"]) [])) ] ] |}.

Definition ch3_embedded : snippet :=
  {| sn_notebook := Chapter3; sn_place := MarkdownFence; sn_lines := (226, 232)%nat;
     sn_section := "Embedded Methods";
     sn_body :=
       [ SImportFrom "sklearn.feature_selection" ["SelectFromModel"];
         SImportFrom "sklearn.ensemble" ["RandomForestClassifier"];
         SAssign (EName "model") (call (EName "RandomForestClassifier") []);
         SExpr (call (dotted "model" ["fit"]) [EName "X"; EName "y"]);
         SAssign (EName "selector")
           (ECall (EName "SelectFromModel") [EName "model"] [("prefit", EConst (CBool true))]);
         SAssign (EName "X_selected")
           (call (dotted "selector" ["transform"]) [EName "X"]) ] |}.

Definition ch3_tokenization : snippet :=
  {| sn_notebook := Chapter3; sn_place := MarkdownFence; sn_lines := (252, 265)%nat;
     sn_section := "Tokenization with TF Transform";
     sn_body :=
       [ SImport "tensorflow" (Some "tf");
         SImport "tensorflow_hub" (Some "hub");
         SImport "tensorflow_text" (Some "tf_text");
         SAssign (EName "START_TOKEN_ID") (int 101);
         SAssign (EName "END_TOKEN_ID") (int 102);
         def "preprocessing_fn" ["inputs"]
           [ SAssign (EName "tokenizer")
               (call (dotted "tf_text" ["BertTokenizer"]) [EConst CEllipsis]);
             SAssign (EName "text")
               (call (dotted "tf_text" ["normalize_utf8"])
                  [ESubscript (EName "inputs") (lit "message")]);
             SAssign (EName "tokens")
               (call (EAttr (call (dotted "tokenizer" ["tokenize"]) [EName "text"])
                        "merge_dims")
                  [int (-2); int (-1)]);
             SAssign (ETuple [EName "tokens"; EName "type_ids"])
               (call (dotted "tf_text" ["combine_segments"])
                  [EName "tokens"; EName "START_TOKEN_ID"; EName "END_TOKEN_ID"]);
             SAssign (ETuple [EName "tokens"; EName "mask_ids"])
               (ECall (dotted "tf_text" ["pad_model_inputs"]) [EName "tokens"]
                  [("max_seq_length", int 128)]);
             SReturn (EDict [lit "input_ids"; lit "input_mask"; lit "input_type_ids"]
                        [EName "tokens"; EName "mask_ids"; EName "type_ids"]) ] ] |}.

Definition chapter3 : list snippet :=
  [ch3_feature_std; ch3_scaling; ch3_cleaning; ch3_bucketizing; ch3_feature_cross;
   ch3_pca; ch3_filter; ch3_univariate; ch3_rfe; ch3_embedded; ch3_tokenization].

(** *** Chapter 4: data journey and data storage *)

Definition ch4_infer_schema : snippet :=
  {| sn_notebook := Chapter4; sn_place := MarkdownFence; sn_lines := (90, 94)%nat;
     sn_section := "TFDV Schema Validation";
     sn_body :=
       [ SImport "tensorflow_data_validation" (Some "tfdv");
         SAssign (EName "dataset_stats")
           (call (dotted "tfdv" ["generate_statistics_from_tfrecord"]) [lit "train.tfrecord"]);
         SAssign (EName "schema")
           (ECall (dotted "tfdv" ["infer_schema"]) [] [("statistics", EName "dataset_stats")]);
         SExpr (call (dotted "tfdv" ["display_schema"]) [EName "schema"]) ] |}.

Definition ch4_validate : snippet :=
  {| sn_notebook := Chapter4; sn_place := MarkdownFence; sn_lines := (98, 100)%nat;
     sn_section := "TFDV Schema Validation";
     sn_body :=
       [ SAssign (EName "anomalies")
           (ECall (dotted "tfdv" ["validate_statistics"]) []
              [("statistics", EName "dataset_stats"); ("schema", EName "schema")]);
         SExpr (call (dotted "tfdv" ["display_anomalies"]) [EName "anomalies"]) ] |}.

(** [drift_comparator: { infinity_norm_threshold: 0.05 }], over three
    lines: schema text in protobuf notation which, as Python, is the
    name [drift_comparator] annotated with a dictionary display. *)
Definition ch4_drift : snippet :=
  {| sn_notebook := Chapter4; sn_place := MarkdownFence; sn_lines := (137, 140)%nat;
     sn_section := "Detecting Changes Across Datasets";
     sn_body :=
       [ SAnnAssign (EName "drift_comparator")
           (EDict [EName "infinity_norm_threshold"] [float "0.05"]) None ] |}.

Definition ch4_feature_store : snippet :=
  {| sn_notebook := Chapter4; sn_place := MarkdownFence; sn_lines := (166, 168)%nat;
     sn_section := "Feature Stores";
     sn_body :=
       [ SExpr (call (dotted "feature_store" ["put"])
                  [lit "user_age_bucket"; EName "feature_vector"]);
         SAssign (EName "features")
           (ECall (dotted "feature_store" ["get"]) [EList [lit "user_age_bucket"]]
              [("user_id", lit "123")]) ] |}.

Definition chapter4 : list snippet :=
  [ch4_infer_schema; ch4_validate; ch4_drift; ch4_feature_store].

(** *** Chapter 5: advanced labeling, augmentation and preprocessing *)

Definition ch5_label_propagation : snippet :=
  {| sn_notebook := Chapter5; sn_place := CodeCell; sn_lines := (38, 55)%nat;
     sn_section := "2.1 Semi-Supervised Labeling";
     sn_body :=
       [ SImportFrom "sklearn" ["datasets"];
         SImportFrom "sklearn.semi_supervised" ["LabelPropagation"];
         SImport "matplotlib.pyplot" (Some "plt");
         SImport "numpy" (Some "np");
         SAssign (ETuple [EName "X"; EName "y"])
           (ECall (dotted "datasets" ["make_classification"]) []
              [("n_samples", int 200); ("n_features", int 2);
               ("n_classes", int 2); ("n_redundant", int 0)]);
         SAssign (EName "rng") (call (dotted "np" ["random"; "RandomState"]) [int 42]);
         SAssign (EName "y_missing") (call (dotted "y" ["copy"]) []);
         SAssign (EName "unlabeled_indices")
           (ECompare (call (dotted "rng" ["rand"]) [call (EName "len") [EName "y"]])
              OpLt (float "0.8"));
         SAssign (ESubscript (EName "y_missing") (EName "unlabeled_indices")) (int (-1));
         SAssign (EName "lp_model") (call (EName "LabelPropagation") []);
         SExpr (call (dotted "lp_model" ["fit"]) [EName "X"; EName "y_missing"]) ] |}.

Definition ch5_margin_sampling : snippet :=
  {| sn_notebook := Chapter5; sn_place := CodeCell; sn_lines := (78, 88)%nat;
     sn_section := "2.2 Active Learning";
     sn_body :=
       [ SImportFrom "sklearn.svm" ["SVC"];
         SAssign (EName "initial_idx")
           (ESubscript
              (ESubscript
                 (call (dotted "np" ["where"])
                    [ECompare (EName "y_missing") OpNotEq (int (-1))])
                 (int 0))
              (ESlice None (Some (int 10))));
         SAssign (EName "model")
           (ECall (EName "SVC") []
              [("kernel", lit "linear"); ("probability", EConst (CBool true))]);
         SExpr (call (dotted "model" ["fit"])
                  [ESubscript (EName "X") (EName "initial_idx");
                   ESubscript (EName "y") (EName "initial_idx")]);
         SAssign (EName "probs") (call (dotted "model" ["predict_proba"]) [EName "X"]);
         SAssign (EName "margins")
           (call (dotted "np" ["abs"])
              [EBinOp
                 (ESubscript (EName "probs") (ETuple [ESlice None None; int 0]))
                 OpSub
                 (ESubscript (EName "probs") (ETuple [ESlice None None; int 1]))]);
         SAssign (EName "uncertain_idx")
           (ESubscript (call (dotted "np" ["argsort"]) [EName "margins"])
              (ESlice None (Some (int 10)))) ] |}.

Definition ch5_labeling_functions : snippet :=
  {| sn_notebook := Chapter5; sn_place := CodeCell; sn_lines := (109, 118)%nat;
     sn_section := "2.3 Weak Supervision with Snorkel";
     sn_body :=
       [ SImportFrom "snorkel.labeling" ["labeling_function"];
         SFunctionDef false "lf_contains_my" [call (EName "labeling_function") []] ["x"]
           [ SReturn
               (EIfExp
                  (ECompare (lit "my") OpIn
                     (call (dotted "x" ["text"; "lower"]) []))
                  (int 1) (int (-1))) ];
         SFunctionDef false "lf_short_comment" [call (EName "labeling_function") []] ["x"]
           [ SReturn
               (EIfExp
                  (ECompare
                     (call (EName "len") [call (dotted "x" ["text"; "split"]) []])
                     OpLt (int 5))
                  (int 0) (int (-1))) ] ] |}.

Definition ch5_augment : snippet :=
  {| sn_notebook := Chapter5; sn_place := CodeCell; sn_lines := (141, 147)%nat;
     sn_section := "Example: CIFAR-10 Image Augmentation";
     sn_body :=
       [ SImport "tensorflow" (Some "tf");
         def "augment" ["x"; "height"; "width"; "num_channels"]
           [ SAssign (EName "x")
               (call (dotted "tf" ["image"; "resize_with_crop_or_pad"])
                  [EName "x";
                   EBinOp (EName "height") OpAdd (int 8);
                   EBinOp (EName "width") OpAdd (int 8)]);
             SAssign (EName "x")
               (call (dotted "tf" ["image"; "random_crop"])
                  [EName "x"; EList [EName "height"; EName "width"; EName "num_channels"]]);
             SAssign (EName "x")
               (call (dotted "tf" ["image"; "random_flip_left_right"]) [EName "x"]);
             SReturn (EName "x") ] ] |}.

Definition ch5_seasonality : snippet :=
  {| sn_notebook := Chapter5; sn_place := CodeCell; sn_lines := (178, 185)%nat;
     sn_section := "Seasonality Visualization";
     sn_body :=
       [ SAssign (EName "x") (call (dotted "np" ["linspace"]) [int 0; int 10; int 200]);
         SAssign (EName "y")
           (EBinOp
              (EBinOp (int 3) OpMult
                 (call (dotted "np" ["sin"])
                    [EBinOp (EBinOp (int 2) OpMult (dotted "np" ["pi"])) OpMult (EName "x")]))
              OpAdd (int 15));
         SExpr (call (dotted "plt" ["plot"]) [EName "x"; EName "y"]);
         SExpr (call (dotted "plt" ["title"]) [lit "Seasonality in Time Series"]);
         SExpr (call (dotted "plt" ["xlabel"]) [lit "Time"]);
         SExpr (call (dotted "plt" ["ylabel"]) [lit "Temperature"]);
         SExpr (call (dotted "plt" ["show"]) []) ] |}.

Definition chapter5 : list snippet :=
  [ch5_label_propagation; ch5_margin_sampling; ch5_labeling_functions;
   ch5_augment; ch5_seasonality].

Definition cells (nb : notebook) : list snippet :=
  match nb with
  | Chapter2 => chapter2
  | Chapter3 => chapter3
  | Chapter4 => chapter4
  | Chapter5 => chapter5
  end.

Definition notebooks : list notebook := [Chapter2; Chapter3; Chapter4; Chapter5].

Definition all_snippets : list snippet := flat_map cells notebooks.

End Notebooks.

(* ===================================================================== *)
(** ** Analyses of the snippets *)

Module Analysis.

Import Py Notebooks.
Local Open Scope string_scope.

Definition mem (x : string) (l : list string) : bool := existsb (String.eqb x) l.

Definition remove_all (gone l : list string) : list string :=
  List.filter (λ x, negb (mem x gone)) l.

Fixpoint nodup (l : list string) : list string :=
  match l with
  | [] => []
  | x :: l' => x :: List.filter (λ y, negb (String.eqb x y)) (nodup l')
  end.

(** *** Logic of the snippet's own *)

Inductive logic := Conditional | Arithmetic | Predicate.

(** What an expression node adds to the calls around it: a conditional
    expression, arithmetic, or a comparison or boolean connective. *)
Definition logic_of (e : expr) : option logic :=
  match e with
  | EIfExp _ _ _ => Some Conditional
  | EBinOp _ _ _ => Some Arithmetic
  | ECompare _ _ _ | EBoolOp _ _ | ENot _ => Some Predicate
  | _ => None
  end.

(** The node is a name, a literal, a display of values, an attribute
    access, a subscript or a call. *)
Definition invocation_node (e : expr) : bool :=
  match e with
  | EName _ | EConst _ | EAttr _ _ | ECall _ _ _ | ESubscript _ _ | ESlice _ _
  | ETuple _ | EList _ | EDict _ _ => true
  | _ => false
  end.

Definition is_logic (k : logic) (e : expr) : bool :=
  match logic_of e, k with
  | Some Conditional, Conditional | Some Arithmetic, Arithmetic
  | Some Predicate, Predicate => true
  | _, _ => false
  end.

Definition has_logic (k : logic) (c : snippet) : bool :=
  existsb (is_logic k) (block_nodes (sn_body c)).

(** The kinds of logic a snippet contains. *)
Definition own_logic (c : snippet) : list logic :=
  List.filter (λ k, has_logic k c) [Conditional; Arithmetic; Predicate].

Definition has_own_logic (c : snippet) : bool :=
  existsb (λ e, negb (invocation_node e)) (block_nodes (sn_body c)).

(** Statements that steer control: branches, loops, handlers, context
    managers, raises. *)
Definition control_stmt (s : stmt) : bool :=
  match s with
  | SIf _ _ _ | SFor _ _ _ | SWhile _ _ | STry _ _ _ | SWith _ _ | SRaise _ => true
  | _ => false
  end.

Definition has_control_flow (c : snippet) : bool :=
  existsb control_stmt (block_stmts (sn_body c)).

(** *** Exception handlers *)

Definition is_try (s : stmt) : bool :=
  match s with
  | STry _ _ _ => true
  | _ => false
  end.

Definition installs_handler (c : snippet) : bool :=
  existsb is_try (block_stmts (sn_body c)).

(** *** Calls *)

(** The dotted name an expression spells, if it is one. *)
Fixpoint dotted_name (e : expr) : option string :=
  match e with
  | EName x => Some x
  | EAttr v a =>
      match dotted_name v with
      | Some p => Some (String.append p (String.append "." a))
      | None => None
      end
  | _ => None
  end.

(** The name a call goes to: the dotted name of the callee, or the
    method's name after a dot when the receiver is itself computed. *)
Definition callee (e : expr) : option string :=
  match e with
  | ECall f _ _ =>
      match dotted_name f, f with
      | Some n, _ => Some n
      | None, EAttr _ a => Some (String.append "." a)
      | None, _ => None
      end
  | _ => None
  end.

Definition calls (c : snippet) : list string :=
  omap callee (block_nodes (sn_body c)).

(** *** Names bound and names read *)

(** The names an assignment target binds. *)
Fixpoint target_names (t : expr) : list string :=
  match t with
  | EName x => [x]
  | ETuple es | EList es => flat_map target_names es
  | _ => []
  end.

(** The names an expression reads ([lambda] parameters are its own). *)
Fixpoint free_names (e : expr) : list string :=
  match e with
  | EName x => [x]
  | EConst _ => []
  | EAttr v _ => free_names v
  | ECall f args kws =>
      (free_names f ++ flat_map free_names args
       ++ flat_map (λ kw, free_names (snd kw)) kws)%list
  | ESubscript v s => (free_names v ++ free_names s)%list
  | ESlice lo hi =>
      (match lo with Some l => free_names l | None => [] end ++
       match hi with Some h => free_names h | None => [] end)%list
  | ETuple es | EList es | EBoolOp _ es => flat_map free_names es
  | EDict ks vs => (flat_map free_names ks ++ flat_map free_names vs)%list
  | EBinOp l _ r | ECompare l _ r => (free_names l ++ free_names r)%list
  | ENot v | EAwait v => free_names v
  | ELambda ps v => remove_all ps (free_names v)
  | EIfExp t b o => (free_names t ++ free_names b ++ free_names o)%list
  | EYield v => match v with Some w => free_names w | None => [] end
  end.

(** The names an assignment target reads: [a[i] = v] reads [a] and [i]. *)
Fixpoint target_reads (t : expr) : list string :=
  match t with
  | EName _ => []
  | ETuple es | EList es => flat_map target_reads es
  | e => free_names e
  end.

(** The name [import a.b.c] binds: [a]. *)
Fixpoint root_module (m : string) : string :=
  match m with
  | EmptyString => EmptyString
  | String c m' => if Ascii.eqb c "." then EmptyString else String c (root_module m')
  end.

(** Where a statement stands: at the top level of a cell, or in the
    body of a function. *)
Inductive scope := ModuleScope | FunctionScope.

(** The names a statement binds in the scope it stands in.  Branches and
    loops bind in that scope; a function body has a scope of its own.
    An annotated name without a value, [x: T], binds nothing at the top
    level; in a function body it makes [x] local all the same. *)
Fixpoint binds (sc : scope) (s : stmt) : list string :=
  match s with
  | SImport m None => [root_module m]
  | SImport _ (Some a) => [a]
  | SImportFrom _ names => names
  | SAssign t _ => target_names t
  | SAnnAssign t _ v =>
      match sc, v with
      | ModuleScope, None => []
      | _, _ => target_names t
      end
  | SFunctionDef _ name _ _ _ => [name]
  | SIf _ body orelse => (flat_map (binds sc) body ++ flat_map (binds sc) orelse)%list
  | SFor t _ body => (target_names t ++ flat_map (binds sc) body)%list
  | SWhile _ body | SWith _ body => flat_map (binds sc) body
  | STry body handlers finalbody =>
      (flat_map (binds sc) body ++ flat_map (flat_map (binds sc)) handlers
       ++ flat_map (binds sc) finalbody)%list
  | _ => []
  end.

(** The names a statement reads from the scope it stands in.  A name
    assigned anywhere in a function body is local to the function.  The
    annotation of [x: T] is an expression like any other: at the top
    level it is evaluated when the statement runs, so its names are
    read; in a function body it is not evaluated.  (This is Python up to
    3.13, which the libraries of the notebooks run on; later versions
    defer the evaluation.) *)
Fixpoint reads (sc : scope) (s : stmt) : list string :=
  match s with
  | SAssign t v => (target_reads t ++ free_names v)%list
  | SAnnAssign t a v =>
      (flat_map free_names (opt_list v) ++ target_reads t
       ++ match sc with
          | ModuleScope => free_names a
          | FunctionScope => []
          end)%list
  | SExpr v | SReturn v | SRaise v => free_names v
  | SFunctionDef _ _ decorators params body =>
      (flat_map free_names decorators
       ++ remove_all (params ++ flat_map (binds FunctionScope) body)
            (flat_map (reads FunctionScope) body))%list
  | SIf t body orelse =>
      (free_names t ++ flat_map (reads sc) body ++ flat_map (reads sc) orelse)%list
  | SFor t i body => (target_reads t ++ free_names i ++ flat_map (reads sc) body)%list
  | SWhile t body => (free_names t ++ flat_map (reads sc) body)%list
  | SWith items body => (flat_map free_names items ++ flat_map (reads sc) body)%list
  | STry body handlers finalbody =>
      (flat_map (reads sc) body ++ flat_map (flat_map (reads sc)) handlers
       ++ flat_map (reads sc) finalbody)%list
  | _ => []
  end.

(** The names a block reads before it has bound them, statement by
    statement. *)
Fixpoint external (bound : list string) (b : list stmt) : list string :=
  match b with
  | [] => []
  | s :: b' =>
      (remove_all bound (reads ModuleScope s)
       ++ external (binds ModuleScope s ++ bound) b')%list
  end.

(** The interpreter's own names the snippets use. *)
Definition builtins : list string := ["len"; "print"; "abs"].

(** The names a snippet binds at top level, and the names it needs from
    outside itself. *)
Definition defs (c : snippet) : list string :=
  nodup (flat_map (binds ModuleScope) (sn_body c)).
Definition uses (c : snippet) : list string :=
  nodup (remove_all builtins (external [] (sn_body c))).

Definition defines (x : string) (c : snippet) : bool := mem x (defs c).

(** No cell needs a name another cell of the list binds. *)
Definition isolated (cs : list snippet) : Prop :=
  ∀ i j c1 c2 x,
    cs !! i = Some c1 → cs !! j = Some c2 → i ≠ j →
    In x (defs c1) → ¬ In x (uses c2).

(** Each name a cell needs is bound by an earlier cell of the list, or by
    no cell of the list. *)
Definition forward (cs : list snippet) : Prop :=
  ∀ pre c post x,
    cs = (pre ++ c :: post)%list → In x (uses c) →
    (∃ c', In c' pre ∧ In x (defs c')) ∨ (∀ c', In c' cs → ¬ In x (defs c')).

(** The check of [forward], given the cells before the ones at hand. *)
Fixpoint forward_only (earlier later : list snippet) : bool :=
  match later with
  | [] => true
  | c :: rest =>
      forallb (λ x, existsb (defines x) earlier
                    || forallb (λ c', negb (defines x c')) (c :: rest))
        (uses c)
      && forward_only (earlier ++ [c]) rest
  end.

(** The references between cells: the name, the line of the latest
    earlier cell that binds it, and the line of the cell that needs it. *)
Fixpoint flows (earlier later : list snippet) : list (string * nat * nat) :=
  match later with
  | [] => []
  | c :: rest =>
      (omap (λ x, match List.filter (defines x) earlier with
                  | c' :: _ => Some (x, fst (sn_lines c'), fst (sn_lines c))
                  | [] => None
                  end) (uses c)
       ++ flows (c :: earlier) rest)%list
  end.

(** The names needed and bound by no cell of the notebook. *)
Definition unbound (cs : list snippet) : list string :=
  nodup (List.filter (λ x, forallb (λ c, negb (defines x c)) cs) (flat_map uses cs)).

(** *** Processes, suspension, resources *)

Definition imports (c : snippet) : list string :=
  omap (λ s, match s with
             | SImport m _ | SImportFrom m _ => Some (root_module m)
             | _ => None
             end) (block_stmts (sn_body c)).

(** The standard modules that start threads or processes or schedule
    coroutines. *)
Definition concurrency_modules : list string :=
  ["threading"; "_thread"; "multiprocessing"; "concurrent"; "asyncio";
   "subprocess"; "os"; "signal"; "sched"; "queue"; "socket"; "selectors"].

Definition imports_concurrency (c : snippet) : bool :=
  existsb (λ m, mem m concurrency_modules) (imports c).

(** A shell escape runs its command in a child process. *)
Definition spawns_process (c : snippet) : bool :=
  existsb (λ s, match s with SShellEscape _ => true | _ => false end)
    (block_stmts (sn_body c)).

(** Coroutines and generators. *)
Definition suspends (c : snippet) : bool :=
  existsb (λ s, match s with SFunctionDef true _ _ _ _ => true | _ => false end)
    (block_stmts (sn_body c))
  || existsb (λ e, match e with EAwait _ | EYield _ => true | _ => false end)
       (block_nodes (sn_body c)).

(** Context managers and explicit opening, closing, locking. *)
Definition resource_calls : list string :=
  ["open"; ".close"; ".acquire"; ".release"; ".__enter__"; ".__exit__"].

Fixpoint last_component (acc m : string) : string :=
  match m with
  | EmptyString => acc
  | String c m' =>
      if Ascii.eqb c "." then last_component "." m'
      else last_component (String.append acc (String c EmptyString)) m'
  end.

Definition manages_resource (c : snippet) : bool :=
  existsb (λ s, match s with SWith _ _ => true | _ => false end)
    (block_stmts (sn_body c))
  || existsb (λ n, mem n resource_calls || mem (last_component "" n) resource_calls)
       (calls c).

(** *** Feature selection and data validation *)

Definition selection_sections : list string :=
  ["Filter Methods"; "Univariate Selection";
   "Recursive Feature Elimination (RFE)"; "Embedded Methods"].

Definition validation_sections : list string :=
  [tfdv_section; "TFDV Schema Validation"].

Definition selects_or_validates (c : snippet) : bool :=
  mem (sn_section c) selection_sections || mem (sn_section c) validation_sections.

(** A comparison against a numeric literal. *)
Definition threshold_test (e : expr) : bool :=
  match e with
  | ECompare _ _ (EConst (CInt _ | CFloat _)) => true
  | ECompare (EConst (CInt _ | CFloat _)) _ _ => true
  | _ => false
  end.

Definition has_threshold_test (c : snippet) : bool :=
  existsb threshold_test (block_nodes (sn_body c)).

End Analysis.

(* ===================================================================== *)
(** ** Chapter 3, "Filter Methods"

    [cor = df.corr()]
    [cor_target = abs(cor["target"])]
    [selected_features = cor_target[cor_target > 0.8].index]

    [df.corr()] is pandas'; what the snippet does with the column of
    correlations with the target is written out.  Correlations are
    IEEE 754 doubles. *)

Module CorrelationFilter.

(** A series of doubles with string labels. *)
Record FloatSeries := {
  labels : list string;
  values : list float
}.

(** [abs(s)] *)
Definition series_abs (s : FloatSeries) : FloatSeries :=
  {| labels := labels s; values := PrimFloat.abs <$> values s |}.

(** [s > t], element by element; a NaN is not greater than anything. *)
Definition series_gt (s : FloatSeries) (t : float) : list bool :=
  (λ v, PrimFloat.ltb t v) <$> values s.

(** [s[mask].index] *)
Definition masked_index (s : FloatSeries) (mask : list bool) : list string :=
  DataCleaning.select mask (labels s).

Definition threshold : float := 0.8%float.

(** From [cor["target"]] to [selected_features]. *)
Definition selected_features (cor_target_column : FloatSeries) : list string :=
  let cor_target := series_abs cor_target_column in
  masked_index cor_target (series_gt cor_target threshold).

(** The reading of the selection: the label is kept when the absolute
    correlation exceeds the threshold. *)
Definition exceeds (entry : string * float) : bool :=
  PrimFloat.ltb threshold (PrimFloat.abs (snd entry)).

Definition entries (s : FloatSeries) : list (string * float) :=
  zip (labels s) (values s).

End CorrelationFilter.

(* ===================================================================== *)
(** ** Back to source text

    The snippets printed as Python, one string per line, for comparing
    the trees above with the notebooks.  String literals are printed in
    single quotes; comments and line breaks inside a call are not part of
    the tree. *)

Module Source.

Import Py Notebooks.
Local Open Scope string_scope.

Fixpoint join (sep : string) (l : list string) : string :=
  match l with
  | [] => ""
  | [s] => s
  | s :: l' => s +:+ sep +:+ join sep l'
  end.

Definition show_Z (z : Z) : string := NilZero.string_of_int (Z.to_int z).

Definition show_constant (c : constant) : string :=
  match c with
  | CInt z => show_Z z
  | CFloat literal => literal
  | CStr s => "'" +:+ s +:+ "'"
  | CBool true => "True"
  | CBool false => "False"
  | CNone => "None"
  | CEllipsis => "..."
  end.

Definition show_binop (op : binop) : string :=
  match op with
  | OpAdd => "+" | OpSub => "-" | OpMult => "*" | OpDiv => "/"
  | OpFloorDiv => "//" | OpMod => "%" | OpPow => "**"
  end.

Definition show_cmpop (op : cmpop) : string :=
  match op with
  | OpEq => "==" | OpNotEq => "!=" | OpLt => "<" | OpLtE => "<=" | OpGt => ">"
  | OpGtE => ">=" | OpIn => "in" | OpNotIn => "not in"
  end.

(** Binding strength, as in Python's grammar. *)
Definition prec (e : expr) : nat :=
  match e with
  | ELambda _ _ | EYield _ => 0
  | EIfExp _ _ _ => 1
  | EBoolOp OpOr _ => 2
  | EBoolOp OpAnd _ => 3
  | ENot _ => 4
  | ECompare _ _ _ => 5
  | EBinOp _ (OpAdd | OpSub) _ => 10
  | EBinOp _ (OpMult | OpDiv | OpFloorDiv | OpMod) _ => 11
  | EBinOp _ OpPow _ => 13
  | EAwait _ => 14
  | ESlice _ _ => 0
  | _ => 20
  end%nat.

Definition wrap (b : bool) (s : string) : string :=
  if b then "(" +:+ s +:+ ")" else s.

Fixpoint show (e : expr) : string :=
  match e with
  | EName id => id
  | EConst c => show_constant c
  | EAttr v a => wrap (prec v <? 20)%nat (show v) +:+ "." +:+ a
  | ECall f args kws =>
      wrap (prec f <? 20)%nat (show f) +:+ "("
      +:+ join ", " (map show args ++ map (λ kw, fst kw +:+ "=" +:+ show (snd kw)) kws)%list
      +:+ ")"
  | ESubscript v s =>
      wrap (prec v <? 20)%nat (show v) +:+ "["
      +:+ match s with
         | ETuple es => join ", " (map show es)
         | _ => show s
         end
      +:+ "]"
  | ESlice lo hi =>
      match lo with Some l => show l | None => "" end +:+ ":"
      +:+ match hi with Some h => show h | None => "" end
  | ETuple es => "(" +:+ join ", " (map show es) +:+ ")"
  | EList es => "[" +:+ join ", " (map show es) +:+ "]"
  | EDict ks vs =>
      "{" +:+ join ", " (zip_with (λ k v, k +:+ ": " +:+ v) (map show ks) (map show vs)) +:+ "}"
  | EBinOp l op r =>
      wrap (prec l <? prec e)%nat (show l) +:+ " " +:+ show_binop op +:+ " "
      +:+ wrap (prec r <=? prec e)%nat (show r)
  | EBoolOp op es =>
      join (match op with OpAnd => " and " | OpOr => " or " end)
        (map (λ v, wrap (prec v <=? prec e)%nat (show v)) es)
  | ENot v => "not " +:+ wrap (prec v <? 4)%nat (show v)
  | ECompare l op r =>
      wrap (prec l <=? 5)%nat (show l) +:+ " " +:+ show_cmpop op +:+ " "
      +:+ wrap (prec r <=? 5)%nat (show r)
  | EIfExp t b o =>
      wrap (prec b <=? 1)%nat (show b) +:+ " if " +:+ wrap (prec t <=? 1)%nat (show t)
      +:+ " else " +:+ show o
  | ELambda ps v => "lambda " +:+ join ", " ps +:+ ": " +:+ show v
  | EAwait v => "await " +:+ wrap (prec v <? 14)%nat (show v)
  | EYield v => "yield" +:+ match v with Some w => " " +:+ show w | None => "" end
  end.

(** An assignment target: a tuple stands without parentheses. *)
Definition show_target (t : expr) : string :=
  match t with
  | ETuple es => join ", " (map show es)
  | _ => show t
  end.

Fixpoint show_stmt (indent : string) (s : stmt) : list string :=
  let block := flat_map (show_stmt (indent +:+ "    ")) in
  match s with
  | SImport m None => [indent +:+ "import " +:+ m]
  | SImport m (Some a) => [indent +:+ "import " +:+ m +:+ " as " +:+ a]
  | SImportFrom m names => [indent +:+ "from " +:+ m +:+ " import " +:+ join ", " names]
  | SAssign t v => [indent +:+ show_target t +:+ " = " +:+ show v]
  | SAnnAssign t a v =>
      [indent +:+ show t +:+ ": " +:+ show a
       +:+ match v with Some w => " = " +:+ show w | None => "" end]
  | SExpr v => [indent +:+ show v]
  | SReturn v => [indent +:+ "return " +:+ show v]
  | SRaise v => [indent +:+ "raise " +:+ show v]
  | SFunctionDef is_async name decorators params body =>
      (map (λ d, indent +:+ "@" +:+ show d) decorators
       ++ [indent +:+ (if is_async then "async def " else "def ") +:+ name
           +:+ "(" +:+ join ", " params +:+ "):"]
       ++ block body)%list
  | SIf t body orelse =>
      ([indent +:+ "if " +:+ show t +:+ ":"] ++ block body
       ++ match orelse with [] => [] | _ => [indent +:+ "else:"] ++ block orelse end)%list
  | SFor t i body =>
      ([indent +:+ "for " +:+ show_target t +:+ " in " +:+ show i +:+ ":"] ++ block body)%list
  | SWhile t body => ([indent +:+ "while " +:+ show t +:+ ":"] ++ block body)%list
  | STry body handlers finalbody =>
      ([indent +:+ "try:"] ++ block body
       ++ flat_map (λ h, [indent +:+ "except:"] ++ block h) handlers
       ++ match finalbody with [] => [] | _ => [indent +:+ "finally:"] ++ block finalbody end)%list
  | SWith items body =>
      ([indent +:+ "with " +:+ join ", " (map show items) +:+ ":"] ++ block body)%list
  | SShellEscape command => [indent +:+ "!" +:+ command]
  end.

Definition source (c : snippet) : list string := flat_map (show_stmt "") (sn_body c).

End Source.

(* ===================================================================== *)
(** ** More snippets that sequence third-party calls

    [run_rfe] and [preprocessing_fn] of chapter 3, over the same
    signature of library operations. *)

Module MoreLibraryCalls.

Import LibraryCalls.

(** [a, b = r] *)
Definition unpack2 (r : pyobj) : prog (pyobj * pyobj) :=
  match r with
  | PList [a; b] | PTuple [a; b] => Ret (a, b)
  | PList _ | PTuple _ => Throw (PError "ValueError")
  | _ => Throw (PError "TypeError")
  end.

(** [def run_rfe(X, y, k):]
    [    model = RandomForestClassifier()]
    [    rfe = RFE(model, n_features_to_select=k)]
    [    rfe.fit(X, y)]
    [    return X.columns[rfe.get_support()]] *)
Definition run_rfe (X y k : pyobj) : prog pyobj :=
  model ← op (CallFunc "sklearn.ensemble.RandomForestClassifier" [] []);
  rfe ← op (CallFunc "sklearn.feature_selection.RFE" [model]
              [("n_features_to_select"%string, k)]);
  _ ← op (CallMethod rfe "fit" [X; y] []);
  cols ← op (GetAttr X "columns");
  support ← op (CallMethod rfe "get_support" [] []);
  op (GetItem cols support).

(** [START_TOKEN_ID = 101] and [END_TOKEN_ID = 102] *)
Definition START_TOKEN_ID : Z := 101.
Definition END_TOKEN_ID : Z := 102.

(** [def preprocessing_fn(inputs):]
    [    tokenizer = tf_text.BertTokenizer(...)]
    [    text = tf_text.normalize_utf8(inputs["message"])]
    [    tokens = tokenizer.tokenize(text).merge_dims(-2, -1)]
    [    tokens, type_ids = tf_text.combine_segments(tokens, START_TOKEN_ID, END_TOKEN_ID)]
    [    tokens, mask_ids = tf_text.pad_model_inputs(tokens, max_seq_length=128)]
    [    return {"input_ids": tokens, "input_mask": mask_ids, "input_type_ids": type_ids}]
    The dictionary returned is given by its items, in order. *)
Definition preprocessing_fn (inputs : pyobj) : prog (list (string * pyobj)) :=
  tokenizer ← op (CallFunc "tf_text.BertTokenizer" [PGlobal "Ellipsis"] []);
  message ← op (GetItem inputs (PStr "message"));
  text ← op (CallFunc "tf_text.normalize_utf8" [message] []);
  tokenized ← op (CallMethod tokenizer "tokenize" [text] []);
  tokens ← op (CallMethod tokenized "merge_dims" [PInt (-2); PInt (-1)] []);
  combined ← op (CallFunc "tf_text.combine_segments"
                   [tokens; PInt START_TOKEN_ID; PInt END_TOKEN_ID] []);
  '(tokens, type_ids) ← unpack2 combined;
  padded ← op (CallFunc "tf_text.pad_model_inputs" [tokens]
                 [("max_seq_length"%string, PInt 128)]);
  '(tokens, mask_ids) ← unpack2 padded;
  mret [("input_ids"%string, tokens); ("input_mask"%string, mask_ids);
        ("input_type_ids"%string, type_ids)].

(** [r] is the list or the tuple of [items]. *)
Definition sequence_of (r : pyobj) (items : list pyobj) : Prop :=
  r = PList items ∨ r = PTuple items.

(** Libraries for running the programs: one that answers every
    operation with new objects (four for a split, two for the segment
    and padding calls), and one whose split returns two objects only. *)
Definition obliging_library (o : libop) (w : N) : outcome pyobj * N :=
  match o with
  | CallFunc "sklearn.model_selection.train_test_split" _ _ =>
      (Returned (PList [PObj w; PObj (w + 1); PObj (w + 2); PObj (w + 3)]), (w + 4)%N)
  | CallFunc "tf_text.combine_segments" _ _
  | CallFunc "tf_text.pad_model_inputs" _ _ =>
      (Returned (PTuple [PObj w; PObj (w + 1)]), (w + 2)%N)
  | _ => (Returned (PObj w), (w + 1)%N)
  end.

Definition halving_library (o : libop) (w : N) : outcome pyobj * N :=
  match o with
  | CallFunc "sklearn.model_selection.train_test_split" _ _ =>
      (Returned (PList [PObj w; PObj (w + 1)]), (w + 2)%N)
  | _ => (Returned (PObj w), (w + 1)%N)
  end.

End MoreLibraryCalls.

(* ===================================================================== *)
(** ** Chapter 5, hiding labels and picking the first labelled points

    From the semi-supervised cell:
    [y_missing = y.copy()]
    [unlabeled_indices = rng.rand(len(y)) < 0.8]
    [y_missing[unlabeled_indices] = -1]
    and from the active-learning cell:
    [initial_idx = np.where(y_missing != -1)[0][:10]]
    [model.fit(X[initial_idx], y[initial_idx])]

    Arrays are objects on a heap, so that what the in-place assignment
    does to [y] can be stated.  Labels are [int64]; the draws of the
    generator are doubles. *)

Module LabelHiding.

Inductive ndarray :=
| IntArray (a : list Z)
| BoolArray (m : list bool).

Inductive pyerror :=
| NameError (name : string)
| TypeError
| IndexError.

Inductive result (A : Type) :=
| Done (a : A)
| Fail (e : pyerror).
Arguments Done {A} a.
Arguments Fail {A} e.

#[export] Instance result_ret : MRet result := λ A a, Done a.

#[export] Instance result_bind : MBind result := λ A B k r,
  match r with
  | Done a => k a
  | Fail e => Fail e
  end.

Record kernel := {
  names : gmap string positive;
  arrays : gmap positive ndarray
}.

(** The array a name refers to, and where it is. *)
Definition load (σ : kernel) (x : string) : result (positive * ndarray) :=
  match names σ !! x with
  | Some l =>
      match arrays σ !! l with
      | Some a => Done (l, a)
      | None => Fail (NameError x)
      end
  | None => Fail (NameError x)
  end.

Definition load_int (σ : kernel) (x : string) : result (positive * list Z) :=
  '(l, a) ← load σ x;
  match a with
  | IntArray v => Done (l, v)
  | BoolArray _ => Fail TypeError
  end.

Definition load_bool (σ : kernel) (x : string) : result (positive * list bool) :=
  '(l, a) ← load σ x;
  match a with
  | BoolArray m => Done (l, m)
  | IntArray _ => Fail TypeError
  end.

(** [x = <new array a>] *)
Definition bind_new (σ : kernel) (x : string) (a : ndarray) : kernel :=
  let l := fresh (dom (arrays σ)) in
  {| names := <[x := l]> (names σ); arrays := <[l := a]> (arrays σ) |}.

(** The array at [l] is overwritten in place. *)
Definition store (σ : kernel) (l : positive) (a : ndarray) : kernel :=
  {| names := names σ; arrays := <[l := a]> (arrays σ) |}.

(** [draws < t] *)
Definition lt_scalar (draws : list float) (t : float) : list bool :=
  (λ r, PrimFloat.ltb r t) <$> draws.

(** [a != v] *)
Definition ne_scalar (a : list Z) (v : Z) : list bool :=
  (λ x, negb (x =? v)) <$> a.

(** The array after [a[mask] = v]. *)
Definition assign_where (mask : list bool) (v : Z) (a : list Z) : list Z :=
  zip_with (λ (b : bool) x, if b then v else x) mask a.

(** [np.where(mask)[0]]: the positions where the mask holds, counted
    from [i]. *)
Fixpoint where_from (i : Z) (mask : list bool) : list Z :=
  match mask with
  | [] => []
  | b :: mask' => if b then i :: where_from (i + 1) mask' else where_from (i + 1) mask'
  end.

(** [a[i]] for an integer: a negative index counts from the end. *)
Definition getitem (a : list Z) (i : Z) : result Z :=
  let n := Z.of_nat (length a) in
  let j := if i <? 0 then i + n else i in
  if (0 <=? j) && (j <? n) then
    match a !! Z.to_nat j with
    | Some x => Done x
    | None => Fail IndexError
    end
  else Fail IndexError.

(** [a[idx]] for an array of integers. *)
Fixpoint getitems (a : list Z) (idx : list Z) : result (list Z) :=
  match idx with
  | [] => Done []
  | i :: idx' => x ← getitem a i; xs ← getitems a idx'; Done (x :: xs)
  end.

Definition threshold : float := 0.8%float.

Section Cells.

(** [rng.rand(n)]: what the generator answers when asked for [n] draws. *)
Variable rand : nat → list float.

(** The three statements that hide labels. *)
Definition hide_labels (σ : kernel) : result kernel :=
  '(_, y) ← load_int σ "y";
  let σ := bind_new σ "y_missing" (IntArray y) in
  let σ := bind_new σ "unlabeled_indices"
             (BoolArray (lt_scalar (rand (length y)) threshold)) in
  '(l, y_missing) ← load_int σ "y_missing";
  '(_, unlabeled_indices) ← load_bool σ "unlabeled_indices";
  if decide (length unlabeled_indices = length y_missing) then
    Done (store σ l (IntArray (assign_where unlabeled_indices (-1) y_missing)))
  else Fail IndexError.

End Cells.

(** [initial_idx = np.where(y_missing != -1)[0][:10]] *)
Definition pick_initial (σ : kernel) : result kernel :=
  '(_, y_missing) ← load_int σ "y_missing";
  Done (bind_new σ "initial_idx"
          (IntArray (take 10 (where_from 0 (ne_scalar y_missing (-1)))))).

(** [y[initial_idx]], the labels the classifier is fit on. *)
Definition fit_labels (σ : kernel) : result (list Z) :=
  '(_, y) ← load_int σ "y";
  '(_, initial_idx) ← load_int σ "initial_idx";
  getitems y initial_idx.

(** A kernel in which [y] is bound to the given labels, and a generator
    for running the cells: it alternates between 0.9 and 0.1. *)
Definition kernel_with (y : list Z) : kernel :=
  bind_new {| names := ∅; arrays := ∅ |} "y" (IntArray y).

Fixpoint alternating (n : nat) : list float :=
  match n with
  | O => []
  | S n' => (if Nat.even n then 0.9 else 0.1)%float :: alternating n'
  end.

End LabelHiding.

(* ===================================================================== *)
(** ** Chapter 2, the statistics cells in a kernel

    The three TFDV cells as statements over the notebook's namespace.  A
    statement reads names from the namespace (a missing one is a
    [NameError]), performs library operations, and binds names; when it
    raises, the names bound by the statements before it stay bound. *)

Module Chapter2Kernel.

Import LibraryCalls.

Abbreviation namespace := (gmap string pyobj).

Definition statement := namespace → prog namespace.

(** Reading a name. *)
Definition name (ns : namespace) (x : string) : prog pyobj :=
  match ns !! x with
  | Some v => Ret v
  | None => Throw (PError "NameError")
  end.

(** [import tensorflow_data_validation as tfdv] *)
Definition import_tfdv : statement := λ ns,
  m ← op (CallFunc "builtins.__import__" [PStr "tensorflow_data_validation"] []);
  mret (<["tfdv"%string := m]> ns).

(** [stats = tfdv.generate_statistics_from_csv(data_location='your_data.csv', delimiter=',')] *)
Definition assign_stats_csv : statement := λ ns,
  _ ← name ns "tfdv";
  stats ← stats_from_csv;
  mret (<["stats"%string := stats]> ns).

(** [stats = tfdv.generate_statistics_from_tfrecord(data_location='your_data.tfrecord')] *)
Definition assign_stats_tfrecord : statement := λ ns,
  _ ← name ns "tfdv";
  stats ← op (CallFunc "tfdv.generate_statistics_from_tfrecord" []
                [("data_location"%string, PStr "your_data.tfrecord")]);
  mret (<["stats"%string := stats]> ns).

(** [tfdv.visualize_statistics(stats)] *)
Definition visualize : statement := λ ns,
  _ ← name ns "tfdv";
  stats ← name ns "stats";
  _ ← op (CallFunc "tfdv.visualize_statistics" [stats] []);
  mret ns.

(** [print(stats.datasets[0].features[0].string_stats.rank_histogram)] *)
Definition print_histogram : statement := λ ns,
  stats ← name ns "stats";
  _ ← print_rank_histogram stats;
  mret ns.

Definition cell_csv : list statement := [import_tfdv; assign_stats_csv].
Definition cell_tfrecord : list statement := [assign_stats_tfrecord; visualize].
Definition cell_print : list statement := [print_histogram].

Section Kernel.

Variable world : Type.
Variable library : libop → world → outcome pyobj * world.

(** Running statements in order, up to the first that raises: the
    exception if any, the namespace reached, and the world. *)
Fixpoint execute (ss : list statement) (ns : namespace) (w : world)
  : option exn * namespace * world :=
  match ss with
  | [] => (None, ns, w)
  | s :: ss' =>
      match run world library (s ns) w with
      | (Returned ns', w') => execute ss' ns' w'
      | (Raised e, w') => (Some e, ns, w')
      end
  end.

(** The operations performed on the way. *)
Fixpoint performed (ss : list statement) (ns : namespace) (w : world)
  : list (libop * outcome pyobj) :=
  match ss with
  | [] => []
  | s :: ss' =>
      (trace world library (s ns) w ++
       match run world library (s ns) w with
       | (Returned ns', w') => performed ss' ns' w'
       | (Raised _, _) => []
       end)%list
  end.

End Kernel.

(** Libraries that make a new object for every operation, except that
    the display does not work: visualising raises. *)
Definition blind_library (o : libop) (w : N) : outcome pyobj * N :=
  match o with
  | CallFunc "tfdv.visualize_statistics" _ _ => (Raised (PError "RuntimeError"), w)
  | _ => (Returned (PObj w), (w + 1)%N)
  end.

End Chapter2Kernel.

(* ===================================================================== *)
(** ** Chapter 4, schema inference and validation in a kernel

    The two fenced blocks under "TFDV Schema Validation", as statements
    over one namespace. *)

Module Chapter4Kernel.

Import LibraryCalls Chapter2Kernel.

(** [dataset_stats = tfdv.generate_statistics_from_tfrecord("train.tfrecord")] *)
Definition assign_dataset_stats : statement := λ ns,
  _ ← name ns "tfdv";
  dataset_stats ← op (CallFunc "tfdv.generate_statistics_from_tfrecord"
                        [PStr "train.tfrecord"] []);
  mret (<["dataset_stats"%string := dataset_stats]> ns).

(** [schema = tfdv.infer_schema(statistics=dataset_stats)] *)
Definition assign_schema : statement := λ ns,
  _ ← name ns "tfdv";
  dataset_stats ← name ns "dataset_stats";
  schema ← op (CallFunc "tfdv.infer_schema" [] [("statistics"%string, dataset_stats)]);
  mret (<["schema"%string := schema]> ns).

(** [tfdv.display_schema(schema)] *)
Definition display_schema : statement := λ ns,
  _ ← name ns "tfdv";
  schema ← name ns "schema";
  _ ← op (CallFunc "tfdv.display_schema" [schema] []);
  mret ns.

(** [anomalies = tfdv.validate_statistics(statistics=dataset_stats, schema=schema)] *)
Definition assign_anomalies : statement := λ ns,
  _ ← name ns "tfdv";
  dataset_stats ← name ns "dataset_stats";
  schema ← name ns "schema";
  anomalies ← op (CallFunc "tfdv.validate_statistics" []
                    [("statistics"%string, dataset_stats); ("schema"%string, schema)]);
  mret (<["anomalies"%string := anomalies]> ns).

(** [tfdv.display_anomalies(anomalies)] *)
Definition display_anomalies : statement := λ ns,
  _ ← name ns "tfdv";
  anomalies ← name ns "anomalies";
  _ ← op (CallFunc "tfdv.display_anomalies" [anomalies] []);
  mret ns.

Definition fence_infer : list statement :=
  [import_tfdv; assign_dataset_stats; assign_schema; display_schema].

Definition fence_validate : list statement :=
  [assign_anomalies; display_anomalies].

End Chapter4Kernel.

(* ===================================================================== *)
(** * Theorems *)

(** ** The feature cross *)

Section FeatureCrossFacts.

Import FeatureCross.

Lemma wrap64_in_range z : in_int64 z → wrap64 z = z.
Proof.
  unfold in_int64, int64_min, int64_max, wrap64. intros Hz.
  rewrite Z.mod_small by lia. lia.
Qed.

Lemma wrap64_range z : in_int64 (wrap64 z).
Proof.
  unfold in_int64, int64_min, int64_max, wrap64.
  pose proof (Z.mod_pos_bound (z + 2 ^ 63) (2 ^ 64) ltac:(lia)). lia.
Qed.

(** Reducing an intermediate result does not change the reduced sum. *)
Lemma wrap64_add_l a b : wrap64 (wrap64 a + b) = wrap64 (a + b).
Proof.
  unfold wrap64. f_equal.
  replace ((a + 2 ^ 63) mod 2 ^ 64 - 2 ^ 63 + b + 2 ^ 63)
    with ((a + 2 ^ 63) mod 2 ^ 64 + b) by lia.
  replace (a + b + 2 ^ 63) with ((a + 2 ^ 63) + b) by lia.
  rewrite Zplus_mod_idemp_l. reflexivity.
Qed.

(** Without overflow of the final value the cross is the exact one. *)
Lemma hour_of_week_exact day hour :
  in_int64 (day * 24 + hour) → hour_of_week day hour = day * 24 + hour.
Proof.
  intros H. unfold hour_of_week, add64, mul64.
  rewrite wrap64_add_l. by apply wrap64_in_range.
Qed.

(** On exact integers the cross is undone by division with remainder. *)
Lemma recover_exact day hour :
  0 <= hour < 24 → recover (day * 24 + hour) = (day, hour).
Proof.
  intros H. unfold recover. f_equal.
  - rewrite Z.div_add_l by lia. rewrite Z.div_small by lia. lia.
  - rewrite Z.add_comm, Z.mod_add by lia. by apply Z.mod_small.
Qed.

(** The same on columns: from the new column the two old ones are
    recovered, row by row. *)
Lemma series_recover (day hour : list Z) :
  Forall2 (λ d h, 0 <= h < 24 ∧ in_int64 (d * 24 + h)) day hour →
  recover <$> series_add (series_mul day 24) hour = zip day hour.
Proof.
  unfold series_add, series_mul.
  induction 1 as [|d h day hour [Hh Hr] _ IH]; csimpl; [done|].
  rewrite IH. f_equal. change (add64 (mul64 d 24) h) with (hour_of_week d h).
  rewrite hour_of_week_exact by done. by apply recover_exact.
Qed.

(** The cross on the frame of the snippet. *)
Example hour_of_week_df0 :
  (λ d, columns d !! "hour_of_week"%string) <$> add_hour_of_week df0
  = Some (Some [34; 60]).
Proof. vm_compute. reflexivity. Qed.

(** C8, as stated, fails: the day 2^61 is an [int64] value, its product
    with 24 is a multiple of 2^64, so the cross of (2^61, 10) is 10, the
    cross of (0, 10), and division by 24 gives back day 0. *)
Lemma hour_of_week_wraps :
  in_int64 (2 ^ 61) ∧ 0 <= 10 < 24 ∧
  hour_of_week (2 ^ 61) 10 = hour_of_week 0 10 ∧
  recover (hour_of_week (2 ^ 61) 10) ≠ (2 ^ 61, 10).
Proof.
  split; [unfold in_int64, int64_min, int64_max; lia|].
  split; [lia|].
  split; [by vm_compute|].
  vm_compute. discriminate.
Qed.

(** C8, amended: for an hour in 0..23 and a day whose cross does not
    overflow [int64], day and hour are recovered from [hour_of_week] as
    quotient and remainder by 24, and the cross is injective on such
    pairs. *)
Theorem hour_of_week_reversible day1 hour1 day2 hour2 :
  0 <= hour1 < 24 → 0 <= hour2 < 24 →
  in_int64 (day1 * 24 + hour1) → in_int64 (day2 * 24 + hour2) →
  recover (hour_of_week day1 hour1) = (day1, hour1) ∧
  (hour_of_week day1 hour1 = hour_of_week day2 hour2 → day1 = day2 ∧ hour1 = hour2).
Proof.
  intros Hh1 Hh2 Hr1 Hr2.
  assert (R1 : recover (hour_of_week day1 hour1) = (day1, hour1)).
  { rewrite hour_of_week_exact by done. by apply recover_exact. }
  assert (R2 : recover (hour_of_week day2 hour2) = (day2, hour2)).
  { rewrite hour_of_week_exact by done. by apply recover_exact. }
  split; [done|].
  intros E. rewrite E in R1. rewrite R1 in R2. by inversion R2.
Qed.

Lemma hour_of_week_reversible_witness :
  recover (hour_of_week 1 10) = (1, 10) ∧
  (hour_of_week 1 10 = hour_of_week 2 12 → 1 = 2 ∧ 10 = 12).
Proof.
  apply (hour_of_week_reversible 1 10 2 12);
    unfold in_int64, int64_min, int64_max; lia.
Defined.

End FeatureCrossFacts.

(** ** The data-cleaning filter *)

Section DataCleaningFacts.

Import DataCleaning.

Lemma select_nil_r {A} (mask : list bool) : select mask (@nil A) = [].
Proof. by destruct mask. Qed.

Lemma select_length_le {A} (mask : list bool) (l : list A) :
  (length (select mask l) ≤ length l)%nat.
Proof.
  revert l. induction mask as [|b mask IH]; intros [|x l]; simpl; try lia.
  destruct b; simpl; specialize (IH l); lia.
Qed.

(** Selection is by position, so the selected entries of two lists of
    the mask's length correspond. *)
Lemma select_length_eq {A B} (mask : list bool) (l : list A) (k : list B) :
  length l = length k → length (select mask l) = length (select mask k).
Proof.
  revert l k. induction mask as [|b mask IH]; intros [|x l] [|y k] H;
    simpl in *; try done.
  destruct b; simpl; auto.
Qed.

(** Selected entries keep their order: the result is a sublist. *)
Lemma select_sublist {A} (mask : list bool) (l : list A) : sublist (select mask l) l.
Proof.
  revert l. induction mask as [|b mask IH]; intros [|x l]; simpl;
    try apply sublist_nil_l.
  destruct b; [apply sublist_skip | apply sublist_cons]; apply IH.
Qed.

Lemma list_omap_fmap_pre {A B C} (f : B → option C) (g : A → B) (l : list A) :
  omap f (g <$> l) = omap (λ a, f (g a)) l.
Proof. induction l as [|a l IH]; csimpl; [done|]. by rewrite IH. Qed.

Lemma list_omap_pointwise {A B} (f g : A → option B) (l : list A) :
  (∀ a, f a = g a) → omap f l = omap g l.
Proof. intros E. induction l as [|a l IH]; csimpl; [done|]. by rewrite E, IH. Qed.

Lemma row_succ lbl idx cols i :
  row {| index := lbl :: idx; columns := cols |} (S i)
  = row {| index := idx; columns := tail <$> cols |} i.
Proof.
  unfold row. simpl. destruct (idx !! i) as [l|]; simpl; [|done].
  do 2 f_equal. apply map_eq. intros c.
  rewrite !lookup_omap, lookup_fmap.
  destruct (cols !! c) as [[|v vs]|]; simpl; done.
Qed.

Lemma rows_cons lbl idx cols :
  rows {| index := lbl :: idx; columns := cols |}
  = {| label := lbl; cells := omap (λ vs : list pyval, vs !! 0%nat) cols |}
    :: rows {| index := idx; columns := tail <$> cols |}.
Proof.
  unfold rows. simpl. f_equal.
  rewrite <- fmap_S_seq, list_omap_fmap_pre.
  apply list_omap_pointwise. intros i. apply row_succ.
Qed.

(** What boolean indexing with the timestamp mask returns, row by row. *)
Lemma rows_select idx cols ts :
  (∀ c vs, cols !! c = Some vs → length vs = length idx) →
  cols !! "timestamp"%string = Some ts →
  rows {| index := select (ne_scalar "00:00" <$> ts) idx;
          columns := select (ne_scalar "00:00" <$> ts) <$> cols |}
  = List.filter differs (rows {| index := idx; columns := cols |}).
Proof.
  revert cols ts. induction idx as [|lbl idx IH]; intros cols ts Hwf Hts.
  - pose proof (Hwf _ _ Hts) as Hlen. destruct ts; [|done]. done.
  - pose proof (Hwf _ _ Hts) as Hlen. destruct ts as [|t ts]; [done|].
    rewrite rows_cons. cbn [List.filter].
    assert (Hd : differs {| label := lbl;
                            cells := omap (λ vs : list pyval, vs !! 0%nat) cols |}
                 = ne_scalar "00:00" t).
    { unfold differs. cbn [cells]. rewrite lookup_omap, Hts. done. }
    rewrite Hd.
    assert (Hwf' : ∀ c vs, (tail <$> cols) !! c = Some vs → length vs = length idx).
    { intros c vs. rewrite lookup_fmap. intros Hc.
      destruct (cols !! c) as [ws|] eqn:E; [|done]. injection Hc as <-.
      apply Hwf in E. destruct ws; simpl in *; lia. }
    assert (Hts' : (tail <$> cols) !! "timestamp"%string = Some ts).
    { by rewrite lookup_fmap, Hts. }
    specialize (IH _ _ Hwf' Hts').
    cbn [fmap list_fmap]. destruct (ne_scalar "00:00" t); cbn [select].
    + rewrite rows_cons. f_equal.
      * f_equal. apply map_eq. intros c. rewrite !lookup_omap, lookup_fmap.
        destruct (cols !! c) as [ws|] eqn:E; [|done].
        apply Hwf in E. by destruct ws.
      * rewrite <- IH. do 2 f_equal. apply map_eq. intros c.
        rewrite !lookup_fmap. destruct (cols !! c) as [[|w ws]|]; simpl; [|done..].
        by rewrite select_nil_r.
    + rewrite <- IH. do 2 f_equal. apply map_eq. intros c.
      rewrite !lookup_fmap. destruct (cols !! c) as [[|w ws]|]; simpl; [|done..].
      by rewrite select_nil_r.
Qed.

(** On a well-formed frame with a timestamp column the filter does not
    raise, and its rows are the differing rows of the frame, in order. *)
Lemma cleaned_rows d :
  wf_frame d → is_Some (columns d !! "timestamp"%string) →
  ∃ d', cleaned d = Ok d' ∧ wf_frame d' ∧ rows d' = List.filter differs (rows d).
Proof.
  intros Hwf [ts Hts]. destruct d as [idx cols]. simpl in *.
  unfold cleaned, getitem_col. simpl. rewrite Hts. simpl.
  unfold getitem_mask. simpl.
  rewrite decide_True by (split; [done|]; rewrite length_fmap; by apply (Hwf _ _ Hts)).
  eexists. split; [done|]. split.
  - intros c vs. simpl. rewrite lookup_fmap. intros Hc.
    destruct (cols !! c) as [ws|] eqn:E; [|done]. injection Hc as <-.
    apply select_length_eq. by apply (Hwf _ _ E).
  - by apply rows_select.
Qed.

(** The frame at a used address is not the one a new binding gets. *)
Lemma assign_new_heap σ x d l0 d0 :
  heap σ !! l0 = Some d0 → heap (assign_new σ x d) !! l0 = Some d0.
Proof.
  intros H. unfold assign_new. simpl. rewrite lookup_insert_ne; [done|].
  intros <-. apply (is_fresh (dom (heap σ))). apply elem_of_dom. eauto.
Qed.

(** C9: on a namespace where [df] is a frame with a timestamp column,
    the filter statement binds [df_cleaned] to a new frame whose rows are
    exactly the rows of [df] with a timestamp other than ["00:00"], in
    their original order; [df] still names the same, unchanged frame, and
    no other frame or name is touched. *)
Theorem clean_filters_rows σ l d :
  names σ !! "df"%string = Some l → heap σ !! l = Some d →
  wf_frame d → is_Some (columns d !! "timestamp"%string) →
  ∃ d' σ',
    clean σ = Ok σ' ∧
    lookup_name σ' "df_cleaned" = Ok d' ∧
    rows d' = List.filter differs (rows d) ∧
    sublist (rows d') (rows d) ∧
    (∀ r, r ∈ rows d' ↔ r ∈ rows d ∧ differs r = true) ∧
    names σ' !! "df"%string = Some l ∧
    lookup_name σ' "df" = Ok d ∧
    (∀ l0 d0, heap σ !! l0 = Some d0 → heap σ' !! l0 = Some d0) ∧
    (∀ x, x ≠ "df_cleaned"%string → names σ' !! x = names σ !! x).
Proof.
  intros Hn Hh Hwf Hts.
  destruct (cleaned_rows d Hwf Hts) as (d' & Hc & _ & Hrows).
  exists d', (assign_new σ "df_cleaned" d').
  assert (Hclean : clean σ = Ok (assign_new σ "df_cleaned" d')).
  { unfold clean, lookup_name. rewrite Hn, Hh. simpl. rewrite Hc. done. }
  assert (Hdf : names (assign_new σ "df_cleaned" d') !! "df"%string = Some l).
  { unfold assign_new. simpl. by rewrite lookup_insert_ne. }
  split; [done|]. split.
  { unfold lookup_name, assign_new. simpl. by rewrite !lookup_insert_eq. }
  split; [done|]. split.
  { rewrite Hrows. clear. induction (rows d) as [|r rs IH]; simpl; [done|].
    destruct (differs r); by constructor. }
  split.
  { intros r. rewrite Hrows, !list_elem_of_In, filter_In. done. }
  split; [done|]. split.
  { unfold lookup_name. rewrite Hdf. by rewrite (assign_new_heap _ _ _ _ _ Hh). }
  split.
  { intros l0 d0. apply assign_new_heap. }
  intros x Hx. unfold assign_new. simpl. by rewrite lookup_insert_ne.
Qed.

(** The snippet itself: of the three rows only the one at 12:00 is kept. *)
Example cleaned_df0 :
  cleaned df0
  = Ok {| index := [1]; columns := {[ "timestamp"%string := [VStr "12:00"] ]} |}.
Proof. vm_compute. reflexivity. Qed.

Lemma clean_filters_rows_witness :
  ∃ d' σ',
    clean (make_df fresh_kernel) = Ok σ' ∧
    lookup_name σ' "df_cleaned" = Ok d' ∧
    rows d' = List.filter differs (rows df0) ∧
    lookup_name σ' "df" = Ok df0.
Proof.
  destruct (clean_filters_rows (make_df fresh_kernel) (fresh (dom (heap fresh_kernel))) df0)
    as (d' & σ' & H1 & H2 & H3 & _ & _ & _ & H4 & _).
  - reflexivity.
  - reflexivity.
  - intros c vs H. unfold df0 in H. cbn [columns] in H.
    apply lookup_singleton_Some in H as [_ <-]. reflexivity.
  - eexists. reflexivity.
  - by exists d', σ'.
Defined.

End DataCleaningFacts.

(** ** The labeling functions *)

Section LabelingFacts.

Import Labeling.

Lemma startswith_spec sub s : startswith sub s = true ↔ ∃ post, s = sub ++ post.
Proof.
  revert s. induction sub as [|a sub IH]; intros s; simpl.
  - split; [intros _; by exists s | done].
  - destruct s as [|b s]; simpl.
    + split; [done | intros [post H]; discriminate].
    + rewrite andb_true_iff, N.eqb_eq, IH. split.
      * intros [-> [post ->]]. by exists post.
      * intros [post H]. injection H as -> ->. eauto.
Qed.

(** The substring test finds [sub] exactly when it occurs. *)
Lemma contains_spec sub s : contains sub s = true ↔ occurs_in sub s.
Proof.
  unfold occurs_in. induction s as [|c s IH]; simpl.
  - rewrite orb_false_r, startswith_spec. split.
    + intros [post H]. by exists [], post.
    + intros (pre & post & H). destruct pre; [by exists post|discriminate].
  - rewrite orb_true_iff, startswith_spec, IH. split.
    + intros [[post H] | (pre & post & H)].
      * by exists [], post.
      * exists (c :: pre), post. by rewrite H.
    + intros (pre & post & H). destruct pre as [|c' pre].
      * left. by exists post.
      * right. injection H as -> ->. by exists pre, post.
Qed.

(** Reading whitespace between tokens changes nothing. *)
Lemma split_acc_blank ws s :
  Forall (λ c, isspace c = true) ws → split_acc [] (ws ++ s) = split_acc [] s.
Proof. induction 1 as [|c ws Hc _ IH]; simpl; [done|]. by rewrite Hc. Qed.

(** Reading characters of a token extends the token. *)
Lemma split_acc_token t tok s :
  Forall (λ c, isspace c = false) t →
  split_acc tok (t ++ s) = split_acc (rev t ++ tok) s.
Proof.
  intros H. revert tok. induction H as [|c t Hc _ IH]; intros tok; simpl; [done|].
  rewrite Hc, IH. by rewrite <- app_assoc.
Qed.

(** At the end of the text or at a whitespace character the token read
    so far is complete. *)
Lemma split_acc_boundary tok rest :
  tok ≠ [] → at_boundary rest = true →
  split_acc tok rest = rev tok :: split_acc [] rest.
Proof.
  intros Htok Hb. destruct tok as [|c tok]; [done|].
  destruct rest as [|d rest]; simpl in *; [done|]. by rewrite Hb.
Qed.

(** A text has at most one tokenisation, the one [split] computes. *)
Lemma tokens_of_split s ts : tokens_of s ts → split s = ts.
Proof.
  unfold split. induction 1 as [ws Hws | ws t rest ts Hws Ht Hns Hb _ IH].
  - rewrite <- (app_nil_r ws). by rewrite split_acc_blank.
  - rewrite split_acc_blank, split_acc_token by done.
    rewrite app_nil_r, split_acc_boundary; [|by destruct t using rev_ind; [|rewrite rev_unit]|done].
    by rewrite rev_involutive, IH.
Qed.

(** The longest prefix free of whitespace. *)
Lemma token_prefix s :
  ∃ t rest, s = t ++ rest ∧ Forall (λ c, isspace c = false) t ∧ at_boundary rest = true.
Proof.
  induction s as [|c s (t & rest & -> & Ht & Hb)].
  - by exists [], [].
  - destruct (isspace c) eqn:Hc.
    + exists [], (c :: t ++ rest). by repeat split.
    + exists (c :: t), rest. repeat split; [by constructor | done].
Qed.

(** A text is blank or starts, after blanks, with a token. *)
Lemma first_token s :
  Forall (λ c, isspace c = true) s ∨
  ∃ ws t rest, s = ws ++ t ++ rest ∧
    Forall (λ c, isspace c = true) ws ∧ t ≠ [] ∧
    Forall (λ c, isspace c = false) t ∧ at_boundary rest = true ∧
    (length rest < length s)%nat.
Proof.
  induction s as [|c s IH]; [by left|].
  destruct (isspace c) eqn:Hc.
  - destruct IH as [Hall | (ws & t & rest & -> & Hws & Ht & Hns & Hb & Hlen)].
    + left. by constructor.
    + right. exists (c :: ws), t, rest. repeat split; try done.
      * by constructor.
      * simpl. lia.
  - right. destruct (token_prefix s) as (t & rest & -> & Ht & Hb).
    exists [], (c :: t), rest. repeat split; try done.
    + by constructor.
    + simpl. rewrite length_app. lia.
Qed.

(** Every text has a tokenisation. *)
Lemma tokens_of_exists s : ∃ ts, tokens_of s ts.
Proof.
  remember (length s) as n eqn:Hn. revert s Hn.
  induction n as [n IH] using lt_wf_ind. intros s ->.
  destruct (first_token s) as [Hall | (ws & t & rest & -> & Hws & Ht & Hns & Hb & Hlen)].
  - exists []. by constructor.
  - destruct (IH (length rest) Hlen rest eq_refl) as [ts Hts].
    exists (t :: ts). by constructor.
Qed.

(** [split] computes the tokenisation. *)
Lemma split_tokens s : tokens_of s (split s).
Proof.
  destruct (tokens_of_exists s) as [ts Hts].
  by rewrite (tokens_of_split _ _ Hts).
Qed.

(** C7: on every data point whose text is a string, [lf_contains_my]
    returns 1 if "my" occurs in the lowercased text and -1 otherwise;
    [lf_short_comment] returns 0 if the text has fewer than five
    whitespace-separated tokens and -1 otherwise.  Both are total, with
    results in {1, -1} and {0, -1}. *)
Theorem labeling_functions_spec (lower : str → str) (x : DataPoint) :
  (occurs_in (codepoints "my") (lower (text x)) →
     apply_lf (lf_contains_my lower) x = 1) ∧
  (¬ occurs_in (codepoints "my") (lower (text x)) →
     apply_lf (lf_contains_my lower) x = -1) ∧
  (∃ ts, tokens_of (text x) ts ∧
         (∀ ts', tokens_of (text x) ts' → ts' = ts) ∧
         apply_lf lf_short_comment x = if decide (length ts < 5)%nat then 0 else -1) ∧
  (apply_lf (lf_contains_my lower) x = 1 ∨ apply_lf (lf_contains_my lower) x = -1) ∧
  (apply_lf lf_short_comment x = 0 ∨ apply_lf lf_short_comment x = -1).
Proof.
  unfold apply_lf, lf_contains_my, lf_short_comment, labeling_function. cbn [lf_f].
  pose proof (contains_spec (codepoints "my") (lower (text x))) as Hc.
  repeat split.
  - intros Ho. apply Hc in Ho. by rewrite Ho.
  - intros Hno. destruct (contains _ _) eqn:E; [|done]. destruct Hno. by apply Hc.
  - exists (split (text x)). split; [apply split_tokens|]. split.
    + intros ts' Hts'. symmetry. by apply tokens_of_split.
    + unfold len. destruct (Z.ltb_spec (Z.of_nat (length (split (text x)))) 5);
        case_decide; (done || lia).
  - destruct (contains _ _); auto.
  - destruct (_ <? _); auto.
Qed.

Lemma labeling_functions_spec_witness :
  apply_lf (lf_contains_my ascii_lower) {| text := codepoints "it is My song" |} = 1 ∧
  apply_lf lf_short_comment {| text := codepoints "it is My song" |} = 0.
Proof.
  destruct (labeling_functions_spec ascii_lower {| text := codepoints "it is My song" |})
    as (Hmy & _ & (ts & Hts & _ & Hshort) & _).
  split.
  - apply Hmy. by exists (codepoints "it is "), (codepoints " song").
  - rewrite Hshort, <- (tokens_of_split _ _ Hts). reflexivity.
Defined.

(** The functions at work, with ASCII lowercasing. *)
Example lf_contains_my_yes :
  apply_lf (lf_contains_my ascii_lower) {| text := codepoints "Check out MY channel" |} = 1.
Proof. vm_compute. reflexivity. Qed.

Example lf_contains_my_no :
  apply_lf (lf_contains_my ascii_lower) {| text := codepoints "m y song" |} = -1.
Proof. vm_compute. reflexivity. Qed.

Example split_example :
  split (codepoints "  so   good 10/10 ") = codepoints <$> ["so"; "good"; "10/10"]%string.
Proof. vm_compute. reflexivity. Qed.

Example lf_short_comment_four :
  apply_lf lf_short_comment {| text := codepoints "love this song  <3" |} = 0.
Proof. vm_compute. reflexivity. Qed.

Example lf_short_comment_five :
  apply_lf lf_short_comment {| text := codepoints "i love this song <3" |} = -1.
Proof. vm_compute. reflexivity. Qed.

End LabelingFacts.

(** ** Snippets over library calls *)

Section LibraryCallsFacts.

Import LibraryCalls.

Variable world : Type.
Variable library : libop → world → outcome pyobj * world.

(** An operation the library answers with an exception ends the run
    with that exception: nothing between the operation and the caller
    of the program catches it. *)
Lemma raised_propagates {A} (p : prog A) w o e :
  In (o, Raised e) (trace world library p w) →
  fst (run world library p w) = Raised e.
Proof.
  revert w. induction p as [a | e' | o' k IH]; intros w; simpl; [done..|].
  destruct (library o' w) as [[v | e'] w']; simpl.
  - intros [H | H]; [discriminate | by apply IH].
  - intros [H | []]. by injection H as _ ->.
Qed.

(** The failing operation is the last one performed. *)
Lemma raised_is_last {A} (p : prog A) w o e :
  In (o, Raised e) (trace world library p w) →
  ∃ before, trace world library p w = before ++ [(o, Raised e)]
            ∧ Forall answered before.
Proof.
  revert w. induction p as [a | e' | o' k IH]; intros w; simpl; [done..|].
  destruct (library o' w) as [[v | e'] w'] eqn:E; simpl.
  - intros [H | H]; [discriminate|].
    destruct (IH _ _ H) as (before & -> & Hb).
    exists ((o', Returned v) :: before). split; [done|].
    constructor; [by exists v | done].
  - intros [H | []]. injection H as -> ->. by exists [].
Qed.

(** A run that returns was answered at every operation: a value is never
    made up in place of a failed operation. *)
Lemma returned_all_answered {A} (p : prog A) w a :
  fst (run world library p w) = Returned a →
  Forall answered (trace world library p w).
Proof.
  revert w. induction p as [a' | e' | o' k IH]; intros w; simpl; [done..|].
  destruct (library o' w) as [[v | e'] w']; simpl; [|done].
  intros H. constructor; [by exists v | by apply IH].
Qed.

(** Sequencing performs the operations of the first program, then, if it
    returned, those of the second. *)
Lemma run_bind {A B} (p : prog A) (k : A → prog B) w :
  run world library (p ≫= k) w =
  match run world library p w with
  | (Returned a, w') => run world library (k a) w'
  | (Raised e, w') => (Raised e, w')
  end.
Proof.
  revert w. induction p as [a | e | o k' IH]; intros w; simpl; [done..|].
  destruct (library o w) as [[v | e] w']; [apply IH | done].
Qed.

(** Every program over the signature propagates and never falls back. *)
Lemma prog_propagates {A} (p : prog A) : propagates world library p.
Proof.
  intros w o e H. split; [by apply (raised_propagates p w o) | by apply raised_is_last].
Qed.

Lemma prog_no_fallback {A} (p : prog A) : no_fallback world library p.
Proof. intros w a. apply returned_all_answered. Qed.

(** Unpacking returns two of the four values or raises. *)
Lemma unpack4_cases r :
  (∃ a c, unpack4 r = Ret (a, c)) ∨ (∃ e, unpack4 r = Throw e).
Proof.
  destruct r as [| | |[|? [|? [|? [|? [|? ?]]]]]|[|? [|? [|? [|? [|? ?]]]]]| | |];
    simpl; eauto.
Qed.

End LibraryCallsFacts.

(** With the toy libraries, [univariate_selection] gets as far as
    [selector.fit], which raises; the exception is the result. *)
Example univariate_selection_fit_fails :
  let p := LibraryCalls.univariate_selection (LibraryCalls.PObj 0) (LibraryCalls.PObj 1) in
  fst (LibraryCalls.run N LibraryCalls.toy_library p 2%N)
  = LibraryCalls.Raised (LibraryCalls.PError "ValueError") ∧
  length (LibraryCalls.trace N LibraryCalls.toy_library p 2%N) = 5%nat.
Proof. vm_compute. split; reflexivity. Qed.

(** [augment] performs its three operations and returns the last value. *)
Example augment_runs :
  let p := LibraryCalls.augment (LibraryCalls.PObj 0) 32 32 3 in
  LibraryCalls.run N LibraryCalls.toy_library p 1%N
  = (LibraryCalls.Returned (LibraryCalls.PObj 3), 4%N) ∧
  fst <$> LibraryCalls.trace N LibraryCalls.toy_library p 1%N
  = [ LibraryCalls.CallFunc "tf.image.resize_with_crop_or_pad"
        [LibraryCalls.PObj 0; LibraryCalls.PInt 40; LibraryCalls.PInt 40] [];
      LibraryCalls.CallFunc "tf.image.random_crop"
        [LibraryCalls.PObj 1;
         LibraryCalls.PList [LibraryCalls.PInt 32; LibraryCalls.PInt 32; LibraryCalls.PInt 3]] [];
      LibraryCalls.CallFunc "tf.image.random_flip_left_right" [LibraryCalls.PObj 2] [] ].
Proof. vm_compute. split; reflexivity. Qed.



(** ** The trees and the notebooks

    The snippets of each notebook, printed: the code of the cells and
    fences, with single for double quotes and without comments. *)

Section SourceFacts.

Import Notebooks Source.

Example source_of_chapter2 :
  source <$> chapter2
  =
    [["!pip install tensorflow-data-validation"];
     ["import tensorflow_data_validation as tfdv";
      "stats = tfdv.generate_statistics_from_csv(data_location='your_data.csv', delimiter=',')"];
     ["stats = tfdv.generate_statistics_from_tfrecord(data_location='your_data.tfrecord')";
      "tfdv.visualize_statistics(stats)"];
     ["print(stats.datasets[0].features[0].string_stats.rank_histogram)"]]%string.
Proof. vm_compute. reflexivity. Qed.

Example source_of_chapter3 :
  source <$> chapter3
  =
    [["import numpy as np"; "def compute_feature_std(feature_column):";
      "    return np.std(feature_column)"];
     ["import pandas as pd"; "from sklearn.preprocessing import MinMaxScaler, StandardScaler";
      "X = [[1], [2], [3]]"; "X_norm = MinMaxScaler().fit_transform(X)";
      "X_std = StandardScaler().fit_transform(X)"];
     ["df = pd.DataFrame({'timestamp': ['00:00', '12:00', '00:00']})";
      "df_cleaned = df[df['timestamp'] != '00:00']"];
     ["import pandas as pd"; "values = pd.Series([1, 2, 2, 3, 4, 5, 6, 7, 8])";
      "buckets = pd.qcut(values, q=3, labels=['low', 'medium', 'high'])"];
     ["import pandas as pd"; "df = pd.DataFrame({'day': [1, 2], 'hour': [10, 12]})";
      "df['hour_of_week'] = df['day'] * 24 + df['hour']"];
     ["from sklearn.decomposition import PCA"; "X = [[1, 2], [3, 4], [5, 6]]";
      "pca = PCA(n_components=1)"; "X_reduced = pca.fit_transform(X)"];
     ["cor = df.corr()"; "cor_target = abs(cor['target'])";
      "selected_features = cor_target[cor_target > 0.8].index"];
     ["from sklearn.feature_selection import SelectKBest, chi2";
      "from sklearn.model_selection import train_test_split";
      "from sklearn.preprocessing import MinMaxScaler"; "def univariate_selection(X, y):";
      "    X_train, _, y_train, _ = train_test_split(X, y, stratify=y, test_size=0.2)";
      "    X_scaled = MinMaxScaler().fit_transform(X_train)";
      "    selector = SelectKBest(score_func=chi2, k=10)";
      "    selector.fit(X_scaled, y_train)"; "    return X.columns[selector.get_support()]"];
     ["from sklearn.feature_selection import RFE";
      "from sklearn.ensemble import RandomForestClassifier"; "def run_rfe(X, y, k):";
      "    model = RandomForestClassifier()"; "    rfe = RFE(model, n_features_to_select=k)";
      "    rfe.fit(X, y)"; "    return X.columns[rfe.get_support()]"];
     ["from sklearn.feature_selection import SelectFromModel";
      "from sklearn.ensemble import RandomForestClassifier"; "model = RandomForestClassifier()";
      "model.fit(X, y)"; "selector = SelectFromModel(model, prefit=True)";
      "X_selected = selector.transform(X)"];
     ["import tensorflow as tf"; "import tensorflow_hub as hub";
      "import tensorflow_text as tf_text"; "START_TOKEN_ID = 101"; "END_TOKEN_ID = 102";
      "def preprocessing_fn(inputs):"; "    tokenizer = tf_text.BertTokenizer(...)";
      "    text = tf_text.normalize_utf8(inputs['message'])";
      "    tokens = tokenizer.tokenize(text).merge_dims(-2, -1)";
      "    tokens, type_ids = tf_text.combine_segments(tokens, START_TOKEN_ID, END_TOKEN_ID)";
      "    tokens, mask_ids = tf_text.pad_model_inputs(tokens, max_seq_length=128)";
      "    return {'input_ids': tokens, 'input_mask': mask_ids, 'input_type_ids': type_ids}"]]%string.
Proof. vm_compute. reflexivity. Qed.

Example source_of_chapter4 :
  source <$> chapter4
  =
    [["import tensorflow_data_validation as tfdv";
      "dataset_stats = tfdv.generate_statistics_from_tfrecord('train.tfrecord')";
      "schema = tfdv.infer_schema(statistics=dataset_stats)"; "tfdv.display_schema(schema)"];
     ["anomalies = tfdv.validate_statistics(statistics=dataset_stats, schema=schema)";
      "tfdv.display_anomalies(anomalies)"];
     ["drift_comparator: {infinity_norm_threshold: 0.05}"];
     ["feature_store.put('user_age_bucket', feature_vector)";
      "features = feature_store.get(['user_age_bucket'], user_id='123')"]]%string.
Proof. vm_compute. reflexivity. Qed.

Example source_of_chapter5 :
  source <$> chapter5
  =
    [["from sklearn import datasets"; "from sklearn.semi_supervised import LabelPropagation";
      "import matplotlib.pyplot as plt"; "import numpy as np";
      "X, y = datasets.make_classification(n_samples=200, n_features=2, n_classes=2, n_redundant=0)";
      "rng = np.random.RandomState(42)"; "y_missing = y.copy()";
      "unlabeled_indices = rng.rand(len(y)) < 0.8"; "y_missing[unlabeled_indices] = -1";
      "lp_model = LabelPropagation()"; "lp_model.fit(X, y_missing)"];
     ["from sklearn.svm import SVC"; "initial_idx = np.where(y_missing != -1)[0][:10]";
      "model = SVC(kernel='linear', probability=True)";
      "model.fit(X[initial_idx], y[initial_idx])"; "probs = model.predict_proba(X)";
      "margins = np.abs(probs[:, 0] - probs[:, 1])"; "uncertain_idx = np.argsort(margins)[:10]"];
     ["from snorkel.labeling import labeling_function"; "@labeling_function()";
      "def lf_contains_my(x):"; "    return 1 if 'my' in x.text.lower() else -1";
      "@labeling_function()"; "def lf_short_comment(x):";
      "    return 0 if len(x.text.split()) < 5 else -1"];
     ["import tensorflow as tf"; "def augment(x, height, width, num_channels):";
      "    x = tf.image.resize_with_crop_or_pad(x, height + 8, width + 8)";
      "    x = tf.image.random_crop(x, [height, width, num_channels])";
      "    x = tf.image.random_flip_left_right(x)"; "    return x"];
     ["x = np.linspace(0, 10, 200)"; "y = 3 * np.sin(2 * np.pi * x) + 15"; "plt.plot(x, y)";
      "plt.title('Seasonality in Time Series')"; "plt.xlabel('Time')";
      "plt.ylabel('Temperature')"; "plt.show()"]]%string.
Proof. vm_compute. reflexivity. Qed.

End SourceFacts.

(** ** The snippets as syntax: facts about the analyses *)

Section AnalysisFacts.

Import Py Notebooks Analysis.

Lemma mem_In x l : mem x l = true ↔ In x l.
Proof.
  unfold mem. rewrite existsb_exists. split.
  - intros (y & Hy & E). apply String.eqb_eq in E. by subst.
  - intros H. exists x. split; [done | apply String.eqb_refl].
Qed.

Lemma defines_In x c : defines x c = true ↔ In x (defs c).
Proof. apply mem_In. Qed.

Lemma existsb_false_Forall {A} (f : A → bool) l :
  existsb f l = false ↔ Forall (λ a, f a = false) l.
Proof.
  induction l as [|a l IH]; simpl; [by split|].
  rewrite orb_false_iff, IH. split.
  - intros [? ?]. by constructor.
  - by inversion 1.
Qed.

(** A snippet without logic of its own consists of names, literals,
    displays, attribute accesses, subscripts and calls. *)
Lemma no_own_logic_nodes c :
  has_own_logic c = false ↔
  Forall (λ e, invocation_node e = true) (block_nodes (sn_body c)).
Proof.
  unfold has_own_logic. rewrite existsb_false_Forall.
  apply Forall_iff. intros e. by destruct (invocation_node e).
Qed.

(** Conditional expressions, arithmetic and predicates are logic of the
    snippet's own. *)
Lemma has_logic_own k c : has_logic k c = true → has_own_logic c = true.
Proof.
  unfold has_logic, has_own_logic. rewrite !existsb_exists.
  intros (e & He & Hk). exists e. split; [done|].
  unfold is_logic in Hk. by destruct e.
Qed.

(** A snippet installs no handler exactly when none of its statements,
    at any depth, is a [try]. *)
Lemma no_handler_stmts c :
  installs_handler c = false ↔
  ∀ s, In s (block_stmts (sn_body c)) → ∀ b h f, s ≠ STry b h f.
Proof.
  unfold installs_handler. rewrite existsb_false_Forall, List.Forall_forall.
  split.
  - intros H s Hs b h f ->. by specialize (H _ Hs).
  - intros H s Hs. destruct s; try done. by destruct (H _ Hs body handlers finalbody).
Qed.

(** The check of [forward] is sound. *)
Lemma forward_only_sound earlier later :
  forward_only earlier later = true →
  ∀ pre c post x,
    later = pre ++ c :: post → In x (uses c) →
    (∃ c', In c' (earlier ++ pre) ∧ In x (defs c')) ∨
    (∀ c', In c' (earlier ++ later) → ¬ In x (defs c')).
Proof.
  revert earlier. induction later as [|c0 rest IH]; intros earlier Hf pre c post x Hl Hx.
  { by destruct pre. }
  cbn [forward_only] in Hf. apply andb_true_iff in Hf as [Hhere Hrest].
  destruct pre as [|c1 pre]; simpl in Hl; injection Hl as <- ->.
  - rewrite forallb_forall in Hhere. specialize (Hhere x Hx).
    destruct (existsb (defines x) earlier) eqn:He.
    + left. apply existsb_exists in He as (c' & Hc' & Hd).
      exists c'. rewrite app_nil_r. split; [done | by apply defines_In].
    + right. cbn [orb] in Hhere. rewrite existsb_false_Forall, List.Forall_forall in He.
      rewrite forallb_forall in Hhere.
      intros c' Hc' Hd. apply defines_In in Hd. apply in_app_or in Hc' as [Hc' | Hc'].
      * specialize (He _ Hc'). congruence.
      * specialize (Hhere _ Hc'). rewrite Hd in Hhere. done.
  - destruct (IH _ Hrest pre c post x eq_refl Hx) as [(c' & Hc' & Hd) | Hno].
    + left. exists c'. split; [|done]. by rewrite <- app_assoc in Hc'.
    + right. intros c' Hc'. apply Hno. by rewrite <- app_assoc.
Qed.

Lemma forward_only_forward cs : forward_only [] cs = true → forward cs.
Proof.
  intros H pre c post x -> Hx.
  exact (forward_only_sound [] _ H pre c post x eq_refl Hx).
Qed.

End AnalysisFacts.

(** ** The notebooks *)

Section NotebookFacts.

Import Py Notebooks Analysis.

(** C1, as stated, fails: the labeling-function cell of chapter 5
    contains a conditional expression over a substring test, and the
    feature-cross snippet of chapter 3 builds its feature by arithmetic. *)
Lemma labeling_cell_has_conditional :
  In ch5_labeling_functions all_snippets ∧
  In (EIfExp (ECompare (lit "my") OpIn (call (dotted "x" ["text"; "lower"]) []))
        (int 1) (int (-1)))
     (block_nodes (sn_body ch5_labeling_functions)) ∧
  In ch3_feature_cross all_snippets ∧
  has_logic Arithmetic ch3_feature_cross = true ∧
  ¬ Forall (λ c, has_own_logic c = false) all_snippets.
Proof.
  split; [vm_compute; tauto|]. split; [vm_compute; tauto|].
  split; [vm_compute; tauto|]. split; [by vm_compute|].
  intros H. rewrite List.Forall_forall in H.
  assert (Hin : In ch5_labeling_functions all_snippets) by (vm_compute; tauto).
  specialize (H _ Hin). by vm_compute in H.
Qed.

(** C1, amended: no snippet has a branch, a loop, a handler or a context
    manager.  Sixteen of the twenty-four snippets consist only of names,
    literals, displays, attribute accesses, subscripts and calls; two of
    the sixteen make no call at all, the installation cell of chapter 2
    and the drift threshold of chapter 4, and every other one makes at
    least one.  The other eight also hold logic of their own:
    comparisons in the cleaning filter, the correlation filter and the
    label masking, arithmetic in the feature cross, [augment] and the
    seasonality cell, both in the margin sampling, and conditional
    expressions over comparisons in the labeling functions. *)
Theorem snippets_own_logic :
  length all_snippets = 24%nat ∧
  length (List.filter (λ c, negb (has_own_logic c)) all_snippets) = 16%nat ∧
  Forall (λ c, has_control_flow c = false) all_snippets ∧
  List.filter has_own_logic all_snippets
  = [ch3_cleaning; ch3_feature_cross; ch3_filter; ch5_label_propagation;
     ch5_margin_sampling; ch5_labeling_functions; ch5_augment; ch5_seasonality] ∧
  own_logic <$> List.filter has_own_logic all_snippets
  = [[Predicate]; [Arithmetic]; [Predicate]; [Predicate];
     [Arithmetic; Predicate]; [Conditional; Predicate]; [Arithmetic]; [Arithmetic]] ∧
  Forall (λ c, own_logic c = [] ∧
               Forall (λ e, invocation_node e = true) (block_nodes (sn_body c)))
    (List.filter (λ c, negb (has_own_logic c)) all_snippets) ∧
  List.filter (λ c, match calls c with [] => true | _ => false end) all_snippets
  = [ch2_install; ch4_drift].
Proof.
  split; [reflexivity|]. split; [by vm_compute|]. split.
  { apply existsb_false_Forall. by vm_compute. }
  split; [by vm_compute|]. split; [by vm_compute|]. split; [|by vm_compute].
  rewrite List.Forall_forall. intros c Hc.
  apply filter_In in Hc as [Hc Hpure]. apply negb_true_iff in Hpure.
  split; [|by apply no_own_logic_nodes].
  unfold own_logic.
  assert (Hk : ∀ k, has_logic k c = false).
  { intros k. destruct (has_logic k c) eqn:E; [|done].
    apply has_logic_own in E. congruence. }
  cbn [List.filter]. by rewrite !Hk.
Qed.

(** C2, as stated, fails: in chapter 2 the last cell prints from [stats],
    which the cell before it binds; in chapter 5 the synthetic dataset
    [X], [y] of the first cell is what the margin-sampling cell fits and
    predicts on. *)
Lemma stats_crosses_cells :
  cells Chapter2 !! 2%nat = Some ch2_stats_tfrecord ∧
  cells Chapter2 !! 3%nat = Some ch2_print_histogram ∧
  In "stats"%string (defs ch2_stats_tfrecord) ∧
  In "stats"%string (uses ch2_print_histogram) ∧
  ¬ isolated (cells Chapter2) ∧
  cells Chapter5 !! 0%nat = Some ch5_label_propagation ∧
  cells Chapter5 !! 1%nat = Some ch5_margin_sampling ∧
  In "X"%string (defs ch5_label_propagation) ∧
  In "X"%string (uses ch5_margin_sampling) ∧
  ¬ isolated (cells Chapter5).
Proof.
  assert (Hd : In "stats"%string (defs ch2_stats_tfrecord)) by (vm_compute; tauto).
  assert (Hu : In "stats"%string (uses ch2_print_histogram)) by (vm_compute; tauto).
  assert (Hd' : In "X"%string (defs ch5_label_propagation)) by (vm_compute; tauto).
  assert (Hu' : In "X"%string (uses ch5_margin_sampling)) by (vm_compute; tauto).
  repeat split; try done.
  - intros H. exact (H 2%nat 3%nat _ _ _ eq_refl eq_refl ltac:(lia) Hd Hu).
  - intros H. exact (H 0%nat 1%nat _ _ _ eq_refl eq_refl ltac:(lia) Hd' Hu').
Qed.

(** C2, amended: cells do refer to names bound in other cells, always in
    narrative order.  In every notebook each name a snippet needs from
    outside itself is bound by an earlier snippet of that notebook, or by
    no snippet of it ([y] in chapter 3; [infinity_norm_threshold],
    [feature_store] and [feature_vector] in chapter 4); the references
    are the ones listed,
    each with the first line of the latest earlier snippet binding the
    name and the first line of the snippet needing it. *)
Theorem cells_reference_earlier_cells (nb : notebook) :
  forward (cells nb) ∧
  flows [] (cells nb)
  = match nb with
    | Chapter2 => [("tfdv", 160, 179); ("stats", 179, 199)]
    | Chapter3 => [("pd", 73, 91); ("df", 125, 169); ("X", 143, 226)]
    | Chapter4 => [("tfdv", 90, 98); ("dataset_stats", 90, 98); ("schema", 90, 98)]
    | Chapter5 => [("np", 38, 78); ("y_missing", 38, 78); ("X", 38, 78); ("y", 38, 78);
                   ("np", 38, 178); ("plt", 38, 178)]
    end%string%nat ∧
  unbound (cells nb)
  = match nb with
    | Chapter3 => ["y"]
    | Chapter4 => ["infinity_norm_threshold"; "feature_store"; "feature_vector"]
    | Chapter2 | Chapter5 => []
    end%string.
Proof.
  split; [apply forward_only_forward; by destruct nb; vm_compute|].
  split; by destruct nb; vm_compute.
Qed.

(** C6, as stated, fails: the first code cell of chapter 2 is a shell
    escape, which runs [pip] in a child process. *)
Lemma install_cell_spawns_process :
  In ch2_install all_snippets ∧
  sn_body ch2_install = [SShellEscape "pip install tensorflow-data-validation"] ∧
  spawns_process ch2_install = true.
Proof. split; [vm_compute; tauto|]. by split. Qed.

(** C6, amended: apart from the installation cell of chapter 2, whose
    shell escape runs [pip] in a child process, no snippet creates a
    thread or a process: the modules imported are the nine listed, none
    of them one of the interpreter's threading, process or scheduling
    modules.  No snippet defines a coroutine or a generator, awaits or
    yields, uses a context manager, or opens, closes, acquires or
    releases anything. *)
Theorem snippets_sequential :
  List.filter spawns_process all_snippets = [ch2_install] ∧
  nodup (flat_map imports all_snippets)
  = ["tensorflow_data_validation"; "numpy"; "pandas"; "sklearn"; "tensorflow";
     "tensorflow_hub"; "tensorflow_text"; "matplotlib"; "snorkel"]%string ∧
  Forall (λ c, imports_concurrency c = false ∧ suspends c = false
               ∧ manages_resource c = false) all_snippets.
Proof.
  split; [by vm_compute|]. split; [by vm_compute|].
  cut (existsb (λ c, imports_concurrency c || suspends c || manages_resource c)
         all_snippets = false).
  { rewrite existsb_false_Forall. intros HF. eapply Forall_impl; [exact HF|].
    intros c H. simpl in H.
    apply orb_false_iff in H as [H ?]. apply orb_false_iff in H as [? ?]. done. }
  by vm_compute.
Qed.

End NotebookFacts.

(** ** Feature selection and data validation *)

Section SelectionFacts.

Import Py Notebooks Analysis CorrelationFilter.

(** Masking the labels by the threshold test keeps the labels of the
    entries that exceed the threshold, in order. *)
Lemma selected_features_spec (s : FloatSeries) :
  selected_features s = fst <$> List.filter exceeds (entries s).
Proof.
  unfold selected_features, masked_index, series_gt, series_abs, entries. simpl.
  generalize (values s). induction (labels s) as [|x ls IH]; intros [|v vs]; simpl;
    try done.
  unfold exceeds at 1. simpl.
  destruct (PrimFloat.ltb threshold (PrimFloat.abs v)); simpl; by rewrite IH.
Qed.

Lemma selected_features_In (s : FloatSeries) x :
  In x (selected_features s) ↔
  ∃ v, In (x, v) (entries s) ∧ PrimFloat.ltb threshold (PrimFloat.abs v) = true.
Proof.
  rewrite selected_features_spec, <- list_elem_of_In, list_elem_of_fmap. split.
  - intros ([y v] & -> & H). apply list_elem_of_In, filter_In in H as [H1 H2].
    by exists v.
  - intros (v & H1 & H2). exists (x, v). split; [done|].
    apply list_elem_of_In, filter_In. by split.
Qed.

(** A correlation column: a strongly positive, a weak, a strongly
    negative and an undefined correlation, and the target itself. *)
Example selected_features_example :
  selected_features
    {| labels := ["age"; "height"; "debt"; "constant"; "target"];
       values := [0.93; 0.41; (-0.87); PrimFloat.nan; 1]%float |}
  = ["age"; "debt"; "target"]%string.
Proof. vm_compute. reflexivity. Qed.

(** C4, as stated, fails: the "Filter Methods" snippet selects features
    itself, by comparing absolute correlations with 0.8; it calls only
    [df.corr] and [abs]. *)
Lemma filter_snippet_thresholds :
  In ch3_filter all_snippets ∧
  selects_or_validates ch3_filter = true ∧
  In (ECompare (EName "cor_target") OpGt (float "0.8"))
     (block_nodes (sn_body ch3_filter)) ∧
  has_threshold_test ch3_filter = true ∧
  calls ch3_filter = ["df.corr"; "abs"]%string.
Proof.
  split; [vm_compute; tauto|]. split; [by vm_compute|].
  split; [vm_compute; tauto|]. split; by vm_compute.
Qed.

(** C4, amended: of the snippets on feature selection and data
    validation, univariate selection, recursive elimination and the
    embedded method delegate to [SelectKBest], [RFE] and
    [SelectFromModel], and the TFDV snippets to [tfdv] (validation itself
    to [tfdv.validate_statistics]); none of these holds logic of its own.
    The "Filter Methods" snippet is a selection of the repository's own:
    it keeps exactly the features whose absolute correlation with the
    target exceeds 0.8. *)
Theorem selection_and_validation_delegation :
  List.filter selects_or_validates all_snippets
  = [ch2_install; ch2_stats_csv; ch2_stats_tfrecord; ch2_print_histogram;
     ch3_filter; ch3_univariate; ch3_rfe; ch3_embedded;
     ch4_infer_schema; ch4_validate] ∧
  List.filter has_own_logic (List.filter selects_or_validates all_snippets)
  = [ch3_filter] ∧
  calls <$> List.filter selects_or_validates all_snippets
  = [ [];
      ["tfdv.generate_statistics_from_csv"];
      ["tfdv.generate_statistics_from_tfrecord"; "tfdv.visualize_statistics"];
      ["print"];
      ["df.corr"; "abs"];
      ["train_test_split"; ".fit_transform"; "MinMaxScaler"; "SelectKBest";
       "selector.fit"; "selector.get_support"];
      ["RandomForestClassifier"; "RFE"; "rfe.fit"; "rfe.get_support"];
      ["RandomForestClassifier"; "model.fit"; "SelectFromModel"; "selector.transform"];
      ["tfdv.generate_statistics_from_tfrecord"; "tfdv.infer_schema";
       "tfdv.display_schema"];
      ["tfdv.validate_statistics"; "tfdv.display_anomalies"] ]%string ∧
  List.filter has_threshold_test (List.filter selects_or_validates all_snippets)
  = [ch3_filter] ∧
  (∀ s x, In x (selected_features s) ↔
          ∃ v, In (x, v) (entries s) ∧ PrimFloat.ltb 0.8 (PrimFloat.abs v) = true) ∧
  (∀ s, selected_features s = fst <$> List.filter exceeds (entries s)).
Proof.
  split; [by vm_compute|]. split; [by vm_compute|]. split; [by vm_compute|].
  split; [by vm_compute|]. split.
  - apply selected_features_In.
  - apply selected_features_spec.
Qed.

End SelectionFacts.

(** ** Exceptions *)

Section PropagationFacts.

Import Notebooks Analysis.

(** C3: no snippet of the notebooks contains a [try] statement, and the
    snippets that sequence library calls propagate: when the library
    answers one of their operations with an exception, no later
    operation is performed and the snippet ends raising that exception;
    when a snippet returns, every operation was answered with a value.
    This holds whatever the libraries do. *)
Theorem snippets_propagate_exceptions :
  Forall (λ c, installs_handler c = false) all_snippets ∧
  ∀ (world : Type) (library : LibraryCalls.libop → world →
                              LibraryCalls.outcome LibraryCalls.pyobj * world),
    (∀ X y, LibraryCalls.propagates world library (LibraryCalls.univariate_selection X y)
            ∧ LibraryCalls.no_fallback world library (LibraryCalls.univariate_selection X y)) ∧
    (∀ x height width num_channels,
        LibraryCalls.propagates world library
          (LibraryCalls.augment x height width num_channels)
        ∧ LibraryCalls.no_fallback world library
            (LibraryCalls.augment x height width num_channels)) ∧
    (LibraryCalls.propagates world library LibraryCalls.stats_from_csv
     ∧ LibraryCalls.no_fallback world library LibraryCalls.stats_from_csv) ∧
    (LibraryCalls.propagates world library LibraryCalls.stats_from_tfrecord
     ∧ LibraryCalls.no_fallback world library LibraryCalls.stats_from_tfrecord) ∧
    (∀ stats, LibraryCalls.propagates world library (LibraryCalls.print_rank_histogram stats)
              ∧ LibraryCalls.no_fallback world library
                  (LibraryCalls.print_rank_histogram stats)).
Proof.
  split.
  { apply existsb_false_Forall. by vm_compute. }
  intros world library.
  assert (P : ∀ A (p : LibraryCalls.prog A),
             LibraryCalls.propagates world library p
             ∧ LibraryCalls.no_fallback world library p).
  { intros A p. split; [apply prog_propagates | apply prog_no_fallback]. }
  split; [intros; apply P|]. split; [intros; apply P|].
  split; [apply P|]. split; [apply P|]. intros; apply P.
Qed.

(** With the toy libraries [selector.fit] raises, and that exception is
    what [univariate_selection] ends with. *)
Lemma snippets_propagate_exceptions_witness :
  fst (LibraryCalls.run N LibraryCalls.toy_library
         (LibraryCalls.univariate_selection (LibraryCalls.PObj 0) (LibraryCalls.PObj 1)) 2%N)
  = LibraryCalls.Raised (LibraryCalls.PError "ValueError").
Proof.
  destruct snippets_propagate_exceptions as [_ H].
  destruct (H N LibraryCalls.toy_library) as [Hu _].
  destruct (Hu (LibraryCalls.PObj 0) (LibraryCalls.PObj 1)) as [Hp _].
  refine (proj1 (Hp 2%N
    (LibraryCalls.CallMethod (LibraryCalls.PObj 8) "fit"
       [LibraryCalls.PObj 7; LibraryCalls.PObj 4] [])
    (LibraryCalls.PError "ValueError") _)).
  vm_compute. tauto.
Defined.

End PropagationFacts.

(* ===================================================================== *)
(** * Further properties of the snippets *)

(** ** The feature cross: order, range, the frame *)

Section FeatureCrossMore.

Import FeatureCross.

(** Without overflow the cross orders rows as day and hour do: first by
    day, then by hour. *)
Theorem hour_of_week_chronological day1 hour1 day2 hour2 :
  0 <= hour1 < 24 → 0 <= hour2 < 24 →
  in_int64 (day1 * 24 + hour1) → in_int64 (day2 * 24 + hour2) →
  (hour_of_week day1 hour1 < hour_of_week day2 hour2
   ↔ day1 < day2 ∨ (day1 = day2 ∧ hour1 < hour2)).
Proof.
  intros Hh1 Hh2 Hr1 Hr2. rewrite !hour_of_week_exact by done. lia.
Qed.

Lemma hour_of_week_chronological_witness :
  hour_of_week 1 10 < hour_of_week 2 12 ↔ 1 < 2 ∨ (1 = 2 ∧ 10 < 12).
Proof.
  apply (hour_of_week_chronological 1 10 2 12);
    unfold in_int64, int64_min, int64_max; lia.
Defined.

(** Over a period of [days] days numbered from 0, the cross numbers the
    hours of the period: it lies in 0 .. 24 * days - 1, and every hour of
    the period is the cross of a day and an hour of the day. *)
Theorem hour_of_week_period days :
  0 <= days <= 2 ^ 58 →
  (∀ day hour, 0 <= day < days → 0 <= hour < 24 →
     0 <= hour_of_week day hour < 24 * days) ∧
  (∀ n, 0 <= n < 24 * days →
     ∃ day hour, 0 <= day < days ∧ 0 <= hour < 24 ∧ hour_of_week day hour = n).
Proof.
  intros Hdays. split.
  - intros day hour Hd Hh.
    rewrite hour_of_week_exact; [lia|]. unfold in_int64, int64_min, int64_max. lia.
  - intros n Hn. exists (n / 24), (n mod 24).
    pose proof (Z.mod_pos_bound n 24 ltac:(lia)) as Hm.
    pose proof (Z.div_mod n 24 ltac:(lia)) as Hdm.
    assert (0 <= n / 24 < days).
    { split; [apply Z.div_pos; lia|]. apply Z.div_lt_upper_bound; lia. }
    split; [done|]. split; [done|].
    rewrite hour_of_week_exact; [lia|]. unfold in_int64, int64_min, int64_max. lia.
Qed.

Lemma hour_of_week_period_witness :
  (∀ day hour, 0 <= day < 7 → 0 <= hour < 24 → 0 <= hour_of_week day hour < 24 * 7) ∧
  (∀ n, 0 <= n < 24 * 7 →
     ∃ day hour, 0 <= day < 7 ∧ 0 <= hour < 24 ∧ hour_of_week day hour = n).
Proof. apply (hour_of_week_period 7). lia. Defined.

(** The assignment of the new column: it fails exactly when the day or
    the hour column is missing; otherwise the index and every other
    column stay as they are, the new column has one entry per row when
    the day and the hour column have, and assigning again changes
    nothing. *)
Theorem add_hour_of_week_frame (df : DataFrame) :
  (add_hour_of_week df = None
   ↔ columns df !! "day"%string = None ∨ columns df !! "hour"%string = None) ∧
  ∀ df', add_hour_of_week df = Some df' →
    index df' = index df ∧
    (∀ c, c ≠ "hour_of_week"%string → columns df' !! c = columns df !! c) ∧
    (∃ day hour how,
        columns df !! "day"%string = Some day ∧
        columns df !! "hour"%string = Some hour ∧
        columns df' !! "hour_of_week"%string = Some how ∧
        (length day = length (index df) → length hour = length (index df) →
         length how = length (index df))) ∧
    add_hour_of_week df' = Some df'.
Proof.
  unfold add_hour_of_week. split.
  - destruct (columns df !! "day"%string) as [day|]; simpl; [|by intuition].
    destruct (columns df !! "hour"%string) as [hour|]; simpl; [|by intuition].
    split; [done | by intros [|]].
  - intros df'.
    destruct (columns df !! "day"%string) as [day|] eqn:Hd; simpl; [|done].
    destruct (columns df !! "hour"%string) as [hour|] eqn:Hh; simpl; [|done].
    intros [= <-]. simpl. split; [done|]. split.
    { intros c Hc. by rewrite lookup_insert_ne. }
    split.
    { exists day, hour, (series_add (series_mul day 24) hour).
      rewrite lookup_insert_eq. repeat split; try done.
      intros Hld Hlh. unfold series_add, series_mul.
      rewrite length_zip_with, length_fmap. lia. }
    rewrite !lookup_insert_ne, Hd, Hh by done. simpl.
    by rewrite insert_insert_eq.
Qed.

End FeatureCrossMore.

(** ** The data-cleaning filter: errors, structure, idempotence *)

Section DataCleaningMore.

Import DataCleaning.

(** When [df] is not bound the statement raises [NameError]; when the
    frame has no timestamp column it raises [KeyError] for that column.
    Either way no state results: [df_cleaned] is not bound. *)
Theorem clean_errors (σ : state) :
  (names σ !! "df"%string = None → clean σ = Raise (NameError "df")) ∧
  (∀ l d, names σ !! "df"%string = Some l → heap σ !! l = Some d →
          columns d !! "timestamp"%string = None →
          clean σ = Raise (KeyError "timestamp")) ∧
  (∀ e, clean σ = Raise e →
        e = NameError "df" ∨ e = KeyError "timestamp" ∨ e = ValueError "Item wrong length").
Proof.
  unfold clean, lookup_name. split; [by intros ->|]. split.
  - intros l d -> -> Hc. simpl. unfold cleaned, getitem_col. by rewrite Hc.
  - intros e. destruct (names σ !! "df"%string) as [l|]; simpl; [|intros [= <-]; auto].
    destruct (heap σ !! l) as [d|]; simpl; [|intros [= <-]; auto].
    unfold cleaned, getitem_col.
    destruct (columns d !! "timestamp"%string) as [ts|]; simpl; [|intros [= <-]; auto].
    unfold getitem_mask. case_decide; simpl; [done | intros [= <-]; auto].
Qed.

Lemma select_all {A} (mask : list bool) (l : list A) :
  Forall (λ b, b = true) mask → (length l ≤ length mask)%nat → select mask l = l.
Proof.
  intros H. revert l. induction H as [|b mask -> _ IH]; intros [|x l] Hl; simpl in *;
    try done; [lia|]. rewrite IH; [done | lia].
Qed.

Lemma select_Forall {A} (f : A → bool) (l : list A) :
  Forall (λ b, b = true) (f <$> select (f <$> l) l).
Proof.
  induction l as [|x l IH]; simpl; [constructor|].
  destruct (f x) eqn:E; simpl; [constructor; done | done].
Qed.

(** The filter keeps the frame's shape: the same columns, a well-formed
    frame again, and as index the labels of the kept rows as they were
    (the rows are not renumbered). *)
Theorem cleaned_structure d d' :
  wf_frame d → cleaned d = Ok d' →
  wf_frame d' ∧ dom (columns d') = dom (columns d) ∧
  sublist (index d') (index d) ∧
  (∀ c vs', columns d' !! c = Some vs' →
            ∃ vs, columns d !! c = Some vs ∧ sublist vs' vs).
Proof.
  intros Hwf. unfold cleaned, getitem_col.
  destruct (columns d !! "timestamp"%string) as [ts|] eqn:Hts; simpl; [|done].
  unfold getitem_mask. case_decide as Hm; simpl; [|done]. intros [= <-]. simpl.
  split.
  { intros c vs. simpl. rewrite lookup_fmap. intros Hc.
    destruct (columns d !! c) as [ws|] eqn:E; [|done]. injection Hc as <-.
    apply select_length_eq. by apply (Hwf _ _ E). }
  split; [by rewrite dom_fmap_L|]. split; [apply select_sublist|].
  intros c vs'. rewrite lookup_fmap.
  destruct (columns d !! c) as [vs|]; simpl; [|done].
  intros [= <-]. exists vs. split; [done | apply select_sublist].
Qed.

Lemma cleaned_structure_witness :
  wf_frame {| index := [1]; columns := {[ "timestamp"%string := [VStr "12:00"] ]} |}.
Proof.
  refine (proj1 (cleaned_structure df0 _ _ cleaned_df0)).
  intros c vs H. unfold df0 in H. cbn [columns] in H.
  apply lookup_singleton_Some in H as [_ <-]. reflexivity.
Defined.

(** Cleaning a cleaned frame returns it unchanged. *)
Theorem cleaned_idempotent d d' :
  wf_frame d → cleaned d = Ok d' → cleaned d' = Ok d'.
Proof.
  intros Hwf. unfold cleaned at 1, getitem_col.
  destruct (columns d !! "timestamp"%string) as [ts|] eqn:Hts; simpl; [|done].
  unfold getitem_mask. case_decide as Hm; simpl; [|done]. intros [= <-].
  destruct Hm as [_ Hm]. simpl in Hm. rewrite length_fmap in Hm.
  unfold cleaned, getitem_col. simpl. rewrite lookup_fmap, Hts. simpl.
  unfold getitem_mask. simpl.
  set (mask := ne_scalar "00:00" <$> ts).
  set (mask' := ne_scalar "00:00" <$> select mask ts).
  assert (Hall : Forall (λ b, b = true) mask') by apply select_Forall.
  assert (Hlen : ∀ {A} (l : list A), length l = length ts →
                  length (select mask l) = length mask').
  { intros A l Hl. unfold mask'. rewrite length_fmap. by apply select_length_eq. }
  rewrite decide_True by (split; [done | symmetry; by apply Hlen]).
  f_equal. f_equal.
  - apply select_all; [done|]. by rewrite Hlen.
  - apply map_eq. intros c. rewrite !lookup_fmap.
    destruct (columns d !! c) as [vs|] eqn:E; simpl; [|done].
    f_equal. apply select_all; [done|]. rewrite Hlen; [done|].
    rewrite (Hwf _ _ E). done.
Qed.

Lemma cleaned_idempotent_witness :
  cleaned {| index := [1]; columns := {[ "timestamp"%string := [VStr "12:00"] ]} |}
  = Ok {| index := [1]; columns := {[ "timestamp"%string := [VStr "12:00"] ]} |}.
Proof.
  refine (cleaned_idempotent df0 _ _ cleaned_df0).
  intros c vs H. unfold df0 in H. cbn [columns] in H.
  apply lookup_singleton_Some in H as [_ <-]. reflexivity.
Defined.

End DataCleaningMore.

(** ** The correlation filter: order and boundaries *)

Section CorrelationFilterMore.

Import CorrelationFilter.

(** The selected features are labels of the column, in the column's
    order. *)
Theorem selected_features_sublist (s : FloatSeries) :
  sublist (selected_features s) (labels s).
Proof. apply select_sublist. Qed.

Lemma entries_functional (ls : list string) (vs : list float) x v v' :
  NoDup ls → In (x, v) (zip ls vs) → In (x, v') (zip ls vs) → v = v'.
Proof.
  intros Hnd. revert vs. induction Hnd as [|y ls Hy _ IH]; intros [|w vs]; simpl;
    try done.
  intros [[= -> ->] | H1] [[= ->] | H2]; try done.
  - destruct Hy. apply list_elem_of_In in H2. by apply elem_of_zip_l in H2.
  - destruct Hy. apply list_elem_of_In in H1. by apply elem_of_zip_l in H1.
  - by apply (IH vs).
Qed.

(** Boundaries of the threshold test.  A feature perfectly correlated
    with the target, positively or negatively, is selected, and so is
    the target itself, whose correlation with itself is 1.  With
    distinct labels, a feature whose correlation is undefined (NaN) or
    exactly 0.8 in absolute value is not selected. *)
Theorem selected_features_boundaries (s : FloatSeries) x v :
  In (x, v) (entries s) →
  ((v = 1%float ∨ v = (-1)%float) → In x (selected_features s)) ∧
  (NoDup (labels s) →
   (v = PrimFloat.nan ∨ v = 0.8%float ∨ v = (-0.8)%float) →
   ¬ In x (selected_features s)).
Proof.
  intros Hin. split.
  - intros Hv. apply selected_features_In. exists v. split; [done|].
    destruct Hv as [-> | ->]; by vm_compute.
  - intros Hnd Hv Hsel. apply selected_features_In in Hsel as (v' & Hin' & Hgt).
    rewrite <- (entries_functional _ _ _ _ _ Hnd Hin Hin') in Hgt.
    destruct Hv as [-> | [-> | ->]]; by vm_compute in Hgt.
Qed.

Lemma selected_features_boundaries_witness :
  In "target"%string
    (selected_features {| labels := ["age"; "target"]%string; values := [0.8; 1]%float |}).
Proof.
  refine (proj1 (selected_features_boundaries
                   {| labels := ["age"; "target"]%string; values := [0.8; 1]%float |}
                   "target" 1%float _) _).
  - right. left. reflexivity.
  - left. reflexivity.
Defined.

End CorrelationFilterMore.

(** ** The labeling functions: lengths and joined texts *)

Section LabelingMore.

Import Labeling.

Lemma tokens_of_nil ts : tokens_of [] ts → ts = [].
Proof. intros H. by apply tokens_of_split in H. Qed.

(** Tokens need room: each token has a character, and a character of
    whitespace stands between two tokens. *)
Lemma tokens_of_length s ts :
  tokens_of s ts →
  (2 * length ts ≤ length s + 1)%nat ∧
  (at_boundary s = true → s ≠ [] → 2 * length ts ≤ length s)%nat.
Proof.
  induction 1 as [ws Hws | ws t rest ts Hws Ht Hns Hb Hrest [IH1 IH2]].
  - simpl. split; lia.
  - assert (Hlt : (1 ≤ length t)%nat) by (destruct t; [done | simpl; lia]).
    assert (Hts : (2 * length ts ≤ length rest)%nat).
    { destruct rest as [|c rest]; [by rewrite (tokens_of_nil _ Hrest) | by apply IH2]. }
    rewrite !length_app. simpl. split; [lia|].
    intros Hstart _. destruct ws as [|w ws]; simpl; [|lia].
    destruct t as [|c t]; [done|]. simpl in Hstart.
    inversion Hns; subst. congruence.
Qed.

(** A text of fewer than nine characters is always a short comment, and
    nine characters are enough not to be one; a text whose lowercased
    form has fewer than two characters never contains "my". *)
Theorem labeling_short_texts (lower : str → str) :
  (∀ x, (length (text x) < 9)%nat → apply_lf lf_short_comment x = 0) ∧
  (∃ x, length (text x) = 9%nat ∧ apply_lf lf_short_comment x = -1) ∧
  (∀ x, (length (lower (text x)) < 2)%nat → apply_lf (lf_contains_my lower) x = -1).
Proof.
  split; [|split].
  - intros x Hx. unfold apply_lf, lf_short_comment, labeling_function, len. cbn [lf_f].
    destruct (tokens_of_length _ _ (split_tokens (text x))) as [H _].
    destruct (Z.ltb_spec (Z.of_nat (length (split (text x)))) 5); [done | lia].
  - exists {| text := codepoints "a b c d e" |}. by vm_compute.
  - intros x Hx. unfold apply_lf, lf_contains_my, labeling_function. cbn [lf_f].
    destruct (contains _ _) eqn:E; [|done].
    apply contains_spec in E as (pre & post & E). rewrite E, !length_app in Hx.
    simpl in Hx. lia.
Qed.

Lemma tokens_of_blank_prefix ws s ts :
  Forall (λ c, isspace c = true) ws → tokens_of s ts → tokens_of (ws ++ s) ts.
Proof.
  intros Hws. destruct 1 as [ws' Hws' | ws' t rest ts Hws' Ht Hns Hb Hrest].
  - constructor. by apply Forall_app.
  - rewrite app_assoc. constructor; try done. by apply Forall_app.
Qed.

Lemma tokens_of_join a b c ta tb :
  isspace c = true → tokens_of a ta → tokens_of b tb →
  tokens_of (a ++ c :: b) (ta ++ tb).
Proof.
  intros Hc Ha Hb. induction Ha as [ws Hws | ws t rest ts Hws Ht Hns Hbd _ IH].
  - change (ws ++ c :: b) with (ws ++ [c] ++ b). rewrite app_assoc.
    apply tokens_of_blank_prefix; [|done].
    apply Forall_app. split; [done | by constructor].
  - rewrite <- !app_assoc. simpl. constructor; try done.
    destruct rest; simpl in *; done.
Qed.

(** Joining two texts with a whitespace character joins their token
    lists, so the number of tokens [lf_short_comment] compares with five
    is the sum of the two numbers. *)
Theorem lf_short_comment_joined a b c :
  isspace c = true →
  split (a ++ c :: b) = split a ++ split b ∧
  apply_lf lf_short_comment {| text := a ++ c :: b |}
  = if decide (length (split a) + length (split b) < 5)%nat then 0 else -1.
Proof.
  intros Hc.
  assert (E : split (a ++ c :: b) = split a ++ split b).
  { apply tokens_of_split. apply tokens_of_join; [done | apply split_tokens..]. }
  split; [done|].
  unfold apply_lf, lf_short_comment, labeling_function, len. cbn [lf_f text].
  rewrite E, length_app.
  destruct (Z.ltb_spec (Z.of_nat (length (split a) + length (split b))) 5);
    case_decide; (done || lia).
Qed.

Lemma lf_short_comment_joined_witness :
  split (codepoints "so good" ++ 10%N :: codepoints "ten of ten")
  = split (codepoints "so good") ++ split (codepoints "ten of ten") ∧
  apply_lf lf_short_comment
    {| text := codepoints "so good" ++ 10%N :: codepoints "ten of ten" |}
  = if decide (length (split (codepoints "so good"))
               + length (split (codepoints "ten of ten")) < 5)%nat then 0 else -1.
Proof.
  apply (lf_short_comment_joined (codepoints "so good") (codepoints "ten of ten") 10%N).
  reflexivity.
Defined.

End LabelingMore.

(** ** Library-calling snippets: what flows where *)

Section LibraryCallsMore.

Import LibraryCalls MoreLibraryCalls.

Variable world : Type.
Variable library : libop → world → outcome pyobj * world.

Lemma unpack4_Ret r a c :
  unpack4 r = Ret (a, c) → ∃ b d, sequence_of r [a; b; c; d].
Proof.
  unfold sequence_of.
  destruct r as [| | |[|? [|? [|? [|? [|? ?]]]]]|[|? [|? [|? [|? [|? ?]]]]]| | |];
    simpl; try done; intros [= <- <-]; eauto.
Qed.

Lemma unpack4_wrong_length r items :
  sequence_of r items → length items ≠ 4%nat → unpack4 r = Throw (PError "ValueError").
Proof.
  intros [-> | ->] Hl; destruct items as [|? [|? [|? [|? [|? ?]]]]]; simpl in *; done.
Qed.

Lemma unpack2_Ret r a b : unpack2 r = Ret (a, b) → sequence_of r [a; b].
Proof.
  unfold sequence_of.
  destruct r as [| | |[|? [|? [|? ?]]]|[|? [|? [|? ?]]]| | |];
    simpl; try done; intros [= <- <-]; eauto.
Qed.

Lemma unpack2_cases r :
  (∃ a b, unpack2 r = Ret (a, b)) ∨ (∃ e, unpack2 r = Throw e).
Proof.
  destruct r as [| | |[|? [|? [|? ?]]]|[|? [|? [|? ?]]]| | |]; simpl; eauto.
Qed.

(** In each hypothesis and in the goal, the next answer of the library:
    a failure contradicts a run that returned. *)
Ltac next_answer H :=
  match type of H with
  | context [library ?o ?w] =>
      let v := fresh "v" in
      let w' := fresh "w" in
      destruct (library o w) as [[v|?] w'] eqn:?; simpl in H |- *; [|discriminate H]
  end.

(** When a library operation raises during [univariate_selection], the
    function ends with that exception.  What was performed are the
    first [n] operations of the body, in the body's order and with the
    arguments the body gives them, each answered, and then the failing
    one: nothing after it. *)
Theorem univariate_selection_operations X y w o e :
  last (trace world library (univariate_selection X y) w) = Some (o, Raised e) →
  fst (run world library (univariate_selection X y) w) = Raised e ∧
  ∃ split X_train X_test y_train y_test scaler X_scaled selector fitted cols support
    (n : nat),
    let body :=
      [ CallFunc "sklearn.model_selection.train_test_split" [X; y]
          [("stratify"%string, y); ("test_size"%string, PFloat "0.2")];
        CallFunc "sklearn.preprocessing.MinMaxScaler" [] [];
        CallMethod scaler "fit_transform" [X_train] [];
        CallFunc "sklearn.feature_selection.SelectKBest" []
          [("score_func"%string, PGlobal "sklearn.feature_selection.chi2");
           ("k"%string, PInt 10)];
        CallMethod selector "fit" [X_scaled; y_train] [];
        GetAttr X "columns";
        CallMethod selector "get_support" [] [];
        GetItem cols support ] in
    let answers := [split; scaler; X_scaled; selector; fitted; cols; support] in
    body !! n = Some o ∧
    trace world library (univariate_selection X y) w
    = zip (take n body) (Returned <$> answers) ++ [(o, Raised e)] ∧
    ((0 < n)%nat → sequence_of split [X_train; X_test; y_train; y_test]).
Proof.
  set (z := PInt 0).
  unfold univariate_selection, op. simpl. intros H.
  destruct (library _ w) as [[v0|e0] w0]; simpl in H |- *.
  2: { injection H as <- <-. split; [done|].
       exists z, z, z, z, z, z, z, z, z, z, z, 0%nat. simpl. split_and!; [done..|lia]. }
  destruct (unpack4_cases v0) as [(a & c & E) | (e' & E)]; rewrite E in H |- *;
    simpl in H |- *; [|done].
  apply unpack4_Ret in E as (b & d & E).
  destruct (library _ w0) as [[v1|e1] w1]; simpl in H |- *.
  2: { injection H as <- <-. split; [done|].
       by exists v0, a, b, c, d, z, z, z, z, z, z, 1%nat. }
  destruct (library _ w1) as [[v2|e2] w2]; simpl in H |- *.
  2: { injection H as <- <-. split; [done|].
       by exists v0, a, b, c, d, v1, z, z, z, z, z, 2%nat. }
  destruct (library _ w2) as [[v3|e3] w3]; simpl in H |- *.
  2: { injection H as <- <-. split; [done|].
       by exists v0, a, b, c, d, v1, v2, z, z, z, z, 3%nat. }
  destruct (library _ w3) as [[v4|e4] w4]; simpl in H |- *.
  2: { injection H as <- <-. split; [done|].
       by exists v0, a, b, c, d, v1, v2, v3, z, z, z, 4%nat. }
  destruct (library _ w4) as [[v5|e5] w5]; simpl in H |- *.
  2: { injection H as <- <-. split; [done|].
       by exists v0, a, b, c, d, v1, v2, v3, v4, z, z, 5%nat. }
  destruct (library _ w5) as [[v6|e6] w6]; simpl in H |- *.
  2: { injection H as <- <-. split; [done|].
       by exists v0, a, b, c, d, v1, v2, v3, v4, v5, z, 6%nat. }
  destruct (library _ w6) as [[v7|e7] w7]; simpl in H |- *; [done|].
  injection H as <- <-. split; [done|].
  by exists v0, a, b, c, d, v1, v2, v3, v4, v5, v6, 7%nat.
Qed.

(** When [univariate_selection] returns, the run was this: the split of
    [X] and [y]; a scaler fit on and applied to the training part of [X];
    a [SelectKBest] with [chi2] and [k=10] fit on the scaled training
    part and the training labels; and the result is [X.columns] indexed
    by the selector's support.  The two test parts of the split go
    nowhere. *)
Theorem univariate_selection_data_flow X y w r :
  fst (run world library (univariate_selection X y) w) = Returned r →
  ∃ split X_train X_test y_train y_test scaler X_scaled selector fitted cols support,
    sequence_of split [X_train; X_test; y_train; y_test] ∧
    trace world library (univariate_selection X y) w
    = [ (CallFunc "sklearn.model_selection.train_test_split" [X; y]
           [("stratify"%string, y); ("test_size"%string, PFloat "0.2")], Returned split);
        (CallFunc "sklearn.preprocessing.MinMaxScaler" [] [], Returned scaler);
        (CallMethod scaler "fit_transform" [X_train] [], Returned X_scaled);
        (CallFunc "sklearn.feature_selection.SelectKBest" []
           [("score_func"%string, PGlobal "sklearn.feature_selection.chi2");
            ("k"%string, PInt 10)], Returned selector);
        (CallMethod selector "fit" [X_scaled; y_train] [], Returned fitted);
        (GetAttr X "columns", Returned cols);
        (CallMethod selector "get_support" [] [], Returned support);
        (GetItem cols support, Returned r) ].
Proof.
  unfold univariate_selection, op. simpl. intros H.
  next_answer H.
  destruct (unpack4_cases v) as [(a & c & E) | (e & E)]; rewrite E in H |- *;
    simpl in H |- *; [|done].
  apply unpack4_Ret in E as (b & d & E).
  do 7 next_answer H. injection H as ->.
  by eexists v, a, b, c, d, _, _, _, _, _, _.
Qed.

(** A split that does not have four parts ends [univariate_selection]
    with a [ValueError] right after the split: no scaler or selector is
    made. *)
Theorem univariate_selection_bad_split X y w split items w' :
  library (CallFunc "sklearn.model_selection.train_test_split" [X; y]
             [("stratify"%string, y); ("test_size"%string, PFloat "0.2")]) w
  = (Returned split, w') →
  sequence_of split items → length items ≠ 4%nat →
  run world library (univariate_selection X y) w = (Raised (PError "ValueError"), w') ∧
  length (trace world library (univariate_selection X y) w) = 1%nat.
Proof.
  intros Hlib Hseq Hlen. unfold univariate_selection, op. simpl. rewrite Hlib. simpl.
  by rewrite (unpack4_wrong_length _ _ Hseq Hlen).
Qed.

(** When [run_rfe] returns, the run was this: a new random forest; an
    [RFE] around it that is to keep [k] features, [k] as given; its fit
    on [X] and [y] as given, unsplit and unscaled; and the result is
    [X.columns] indexed by the support. *)
Theorem run_rfe_data_flow X y k w r :
  fst (run world library (run_rfe X y k) w) = Returned r →
  ∃ model rfe fitted cols support,
    trace world library (run_rfe X y k) w
    = [ (CallFunc "sklearn.ensemble.RandomForestClassifier" [] [], Returned model);
        (CallFunc "sklearn.feature_selection.RFE" [model]
           [("n_features_to_select"%string, k)], Returned rfe);
        (CallMethod rfe "fit" [X; y] [], Returned fitted);
        (GetAttr X "columns", Returned cols);
        (CallMethod rfe "get_support" [] [], Returned support);
        (GetItem cols support, Returned r) ].
Proof.
  unfold run_rfe, op. simpl. intros H.
  do 6 next_answer H. injection H as ->. by eexists _, _, _, _, _.
Qed.

(** When [preprocessing_fn] returns, its dictionary has the three keys
    in this order; [input_ids] and [input_mask] are the two results of
    padding to length 128 the tokens combined with the start and end
    tokens 101 and 102; [input_type_ids] are the segment ids as
    [combine_segments] returned them: they are not padded. *)
Theorem preprocessing_fn_data_flow inputs w d :
  fst (run world library (preprocessing_fn inputs) w) = Returned d →
  ∃ tokenizer message text tokenized tokens combined with_ends type_ids
    padded input_ids input_mask,
    sequence_of combined [with_ends; type_ids] ∧
    sequence_of padded [input_ids; input_mask] ∧
    d = [("input_ids"%string, input_ids); ("input_mask"%string, input_mask);
         ("input_type_ids"%string, type_ids)] ∧
    trace world library (preprocessing_fn inputs) w
    = [ (CallFunc "tf_text.BertTokenizer" [PGlobal "Ellipsis"] [], Returned tokenizer);
        (GetItem inputs (PStr "message"), Returned message);
        (CallFunc "tf_text.normalize_utf8" [message] [], Returned text);
        (CallMethod tokenizer "tokenize" [text] [], Returned tokenized);
        (CallMethod tokenized "merge_dims" [PInt (-2); PInt (-1)] [], Returned tokens);
        (CallFunc "tf_text.combine_segments" [tokens; PInt 101; PInt 102] [],
         Returned combined);
        (CallFunc "tf_text.pad_model_inputs" [with_ends]
           [("max_seq_length"%string, PInt 128)], Returned padded) ].
Proof.
  unfold preprocessing_fn, op. simpl. intros H.
  do 6 next_answer H.
  destruct (unpack2_cases v4) as [(a & b & E) | (e & E)]; rewrite E in H |- *;
    simpl in H |- *; [|done].
  apply unpack2_Ret in E.
  next_answer H.
  destruct (unpack2_cases v5) as [(a' & b' & E') | (e & E')]; rewrite E' in H |- *;
    simpl in H |- *; [|done].
  apply unpack2_Ret in E'. injection H as <-.
  by eexists _, _, _, _, _, v4, a, b, v5, a', b'.
Qed.

(** When [augment] returns, the run was this: the image padded or
    cropped to eight more than the given height and width; a random crop
    of that back to the given height, width and number of channels; a
    random left-right flip of the crop, which is the result.  The
    sizes are the caller's numbers: nothing is read from the image. *)
Theorem augment_data_flow x height width num_channels w r :
  fst (run world library (augment x height width num_channels) w) = Returned r →
  ∃ padded cropped,
    trace world library (augment x height width num_channels) w
    = [ (CallFunc "tf.image.resize_with_crop_or_pad"
           [x; PInt (height + 8); PInt (width + 8)] [], Returned padded);
        (CallFunc "tf.image.random_crop"
           [padded; PList [PInt height; PInt width; PInt num_channels]] [],
         Returned cropped);
        (CallFunc "tf.image.random_flip_left_right" [cropped] [], Returned r) ].
Proof.
  unfold augment, op. simpl. intros H.
  do 3 next_answer H. injection H as ->. by eexists _, _.
Qed.

End LibraryCallsMore.

Lemma univariate_selection_operations_witness :
  fst (LibraryCalls.run N LibraryCalls.toy_library
         (LibraryCalls.univariate_selection (LibraryCalls.PObj 0) (LibraryCalls.PObj 1))
         2%N)
  = LibraryCalls.Raised (LibraryCalls.PError "ValueError").
Proof.
  refine (proj1 (univariate_selection_operations N LibraryCalls.toy_library
                   (LibraryCalls.PObj 0) (LibraryCalls.PObj 1) 2%N
                   (LibraryCalls.CallMethod (LibraryCalls.PObj 8) "fit"
                      [LibraryCalls.PObj 7; LibraryCalls.PObj 4] [])
                   (LibraryCalls.PError "ValueError") _)).
  reflexivity.
Defined.

Lemma univariate_selection_data_flow_witness :
  ∃ split X_train X_test y_train y_test,
    LibraryCalls.trace N MoreLibraryCalls.obliging_library
      (LibraryCalls.univariate_selection (LibraryCalls.PObj 0) (LibraryCalls.PObj 1)) 2%N
    !! 0%nat
    = Some (LibraryCalls.CallFunc "sklearn.model_selection.train_test_split"
              [LibraryCalls.PObj 0; LibraryCalls.PObj 1]
              [("stratify"%string, LibraryCalls.PObj 1);
               ("test_size"%string, LibraryCalls.PFloat "0.2")],
            LibraryCalls.Returned split) ∧
    MoreLibraryCalls.sequence_of split [X_train; X_test; y_train; y_test].
Proof.
  destruct (univariate_selection_data_flow N MoreLibraryCalls.obliging_library
              (LibraryCalls.PObj 0) (LibraryCalls.PObj 1) 2%N (LibraryCalls.PObj 12))
    as (split & a & b & c & d & ? & ? & ? & ? & ? & ? & Hs & Ht).
  - reflexivity.
  - exists split, a, b, c, d. rewrite Ht. by split.
Defined.

Lemma univariate_selection_bad_split_witness :
  LibraryCalls.run N MoreLibraryCalls.halving_library
    (LibraryCalls.univariate_selection (LibraryCalls.PObj 0) (LibraryCalls.PObj 1)) 2%N
  = (LibraryCalls.Raised (LibraryCalls.PError "ValueError"), 4%N).
Proof.
  refine (proj1 (univariate_selection_bad_split N MoreLibraryCalls.halving_library
                   (LibraryCalls.PObj 0) (LibraryCalls.PObj 1) 2%N
                   _ [LibraryCalls.PObj 2; LibraryCalls.PObj 3] 4%N _ _ _)).
  - reflexivity.
  - by left.
  - simpl. lia.
Defined.

Lemma run_rfe_data_flow_witness :
  length (LibraryCalls.trace N MoreLibraryCalls.obliging_library
            (MoreLibraryCalls.run_rfe (LibraryCalls.PObj 0) (LibraryCalls.PObj 1)
               (LibraryCalls.PInt 5)) 2%N) = 6%nat.
Proof.
  destruct (run_rfe_data_flow N MoreLibraryCalls.obliging_library
              (LibraryCalls.PObj 0) (LibraryCalls.PObj 1) (LibraryCalls.PInt 5) 2%N
              (LibraryCalls.PObj 7))
    as (? & ? & ? & ? & ? & Ht).
  - reflexivity.
  - by rewrite Ht.
Defined.

Lemma augment_data_flow_witness :
  length (LibraryCalls.trace N MoreLibraryCalls.obliging_library
            (LibraryCalls.augment (LibraryCalls.PObj 0) 32 32 3) 1%N) = 3%nat.
Proof.
  destruct (augment_data_flow N MoreLibraryCalls.obliging_library
              (LibraryCalls.PObj 0) 32 32 3 1%N (LibraryCalls.PObj 3))
    as (? & ? & Ht).
  - reflexivity.
  - by rewrite Ht.
Defined.

Lemma preprocessing_fn_data_flow_witness :
  length (LibraryCalls.trace N MoreLibraryCalls.obliging_library
            (MoreLibraryCalls.preprocessing_fn (LibraryCalls.PObj 0)) 1%N) = 7%nat.
Proof.
  destruct (preprocessing_fn_data_flow N MoreLibraryCalls.obliging_library
              (LibraryCalls.PObj 0) 1%N
              [("input_ids"%string, LibraryCalls.PObj 8);
               ("input_mask"%string, LibraryCalls.PObj 9);
               ("input_type_ids"%string, LibraryCalls.PObj 7)])
    as (? & ? & ? & ? & ? & ? & ? & ? & ? & ? & ? & _ & _ & _ & Ht).
  - reflexivity.
  - by rewrite Ht.
Defined.

(** ** Hiding labels and picking the first labelled points *)

Section LabelHidingFacts.

Import LabelHiding.

Lemma where_from_In i mask j :
  In j (where_from i mask) ↔ ∃ k : nat, j = i + Z.of_nat k ∧ mask !! k = Some true.
Proof.
  revert i. induction mask as [|b mask IH]; intros i; simpl.
  - split; [done | by intros (k & _ & ?)].
  - assert (Hshift : In j (where_from (i + 1) mask)
                     ↔ ∃ k : nat, j = i + Z.of_nat (S k) ∧ mask !! k = Some true).
    { rewrite IH. split; intros (k & -> & Hk); exists k; (split; [lia | done]). }
    destruct b; simpl; rewrite ?Hshift; split.
    + intros [<- | (k & -> & Hk)]; [exists 0%nat; split; [lia | done] | by exists (S k)].
    + intros ([|k] & -> & Hk); [left; lia | right; by exists k].
    + intros (k & -> & Hk). by exists (S k).
    + intros ([|k] & -> & Hk); [done | by exists k].
Qed.

Lemma where_from_sorted i mask :
  StronglySorted Z.lt (where_from i mask) ∧ Forall (λ j, i <= j) (where_from i mask).
Proof.
  revert i. induction mask as [|b mask IH]; intros i; simpl.
  - split; constructor.
  - destruct (IH (i + 1)) as [Hs Hb].
    assert (Hb' : Forall (λ j, i <= j) (where_from (i + 1) mask)).
    { eapply Forall_impl; [exact Hb|]. simpl. lia. }
    destruct b; [|done]. split.
    + constructor; [done|]. eapply Forall_impl; [exact Hb|]. simpl. lia.
    + constructor; [lia | done].
Qed.

Lemma where_from_length i mask :
  length (where_from i mask) = length (List.filter (λ b : bool, b) mask).
Proof.
  revert i. induction mask as [|b mask IH]; intros i; simpl; [done|].
  destruct b; simpl; by rewrite IH.
Qed.

Lemma StronglySorted_take_lt n (l : list Z) :
  StronglySorted Z.lt l → StronglySorted Z.lt (take n l).
Proof.
  intros H. revert n. induction H as [|x l Hs IH Hx]; intros [|n]; simpl;
    try constructor; [apply IH|].
  apply Forall_take. done.
Qed.

Lemma getitems_in_range (a : list Z) (idx : list Z) :
  Forall (λ i, 0 <= i < Z.of_nat (length a)) idx →
  ∃ ls, getitems a idx = Done ls ∧ Forall2 (λ i l, a !! Z.to_nat i = Some l) idx ls.
Proof.
  induction 1 as [|i idx Hi _ (ls & Hls & HF)]; simpl.
  - exists []. by split.
  - unfold getitem.
    destruct (Z.ltb_spec i 0); [lia|].
    destruct (Z.leb_spec 0 i); [|lia].
    destruct (Z.ltb_spec i (Z.of_nat (length a))); [|lia]. simpl.
    destruct (lookup_lt_is_Some_2 a (Z.to_nat i) ltac:(lia)) as [x Hx].
    rewrite Hx. simpl. rewrite Hls. simpl. exists (x :: ls). split; [done|].
    by constructor.
Qed.

Lemma Forall2_with_left {A B} (P : A → B → Prop) (Q : A → Prop) l k :
  Forall2 P l k → Forall Q l → Forall2 (λ x y, P x y ∧ Q x) l k.
Proof.
  induction 1 as [|x y l k Hxy _ IH]; [constructor|].
  intros HQ. inversion HQ; subst. constructor; [done | by apply IH].
Qed.

Lemma load_Done σ x l a :
  load σ x = Done (l, a) ↔ names σ !! x = Some l ∧ arrays σ !! l = Some a.
Proof.
  unfold load. destruct (names σ !! x) as [l'|]; [|by split; [|intros []]].
  destruct (arrays σ !! l') as [a'|] eqn:E.
  - split; [by intros [= <- <-] | by intros [[= ->] [= ->]%(eq_trans (eq_sym E))]].
  - split; [done | intros [[= ->] ?]; congruence].
Qed.

(** A new binding leaves what the other names refer to as it is. *)
Lemma load_bind_new_ne σ x x' a l v :
  x ≠ x' → load σ x' = Done (l, v) → load (bind_new σ x a) x' = Done (l, v).
Proof.
  intros Hx [Hn Ha]%load_Done. apply load_Done. unfold bind_new. simpl.
  rewrite lookup_insert_ne by done. split; [done|].
  rewrite lookup_insert_ne; [done|].
  intros <-. apply (is_fresh (dom (arrays σ))). apply elem_of_dom. eauto.
Qed.

Lemma load_bind_new_eq σ x a :
  load (bind_new σ x a) x = Done (fresh (dom (arrays σ)), a).
Proof. apply load_Done. unfold bind_new. simpl. by rewrite !lookup_insert_eq. Qed.

(** The labels as hidden by the draws, the positions picked, and the
    labels read back at these positions. *)
Lemma picked_labels (y : list Z) (draws : list float) :
  length draws = length y →
  ∃ ls,
    getitems y (take 10 (where_from 0
                  (ne_scalar (assign_where (lt_scalar draws threshold) (-1) y) (-1))))
    = Done ls ∧
    Forall2 (λ i l, 0 <= i ∧ y !! Z.to_nat i = Some l ∧ l ≠ -1 ∧
                    ∃ r, draws !! Z.to_nat i = Some r ∧ PrimFloat.ltb r threshold = false)
      (take 10 (where_from 0
         (ne_scalar (assign_where (lt_scalar draws threshold) (-1) y) (-1)))) ls.
Proof.
  intros Hlen.
  set (ym := assign_where (lt_scalar draws threshold) (-1) y).
  set (idx := take 10 (where_from 0 (ne_scalar ym (-1)))).
  assert (Hidx : ∀ i, In i idx →
            ∃ k yk r, i = Z.of_nat k ∧ y !! k = Some yk ∧ draws !! k = Some r ∧
                      PrimFloat.ltb r threshold = false ∧ yk ≠ -1).
  { intros i Hi. apply list_elem_of_In, elem_of_take in Hi as (n & Hi & _).
    apply list_elem_of_lookup_2, list_elem_of_In, where_from_In in Hi as (k & -> & Hk).
    unfold ne_scalar, ym, assign_where, lt_scalar in Hk.
    rewrite list_lookup_fmap, lookup_zip_with, list_lookup_fmap in Hk.
    destruct (draws !! k) as [r|] eqn:Hr; simpl in Hk; [|done].
    destruct (y !! k) as [yk|] eqn:Hy; simpl in Hk; [|done].
    exists k, yk, r. split; [lia|]. split; [done|]. split; [done|].
    destruct (PrimFloat.ltb r threshold); simpl in Hk; [done|].
    split; [done|]. injection Hk as Hk. apply negb_true_iff, Z.eqb_neq in Hk. done. }
  destruct (getitems_in_range y idx) as (ls & Hls & HF).
  { apply List.Forall_forall. intros i Hi.
    destruct (Hidx i Hi) as (k & yk & r & -> & Hy & _).
    apply lookup_lt_Some in Hy. lia. }
  exists ls. split; [done|].
  eapply Forall2_impl.
  { apply (Forall2_with_left _ (λ i, In i idx) _ _ HF).
    apply List.Forall_forall. auto. }
  intros i l [Hl Hi]. simpl in Hl.
  destruct (Hidx i Hi) as (k & yk & r & -> & Hy & Hr & Hlt & Hne).
  rewrite Nat2Z.id in Hl |- *. rewrite Hy in Hl. injection Hl as <-.
  split; [lia|]. split; [done|]. split; [done|]. by exists r.
Qed.

Lemma load_int_Done σ x l v :
  load σ x = Done (l, IntArray v) → load_int σ x = Done (l, v).
Proof. unfold load_int. by intros ->. Qed.

(** The run of the hiding statements, spelled out. *)
Lemma hide_labels_Done (rand : nat → list float) σ ly y :
  load σ "y" = Done (ly, IntArray y) →
  length (rand (length y)) = length y →
  let m := lt_scalar (rand (length y)) threshold in
  let σ2 := bind_new (bind_new σ "y_missing" (IntArray y))
              "unlabeled_indices" (BoolArray m) in
  let lm := fresh (dom (arrays σ)) in
  let σ' := store σ2 lm (IntArray (assign_where m (-1) y)) in
  hide_labels rand σ = Done σ' ∧
  load σ' "y" = Done (ly, IntArray y) ∧
  load σ' "y_missing" = Done (lm, IntArray (assign_where m (-1) y)) ∧
  lm ≠ ly.
Proof.
  intros Hy Hlen m σ2 lm σ'.
  set (σ1 := bind_new σ "y_missing" (IntArray y)).
  assert (H1 : load σ1 "y_missing" = Done (lm, IntArray y)) by apply load_bind_new_eq.
  assert (H2 : load σ2 "y_missing" = Done (lm, IntArray y)) by by apply load_bind_new_ne.
  assert (H3 : load σ2 "unlabeled_indices" = Done (fresh (dom (arrays σ1)), BoolArray m))
    by apply load_bind_new_eq.
  assert (Hy2 : load σ2 "y" = Done (ly, IntArray y)).
  { apply load_bind_new_ne; [done|]. by apply load_bind_new_ne. }
  assert (Hne : lm ≠ ly).
  { apply load_Done in Hy as [_ Hy]. intros E. rewrite <- E in Hy.
    apply (is_fresh (dom (arrays σ))). apply elem_of_dom. by eexists. }
  split.
  { unfold hide_labels. rewrite (load_int_Done _ _ _ _ Hy).
    cbn -[bind_new load_int load_bool store lt_scalar assign_where].
    subst σ1. fold m. unfold σ2 in H2, H3. rewrite (load_int_Done _ _ _ _ H2).
    cbn -[bind_new load_int load_bool store lt_scalar assign_where].
    unfold load_bool. rewrite H3.
    cbn -[bind_new load_int load_bool store lt_scalar assign_where].
    rewrite decide_True; [done|]. unfold m, lt_scalar. by rewrite length_fmap. }
  split.
  { apply load_Done in Hy2 as [? ?]. apply load_Done. unfold σ', store.
    cbn [names arrays]. split; [done|]. by rewrite lookup_insert_ne. }
  split; [|done].
  apply load_Done in H2 as [? ?]. apply load_Done. unfold σ', store.
  cbn [names arrays]. split; [done|]. by rewrite lookup_insert_eq.
Qed.

(** Hiding labels works on a copy.  Afterwards [y] names the same array
    with the same labels; [y_missing] names another array of the same
    length that holds -1 where the draw is below 0.8 and the label of
    [y] elsewhere; no array that existed before is changed. *)
Theorem hide_labels_copy (rand : nat → list float) σ ly y :
  load σ "y" = Done (ly, IntArray y) →
  length (rand (length y)) = length y →
  ∃ σ' lm ym,
    hide_labels rand σ = Done σ' ∧
    load σ' "y" = Done (ly, IntArray y) ∧
    load σ' "y_missing" = Done (lm, IntArray ym) ∧
    lm ≠ ly ∧ length ym = length y ∧
    (∀ i yi r, y !! i = Some yi → rand (length y) !! i = Some r →
       ym !! i = Some (if PrimFloat.ltb r threshold then -1 else yi)) ∧
    (∀ l a, arrays σ !! l = Some a → arrays σ' !! l = Some a).
Proof.
  intros Hy Hlen.
  destruct (hide_labels_Done rand σ ly y Hy Hlen) as (Hrun & Hy' & Hm' & Hne).
  eexists _, _, _. split; [exact Hrun|]. split; [exact Hy'|]. split; [exact Hm'|].
  split; [done|]. split.
  { unfold assign_where, lt_scalar. rewrite length_zip_with, length_fmap. lia. }
  split.
  { intros i yi r Hi Hr. unfold assign_where, lt_scalar.
    by rewrite lookup_zip_with, list_lookup_fmap, Hr, Hi. }
  intros l a Hl. unfold store, bind_new. simpl.
  assert (Hfresh : ∀ (M : gmap positive ndarray) b, M !! l = Some b → l ≠ fresh (dom M)).
  { intros M b HM ->. apply (is_fresh (dom M)). apply elem_of_dom. by eexists. }
  assert (Hl1 : <[fresh (dom (arrays σ)) := IntArray y]> (arrays σ) !! l = Some a).
  { rewrite lookup_insert_ne; [done|]. symmetry. by eapply Hfresh. }
  rewrite lookup_insert_ne by (symmetry; by eapply Hfresh).
  rewrite lookup_insert_ne; [done|]. symmetry. by eapply (Hfresh _ _ Hl1).
Qed.

(** The classifier is fit on kept labels only.  After the labels are
    hidden and the initial points picked, [y[initial_idx]] does not
    raise; there are at most ten picked positions, in increasing order,
    and each is a position whose draw was not below 0.8, read with its
    label from [y], which is never the marker -1. *)
Theorem fit_labels_kept (rand : nat → list float) σ ly y :
  load σ "y" = Done (ly, IntArray y) →
  length (rand (length y)) = length y →
  ∃ σ1 σ2 li idx ls,
    hide_labels rand σ = Done σ1 ∧ pick_initial σ1 = Done σ2 ∧
    load σ2 "initial_idx" = Done (li, IntArray idx) ∧
    fit_labels σ2 = Done ls ∧
    (length idx ≤ 10)%nat ∧ StronglySorted Z.lt idx ∧
    Forall2 (λ i l, 0 <= i ∧ y !! Z.to_nat i = Some l ∧ l ≠ -1 ∧
                    ∃ r, rand (length y) !! Z.to_nat i = Some r
                         ∧ PrimFloat.ltb r threshold = false) idx ls.
Proof.
  intros Hy Hlen.
  destruct (hide_labels_Done rand σ ly y Hy Hlen) as (Hh & Hy1 & Hm1 & _).
  destruct (picked_labels y (rand (length y)) Hlen) as (ls & Hls & HF).
  set (ym := assign_where (lt_scalar (rand (length y)) threshold) (-1) y) in *.
  set (idx := take 10 (where_from 0 (ne_scalar ym (-1)))) in *.
  set (σ1 := store _ _ _) in *.
  exists σ1, (bind_new σ1 "initial_idx" (IntArray idx)), (fresh (dom (arrays σ1))), idx, ls.
  split; [done|]. split.
  { unfold pick_initial. by rewrite (load_int_Done _ _ _ _ Hm1). }
  split; [apply load_bind_new_eq|]. split.
  { assert (Hy2 : load (bind_new σ1 "initial_idx" (IntArray idx)) "y"
                  = Done (ly, IntArray y)) by by apply load_bind_new_ne.
    unfold fit_labels. rewrite (load_int_Done _ _ _ _ Hy2).
    cbn -[bind_new load_int getitems].
    by rewrite (load_int_Done _ _ _ _ (load_bind_new_eq σ1 "initial_idx" (IntArray idx))). }
  split; [unfold idx; rewrite length_take; lia|].
  split; [|done]. apply StronglySorted_take_lt, where_from_sorted.
Qed.

Lemma hidden_mask (y : list Z) (draws : list float) :
  length draws = length y → Forall (λ l, l ≠ -1) y →
  ne_scalar (assign_where (lt_scalar draws threshold) (-1) y) (-1)
  = (λ r, negb (PrimFloat.ltb r threshold)) <$> draws.
Proof.
  intros Hlen Hy. revert draws Hlen.
  induction Hy as [|l y Hl _ IH]; intros [|r draws] Hlen; simpl in *; try done.
  unfold ne_scalar, assign_where, lt_scalar in *. csimpl.
  rewrite IH by lia. f_equal.
  destruct (PrimFloat.ltb r threshold); simpl; [done|]. by apply negb_true_iff, Z.eqb_neq.
Qed.

Lemma filter_fmap_length {A} (f : A → bool) (l : list A) :
  length (List.filter (λ b : bool, b) (f <$> l)) = length (List.filter f l).
Proof.
  induction l as [|a l IH]; csimpl; [done|]. destruct (f a); simpl; by rewrite IH.
Qed.

(** How many points are picked.  When no label of [y] is the marker
    itself, as many positions are picked as there are draws not below
    0.8, but never more than ten: with fewer than ten such draws the
    classifier is fit on fewer than ten points, and with none on an
    empty sample. *)
Theorem initial_idx_count (rand : nat → list float) σ ly y :
  load σ "y" = Done (ly, IntArray y) →
  length (rand (length y)) = length y →
  Forall (λ l, l ≠ -1) y →
  ∃ σ1 σ2 li idx,
    hide_labels rand σ = Done σ1 ∧ pick_initial σ1 = Done σ2 ∧
    load σ2 "initial_idx" = Done (li, IntArray idx) ∧
    length idx
    = (10 `min` length (List.filter (λ r, negb (PrimFloat.ltb r threshold))
                          (rand (length y))))%nat.
Proof.
  intros Hy Hlen Hlab.
  destruct (hide_labels_Done rand σ ly y Hy Hlen) as (Hh & _ & Hm1 & _).
  set (σ1 := store _ _ _) in *.
  eexists σ1, _, _, _. split; [done|]. split.
  { unfold pick_initial. by rewrite (load_int_Done _ _ _ _ Hm1). }
  split; [apply load_bind_new_eq|].
  by rewrite length_take, where_from_length, hidden_mask, filter_fmap_length.
Qed.

End LabelHidingFacts.

Lemma hide_labels_copy_witness :
  ∃ σ' ly lm ym,
    LabelHiding.hide_labels LabelHiding.alternating (LabelHiding.kernel_with [0; 1; 1; 0; 1])
    = LabelHiding.Done σ' ∧
    LabelHiding.load σ' "y" = LabelHiding.Done (ly, LabelHiding.IntArray [0; 1; 1; 0; 1]) ∧
    LabelHiding.load σ' "y_missing" = LabelHiding.Done (lm, LabelHiding.IntArray ym) ∧
    lm ≠ ly.
Proof.
  destruct (hide_labels_copy LabelHiding.alternating
              (LabelHiding.kernel_with [0; 1; 1; 0; 1])
              (fresh (dom (∅ : gmap positive LabelHiding.ndarray))) [0; 1; 1; 0; 1])
    as (σ' & lm & ym & H1 & H2 & H3 & H4 & _).
  - reflexivity.
  - reflexivity.
  - by eexists σ', _, lm, ym.
Defined.

Lemma fit_labels_kept_witness :
  ∃ σ1 σ2,
    LabelHiding.hide_labels LabelHiding.alternating (LabelHiding.kernel_with [0; 1; 1; 0; 1])
    = LabelHiding.Done σ1 ∧
    LabelHiding.pick_initial σ1 = LabelHiding.Done σ2 ∧
    ∃ ls, LabelHiding.fit_labels σ2 = LabelHiding.Done ls ∧ Forall (λ l, l ≠ -1) ls.
Proof.
  destruct (fit_labels_kept LabelHiding.alternating
              (LabelHiding.kernel_with [0; 1; 1; 0; 1])
              (fresh (dom (∅ : gmap positive LabelHiding.ndarray))) [0; 1; 1; 0; 1])
    as (σ1 & σ2 & li & idx & ls & H1 & H2 & _ & H4 & _ & _ & HF).
  - reflexivity.
  - reflexivity.
  - exists σ1, σ2. split; [done|]. split; [done|]. exists ls. split; [done|].
    clear -HF. induction HF as [|i l idx ls (_ & _ & Hl & _) _ IH]; by constructor.
Defined.

Lemma initial_idx_count_witness :
  ∃ σ1 σ2 li idx,
    LabelHiding.hide_labels LabelHiding.alternating (LabelHiding.kernel_with [0; 1; 1; 0; 1])
    = LabelHiding.Done σ1 ∧
    LabelHiding.pick_initial σ1 = LabelHiding.Done σ2 ∧
    LabelHiding.load σ2 "initial_idx" = LabelHiding.Done (li, LabelHiding.IntArray idx) ∧
    length idx = 2%nat.
Proof.
  destruct (initial_idx_count LabelHiding.alternating
              (LabelHiding.kernel_with [0; 1; 1; 0; 1])
              (fresh (dom (∅ : gmap positive LabelHiding.ndarray))) [0; 1; 1; 0; 1])
    as (σ1 & σ2 & li & idx & H1 & H2 & H3 & H4).
  - reflexivity.
  - reflexivity.
  - repeat constructor; lia.
  - by exists σ1, σ2, li, idx.
Defined.

(** ** The statistics cells of chapter 2, run in a kernel *)

Section Chapter2KernelFacts.

Import LibraryCalls Chapter2Kernel.

Variable world : Type.
Variable library : libop → world → outcome pyobj * world.

Ltac kernel_step H :=
  first
    [ rewrite lookup_insert_eq in H
    | rewrite lookup_insert_eq
    | rewrite lookup_insert_ne in H by done
    | rewrite lookup_insert_ne by done
    | match type of H with
      | context [library ?o ?w] =>
          let v := fresh "v" in
          let w' := fresh "w" in
          destruct (library o w) as [[v|?] w'] eqn:?; [|discriminate H]
      end ];
  cbn [run trace prog_bind mbind prog_mbind mret prog_mret fst snd app] in H |- *.

(** Run in narrative order without an exception, the cells perform
    these operations: the statistics of the CSV file are bound to
    [stats] and replaced by those of the TFRecord file before anything
    reads them; what is visualised, and what the printed histogram is
    taken from, are the TFRecord statistics, which [stats] names at the
    end. *)
Theorem stats_overwritten ns w :
  fst (fst (execute world library (cell_csv ++ cell_tfrecord ++ cell_print) ns w)) = None →
  ∃ tfdv csv_stats stats shown datasets dataset features feature string_stats
    histogram printed,
    performed world library (cell_csv ++ cell_tfrecord ++ cell_print) ns w
    = [ (CallFunc "builtins.__import__" [PStr "tensorflow_data_validation"] [],
         Returned tfdv);
        (CallFunc "tfdv.generate_statistics_from_csv" []
           [("data_location"%string, PStr "your_data.csv");
            ("delimiter"%string, PStr ",")], Returned csv_stats);
        (CallFunc "tfdv.generate_statistics_from_tfrecord" []
           [("data_location"%string, PStr "your_data.tfrecord")], Returned stats);
        (CallFunc "tfdv.visualize_statistics" [stats] [], Returned shown);
        (GetAttr stats "datasets", Returned datasets);
        (GetItem datasets (PInt 0), Returned dataset);
        (GetAttr dataset "features", Returned features);
        (GetItem features (PInt 0), Returned feature);
        (GetAttr feature "string_stats", Returned string_stats);
        (GetAttr string_stats "rank_histogram", Returned histogram);
        (CallFunc "builtins.print" [histogram] [], Returned printed) ] ∧
    snd (fst (execute world library (cell_csv ++ cell_tfrecord ++ cell_print) ns w))
    !! "stats"%string = Some stats.
Proof.
  unfold cell_csv, cell_tfrecord, cell_print. cbn [app execute performed].
  unfold import_tfdv, assign_stats_csv, assign_stats_tfrecord, visualize, print_histogram,
    stats_from_csv, print_rank_histogram, name, op.
  cbn [run trace prog_bind mbind prog_mbind mret prog_mret fst snd app].
  intros H. repeat kernel_step H.
  eexists _, _, _, _, _, _, _, _, _, _, _. split; [reflexivity|].
  reflexivity.
Qed.

(** A cell run before the cells it depends on raises [NameError]
    before any library operation, and leaves the namespace as it was:
    the print cell without [stats], the TFRecord cell without [tfdv]. *)
Theorem cells_need_earlier_cells ns w :
  (ns !! "stats"%string = None →
   execute world library cell_print ns w = (Some (PError "NameError"), ns, w) ∧
   performed world library cell_print ns w = []) ∧
  (ns !! "tfdv"%string = None →
   execute world library cell_tfrecord ns w = (Some (PError "NameError"), ns, w) ∧
   performed world library cell_tfrecord ns w = []).
Proof.
  unfold cell_print, cell_tfrecord, print_histogram, assign_stats_tfrecord, name.
  split; intros Hns; cbn [execute performed]; by rewrite Hns.
Qed.

(** A failure leaves the earlier statements of the cell done: when
    visualising raises, the cell ends with that exception and [stats] is
    bound to the new TFRecord statistics all the same. *)
Theorem visualize_failure_keeps_stats ns w tfdv stats w1 e w2 :
  ns !! "tfdv"%string = Some tfdv →
  library (CallFunc "tfdv.generate_statistics_from_tfrecord" []
             [("data_location"%string, PStr "your_data.tfrecord")]) w
  = (Returned stats, w1) →
  library (CallFunc "tfdv.visualize_statistics" [stats] []) w1 = (Raised e, w2) →
  execute world library cell_tfrecord ns w
  = (Some e, <["stats"%string := stats]> ns, w2).
Proof.
  intros Hns Hstats Hvis.
  unfold cell_tfrecord, assign_stats_tfrecord, visualize, name, op.
  cbn [execute]. rewrite Hns.
  cbn [run prog_bind mbind prog_mbind mret prog_mret]. rewrite Hstats.
  cbn [run prog_bind mbind prog_mbind mret prog_mret].
  rewrite (lookup_insert_ne _ "stats"%string "tfdv"%string) by done.
  rewrite Hns, lookup_insert_eq.
  cbn [run prog_bind mbind prog_mbind mret prog_mret]. by rewrite Hvis.
Qed.

End Chapter2KernelFacts.

Lemma stats_overwritten_witness :
  snd (fst (Chapter2Kernel.execute N MoreLibraryCalls.obliging_library
              (Chapter2Kernel.cell_csv ++ Chapter2Kernel.cell_tfrecord
               ++ Chapter2Kernel.cell_print) ∅ 0%N))
  !! "stats"%string = Some (LibraryCalls.PObj 2).
Proof.
  destruct (stats_overwritten N MoreLibraryCalls.obliging_library ∅ 0%N)
    as (? & ? & stats & ? & ? & ? & ? & ? & ? & ? & ? & Hp & Hs).
  - reflexivity.
  - rewrite Hs. f_equal.
    assert (E : LibraryCalls.Returned stats = LibraryCalls.Returned (LibraryCalls.PObj 2)).
    { apply (f_equal (λ l, snd <$> l !! 2%nat)) in Hp. simpl in Hp.
      vm_compute in Hp. by injection Hp as <-. }
    by injection E.
Defined.

Lemma visualize_failure_keeps_stats_witness :
  Chapter2Kernel.execute N Chapter2Kernel.blind_library Chapter2Kernel.cell_tfrecord
    {[ "tfdv"%string := LibraryCalls.PObj 0 ]} 1%N
  = (Some (LibraryCalls.PError "RuntimeError"),
     <["stats"%string := LibraryCalls.PObj 1]> {[ "tfdv"%string := LibraryCalls.PObj 0 ]},
     2%N).
Proof.
  apply (visualize_failure_keeps_stats N Chapter2Kernel.blind_library _ 1%N
           (LibraryCalls.PObj 0) (LibraryCalls.PObj 1) 2%N _ 2%N).
  - reflexivity.
  - reflexivity.
  - reflexivity.
Defined.

(** ** Schema inference and validation of chapter 4, run in a kernel *)

Section Chapter4KernelFacts.

Import LibraryCalls Chapter2Kernel Chapter4Kernel.

Variable world : Type.
Variable library : libop → world → outcome pyobj * world.

Ltac fence_step H :=
  first
    [ rewrite lookup_insert_eq in H
    | rewrite lookup_insert_eq
    | rewrite lookup_insert_ne in H by done
    | rewrite lookup_insert_ne by done
    | match type of H with
      | context [library ?o ?w] =>
          let v := fresh "v" in
          let w' := fresh "w" in
          destruct (library o w) as [[v|?] w'] eqn:?; [|discriminate H]
      end ];
  cbn [run trace prog_bind mbind prog_mbind mret prog_mret fst snd app] in H |- *.

(** Run one after the other without an exception, the two blocks
    validate the statistics of [train.tfrecord] against the schema that
    was inferred from these same statistics: no second dataset is read,
    and what is displayed at the end are the anomalies this validation
    returned. *)
Theorem validation_against_own_schema ns w :
  fst (fst (execute world library (fence_infer ++ fence_validate) ns w)) = None →
  ∃ tfdv dataset_stats schema shown anomalies shown',
    performed world library (fence_infer ++ fence_validate) ns w
    = [ (CallFunc "builtins.__import__" [PStr "tensorflow_data_validation"] [],
         Returned tfdv);
        (CallFunc "tfdv.generate_statistics_from_tfrecord" [PStr "train.tfrecord"] [],
         Returned dataset_stats);
        (CallFunc "tfdv.infer_schema" [] [("statistics"%string, dataset_stats)],
         Returned schema);
        (CallFunc "tfdv.display_schema" [schema] [], Returned shown);
        (CallFunc "tfdv.validate_statistics" []
           [("statistics"%string, dataset_stats); ("schema"%string, schema)],
         Returned anomalies);
        (CallFunc "tfdv.display_anomalies" [anomalies] [], Returned shown') ].
Proof.
  unfold fence_infer, fence_validate. cbn [app execute performed].
  unfold import_tfdv, assign_dataset_stats, assign_schema, display_schema,
    assign_anomalies, display_anomalies, name, op.
  cbn [run trace prog_bind mbind prog_mbind mret prog_mret fst snd app].
  intros H. repeat fence_step H.
  by eexists _, _, _, _, _, _.
Qed.

(** The validation block alone, in a namespace where the first block
    has not run, raises [NameError] before any library operation. *)
Theorem validation_needs_inference ns w :
  (ns !! "tfdv"%string = None ∨ ns !! "dataset_stats"%string = None
   ∨ ns !! "schema"%string = None) →
  execute world library fence_validate ns w = (Some (PError "NameError"), ns, w) ∧
  performed world library fence_validate ns w = [].
Proof.
  unfold fence_validate, assign_anomalies, name. cbn [execute performed].
  intros H.
  destruct (ns !! "tfdv"%string); [|done].
  destruct (ns !! "dataset_stats"%string); [|done].
  destruct (ns !! "schema"%string); [|done].
  by destruct H as [|[|]].
Qed.

End Chapter4KernelFacts.

Lemma validation_against_own_schema_witness :
  length (Chapter2Kernel.performed N MoreLibraryCalls.obliging_library
            (Chapter4Kernel.fence_infer ++ Chapter4Kernel.fence_validate) ∅ 0%N) = 6%nat.
Proof.
  destruct (validation_against_own_schema N MoreLibraryCalls.obliging_library ∅ 0%N)
    as (? & ? & ? & ? & ? & ? & Hp).
  - reflexivity.
  - by rewrite Hp.
Defined.

Lemma validation_needs_inference_witness :
  Chapter2Kernel.execute N MoreLibraryCalls.obliging_library
    Chapter4Kernel.fence_validate ∅ 0%N
  = (Some (LibraryCalls.PError "NameError"), ∅, 0%N).
Proof.
  refine (proj1 (validation_needs_inference N MoreLibraryCalls.obliging_library ∅ 0%N _)).
  left. reflexivity.
Defined.
